(** * App Service observability agent: the observability correlation core

    A shallow embedding of the TypeScript sources
      - [src/azure/log-analytics.ts]  (LogAnalyticsConnector),
      - [src/azure/kudu.ts]           (KuduConnector),
      - [src/context.ts]              (the session context),
      - [src/tools/index.ts]          (executeTool: correlate_events and
                                       diagnose_deployment),
    and the properties of the specification stated over it.

    Conventions of the embedding.
      - JavaScript numbers are integers [Z] (minutes, milliseconds, counts,
        status codes); NaN, infinities and fractions are outside the model.
      - JavaScript strings are [string]s holding the UTF-8 bytes of the text.
        Case mapping is that of the ASCII range, where every keyword of the
        program lies, and a statement that depends on the case of other
        text is made for text of that range ([is_ascii]).  The length of a
        text is its number of bytes, which is the length JavaScript gives
        for text of the ASCII range.
      - An [async] function that may throw and that talks to a backend is a
        computation in the monad [M]: it reads and updates a [World] (the
        clock, the session context, the log of backend calls) and ends in a
        value or in a thrown exception.
      - The three backends are oracles gathered in [Env]; the renderer
        of query results is a parameter of the tools.  The connectors are
        taken as constructed: acquiring the credential is outside the
        core. *)

From Stdlib Require Import ZArith List String Ascii Bool Lia DecimalString.
From stdpp Require Import gmap strings.

Open Scope string_scope.
Open Scope list_scope.
Open Scope Z_scope.

(* ===================================================================== *)
(** ** JavaScript built-ins used by the program *)
(* ===================================================================== *)

Module Js.

(** The line feed character and the string made of it. *)
Definition LFc : ascii := ascii_of_nat 10.
Definition LF : string := String LFc EmptyString.

(** *** Strings *)


(** [String.prototype.toLowerCase], on the ASCII letters.  On text of the
    ASCII range this is the builtin; beyond that range the builtin follows
    the case tables of Unicode, and the statements that depend on how such
    text is lower-cased are made for [is_ascii] text. *)
Definition lower_ascii (c : ascii) : ascii :=
  let n := nat_of_ascii c in
  if (Nat.leb 65 n && Nat.leb n 90)%bool then ascii_of_nat (n + 32) else c.

Fixpoint toLowerCase (s : string) : string :=
  match s with
  | EmptyString => EmptyString
  | String c s' => String (lower_ascii c) (toLowerCase s')
  end.

(** [String.prototype.startsWith] and [String.prototype.includes]. *)
Fixpoint startsWith (s p : string) {struct p} : bool :=
  match p, s with
  | EmptyString, _ => true
  | String a p', String b s' => Ascii.eqb a b && startsWith s' p'
  | String _ _, EmptyString => false
  end.

Fixpoint includes (s needle : string) : bool :=
  startsWith s needle ||
  match s with
  | EmptyString => false
  | String _ s' => includes s' needle
  end.

(** The white space and the line terminators that [String.prototype.trim]
    strips.  In the ASCII range: TAB, LF, VT, FF, CR and SPACE. *)
Definition isWhiteSpace (c : ascii) : bool :=
  let n := nat_of_ascii c in
  (Nat.leb 9 n && Nat.leb n 13) || Nat.eqb n 32.

(** Beyond it, by their UTF-8 bytes: U+00A0 in two bytes; U+1680,
    U+2000 to U+200A, U+2028, U+2029, U+202F, U+205F, U+3000 and U+FEFF in
    three. *)
Definition isWhiteSpace2 (b1 b2 : ascii) : bool :=
  Nat.eqb (nat_of_ascii b1) 194 && Nat.eqb (nat_of_ascii b2) 160.

Definition isWhiteSpace3 (b1 b2 b3 : ascii) : bool :=
  let n1 := nat_of_ascii b1 in
  let n2 := nat_of_ascii b2 in
  let n3 := nat_of_ascii b3 in
  (Nat.eqb n1 225 && Nat.eqb n2 154 && Nat.eqb n3 128)
  || (Nat.eqb n1 226 && Nat.eqb n2 128
      && ((Nat.leb 128 n3 && Nat.leb n3 138)
          || Nat.eqb n3 168 || Nat.eqb n3 169 || Nat.eqb n3 175))
  || (Nat.eqb n1 226 && Nat.eqb n2 129 && Nat.eqb n3 159)
  || (Nat.eqb n1 227 && Nat.eqb n2 128 && Nat.eqb n3 128)
  || (Nat.eqb n1 239 && Nat.eqb n2 187 && Nat.eqb n3 191).

(** Strips the white space at the start of [s]; [two] and [three] tell
    the characters of two and of three bytes. *)
Fixpoint strip_spaces (two : ascii -> ascii -> bool)
    (three : ascii -> ascii -> ascii -> bool) (s : string) : string :=
  match s with
  | EmptyString => EmptyString
  | String c s1 =>
      if isWhiteSpace c then strip_spaces two three s1
      else
        match s1 with
        | String c2 s2 =>
            if two c c2 then strip_spaces two three s2
            else
              match s2 with
              | String c3 s3 =>
                  if three c c2 c3 then strip_spaces two three s3 else s
              | EmptyString => s
              end
        | EmptyString => s
        end
  end.

Definition trimStart (s : string) : string :=
  strip_spaces isWhiteSpace2 isWhiteSpace3 s.

Fixpoint rev_string (s acc : string) : string :=
  match s with
  | EmptyString => acc
  | String c s' => rev_string s' (String c acc)
  end.

(** From the end, the bytes of a character come in the reverse order. *)
Definition trimEnd (s : string) : string :=
  rev_string
    (strip_spaces (fun b2 b1 => isWhiteSpace2 b1 b2)
       (fun b3 b2 b1 => isWhiteSpace3 b1 b2 b3)
       (rev_string s EmptyString))
    EmptyString.

Definition trim (s : string) : string := trimEnd (trimStart s).

(** Truthiness of a string: the empty string is the only falsy one. *)
Definition truthy_string (s : string) : bool :=
  match s with EmptyString => false | String _ _ => true end.

(** [s.split('\n')]: the pieces between line feeds; never the empty list. *)
Fixpoint split_lines_aux (s cur : string) : list string :=
  match s with
  | EmptyString => [rev_string cur EmptyString]
  | String c s' =>
      if Ascii.eqb c LFc
      then rev_string cur EmptyString :: split_lines_aux s' EmptyString
      else split_lines_aux s' (String c cur)
  end.

Definition split_lines (s : string) : list string :=
  split_lines_aux s EmptyString.

(** [arr.join('\n')]. *)
Fixpoint join_lines (l : list string) : string :=
  match l with
  | [] => EmptyString
  | [x] => x
  | x :: rest => x +:+ LF +:+ join_lines rest
  end.

(** Template-literal rendering of an integer number: its decimal digits,
    as JavaScript prints an integer below 10^21 in absolute value. *)
Definition num_to_string (z : Z) : string :=
  NilZero.string_of_int (Z.to_int z).

(** *** Arrays and string slices *)

(** The relative index of [slice]: a negative index counts from the end,
    and the result is clamped to [0 .. len]. *)
Definition rel_index (i len : Z) : Z :=
  if i <? 0 then Z.max (len + i) 0 else Z.min i len.

(** [arr.slice(start)]. *)
Definition slice_from {A} (start : Z) (l : list A) : list A :=
  skipn (Z.to_nat (rel_index start (Z.of_nat (length l)))) l.

(** [arr.slice(0, n)] for a literal [n >= 0]. *)
Definition slice_first {A} (n : nat) (l : list A) : list A := firstn n l.

Fixpoint string_skipn (n : nat) (s : string) : string :=
  match n, s with
  | O, _ => s
  | S n', String _ s' => string_skipn n' s'
  | S _, EmptyString => EmptyString
  end.

(** [str.slice(start)]. *)
Definition string_slice_from (start : Z) (s : string) : string :=
  string_skipn (Z.to_nat (rel_index start (Z.of_nat (String.length s)))) s.

(** *** Dates *)

(** A [Date] object holds a time value, milliseconds since the epoch, or is
    an Invalid Date ([None]).  The time value is clipped to +-8.64e15. *)
Definition JsDate : Type := option Z.

Definition maxTime : Z := 8640000000000000.

Definition TimeClip (t : Z) : JsDate :=
  if Z.abs t <=? maxTime then Some t else None.

Definition msPerDay : Z := 86400000.

(** Civil date of a day number (days since 1970-01-01), proleptic
    Gregorian calendar. *)
Definition civil_from_days (days : Z) : Z * Z * Z :=
  let z := days + 719468 in
  let era := z / 146097 in
  let doe := z - era * 146097 in
  let yoe := (doe - doe / 1460 + doe / 36524 - doe / 146096) / 365 in
  let y := yoe + era * 400 in
  let doy := doe - (365 * yoe + yoe / 4 - yoe / 100) in
  let mp := (5 * doy + 2) / 153 in
  let d := doy - (153 * mp + 2) / 5 + 1 in
  let m := if mp <? 10 then mp + 3 else mp - 9 in
  (if m <=? 2 then y + 1 else y, m, d).

Definition days_from_civil (y m d : Z) : Z :=
  let y' := if m <=? 2 then y - 1 else y in
  let era := y' / 400 in
  let yoe := y' - era * 400 in
  let mp := if m >? 2 then m - 3 else m + 9 in
  let doy := (153 * mp + 2) / 5 + d - 1 in
  let doe := yoe * 365 + yoe / 4 - yoe / 100 + doy in
  era * 146097 + doe - 719468.

(** A non-negative number in decimal, left-padded with zeros to [width]. *)
Fixpoint zeros (n : nat) (s : string) : string :=
  match n with
  | O => s
  | S n' => String "0" (zeros n' s)
  end.

Definition pad (width : nat) (z : Z) : string :=
  let s := num_to_string z in
  zeros (width - String.length s) s.

(** The year of the ISO format: four digits for 0..9999, otherwise a sign
    and six digits. *)
Definition iso_year (y : Z) : string :=
  if (0 <=? y) && (y <=? 9999) then pad 4 y
  else if y <? 0 then "-" +:+ pad 6 (- y)
  else "+" +:+ pad 6 y.

Definition iso_of_time (t : Z) : string :=
  let days := t / msPerDay in
  let ms := t mod msPerDay in
  let '(y, m, d) := civil_from_days days in
  iso_year y +:+ "-" +:+ pad 2 m +:+ "-" +:+ pad 2 d +:+ "T" +:+
  pad 2 (ms / 3600000) +:+ ":" +:+ pad 2 (ms / 60000 mod 60) +:+ ":" +:+
  pad 2 (ms / 1000 mod 60) +:+ "." +:+ pad 3 (ms mod 1000) +:+ "Z".

(** *** Parsing the ISO date-time format *)

Definition digit_val (c : ascii) : option Z :=
  let n := nat_of_ascii c in
  if (Nat.leb 48 n && Nat.leb n 57)%bool then Some (Z.of_nat (n - 48)) else None.

Definition isDigit (c : ascii) : bool :=
  match digit_val c with Some _ => true | None => false end.

(** Reads exactly [n] decimal digits. *)
Fixpoint read_digits (n : nat) (acc : Z) (s : string) : option (Z * string) :=
  match n with
  | O => Some (acc, s)
  | S n' =>
      match s with
      | String c s' =>
          match digit_val c with
          | Some v => read_digits n' (acc * 10 + v) s'
          | None => None
          end
      | EmptyString => None
      end
  end.

Definition read_char (c : ascii) (s : string) : option string :=
  match s with
  | String c' s' => if Ascii.eqb c c' then Some s' else None
  | EmptyString => None
  end.

Definition is_leap (y : Z) : bool :=
  ((y mod 4 =? 0) && negb (y mod 100 =? 0)) || (y mod 400 =? 0).

Definition days_in_month (y m : Z) : Z :=
  if m =? 2 then (if is_leap y then 29 else 28)
  else if (m =? 4) || (m =? 6) || (m =? 9) || (m =? 11) then 30
  else 31.

(** The UTC forms [YYYY-MM-DDTHH:mm:ssZ] and [YYYY-MM-DDTHH:mm:ss.sssZ] of
    the ECMAScript date-time string format, with every field in range. *)
Definition parse_iso_utc (s : string) : option Z :=
  '(y, s) ← read_digits 4 0 s;
  s ← read_char "-" s;
  '(mo, s) ← read_digits 2 0 s;
  s ← read_char "-" s;
  '(d, s) ← read_digits 2 0 s;
  s ← read_char "T" s;
  '(h, s) ← read_digits 2 0 s;
  s ← read_char ":" s;
  '(mi, s) ← read_digits 2 0 s;
  s ← read_char ":" s;
  '(se, s) ← read_digits 2 0 s;
  '(ms, s) ← match read_char "." s with
             | Some s' => read_digits 3 0 s'
             | None => Some (0, s)
             end;
  s ← read_char "Z" s;
  if truthy_string s then None
  else if (1 <=? mo) && (mo <=? 12) && (1 <=? d) && (d <=? days_in_month y mo)
          && (h <=? 23) && (mi <=? 59) && (se <=? 59)
       then Some (days_from_civil y mo d * msPerDay
                  + h * 3600000 + mi * 60000 + se * 1000 + ms)
       else None.

End Js.

Import Js.

(* ===================================================================== *)
(** ** Values, exceptions and the data exchanged with the backends *)
(* ===================================================================== *)

(** A scalar of a result row ([unknown] in the source): what the query
    backend puts in a cell. *)
Inductive jsval : Type :=
| VUndefined
| VNull
| VBool (b : bool)
| VNum (n : Z)
| VStr (s : string)
| VDate (d : JsDate).

(** A thrown value.  Every value thrown in this program is an [Error]
    object; the message is what a [catch] block reads from it with
    [error instanceof Error ? error.message : String(error)]. *)
Inductive exn : Type :=
| Error (message : string)
| TypeError (message : string)
| RangeError (message : string).

Definition exn_message (e : exn) : string :=
  match e with
  | Error m => m
  | TypeError m => m
  | RangeError m => m
  end.

(** The outcome of a computation: a value or a thrown exception. *)
Inductive Res (A : Type) : Type :=
| Ok (a : A)
| Throw (e : exn).
Arguments Ok {A} a.
Arguments Throw {A} e.

(** [context.ts]: the target App Service and its cached diagnostic info. *)
Record AppContext : Type := {
  subscriptionId : string;
  resourceGroup : string;
  appName : string;
  logAnalyticsWorkspaceId : option string;
  diagnosticsEnabled : option bool;
}.

(** [kudu.ts]: a descriptor of a log stream or log file. *)
Record KuduLogEntry : Type := {
  machineName : string;
  lastUpdated : string;
  size : Z;
  href : string;
  path : string;
}.

(** The query client of [@azure/monitor-query], as the connector uses it. *)
Module Monitor.

Inductive LogsQueryResultStatus : Type := PartialFailure | Success | Failure.

Record LogsColumn : Type := { name : option string }.

Record LogsTable : Type := {
  columnDescriptors : option (list LogsColumn);
  rows : list (list jsval);
}.

Record LogsQueryError : Type := { message : string }.

Record LogsQueryResult : Type := {
  status : LogsQueryResultStatus;
  tables : list LogsTable;
  partialError : option LogsQueryError;
}.

(** The arguments of one [queryWorkspace] call. *)
Record QueryRequest : Type := {
  workspaceId : string;
  query : string;
  startTime : JsDate;
  endTime : JsDate;
  serverTimeoutInSeconds : Z;
}.

End Monitor.

(** The [Response] of [fetch], as the Kudu connector reads it: [text] is
    what [response.text()] resolves to, [json] what [response.json()]
    resolves to or throws. *)
Module Fetch.

Record Response : Type := {
  ok : bool;
  status : Z;
  statusText : string;
  text : string;
  json : Res (list KuduLogEntry);
}.

End Fetch.

(** [arm.ts]: what the metadata backend returns. *)
Module Arm.

Record DiagnosticInfo : Type := {
  enabled : bool;
  logAnalyticsWorkspaceId : option string;
  storageAccountId : option string;
  eventHubId : option string;
  categories : list string;
}.

(** An element of the deployment history; [startTime] and [endTime] are
    [Date] objects when present. *)
Record Deployment : Type := {
  id : option string;
  status : option Z;
  message : option string;
  author : option string;
  deployer : option string;
  startTime : option JsDate;
  endTime : option JsDate;
}.

End Arm.

(* ===================================================================== *)
(** ** The world, the backends and the monad *)
(* ===================================================================== *)

(** What the program can observe and change: the wall clock ([Date.now()],
    always a valid time value), the module variable [currentContext] of
    [context.ts], the requests passed so far to [queryWorkspace] and the
    URLs passed so far to [fetchWithAuth], oldest first. *)
Record World : Type := {
  now : Z;
  currentContext : option AppContext;
  queries : list Monitor.QueryRequest;
  fetches : list string;
}.

(** The environment of the process: its environment variables and the
    behaviour of the backends.  An answer may depend on the world in which
    the call is issued; [elapsed] is the time the call takes. *)
Record Env : Type := {
  AZURE_SUBSCRIPTION_ID : option string;
  AZURE_RESOURCE_GROUP : option string;
  AZURE_APP_NAME : option string;
  elapsed : World -> Z;
  queryWorkspace_answer : World -> Monitor.QueryRequest -> Res Monitor.LogsQueryResult;
  fetch_answer : World -> string -> Res Fetch.Response;
  listDeployments_answer : World -> AppContext -> Res (list Arm.Deployment);
  getDiagnosticSettings_answer : World -> AppContext -> Res Arm.DiagnosticInfo;
  resolveWorkspaceId_answer : World -> string -> string -> Res (option string);
  (** [Date.parse] on a string outside the forms of [parse_iso_utc]. *)
  Date_parse_other : string -> JsDate;
  (** [Date.prototype.toString], which depends on the time zone. *)
  Date_toString : JsDate -> string;
}.

(** A computation: from a world to an outcome and the world it leaves. *)
Definition M (A : Type) : Type := World -> Res A * World.

Definition ret {A} (a : A) : M A := fun w => (Ok a, w).

Definition throw {A} (e : exn) : M A := fun w => (Throw e, w).

Definition bind {A B} (c : M A) (k : A -> M B) : M B :=
  fun w =>
    match c w with
    | (Ok a, w') => k a w'
    | (Throw e, w') => (Throw e, w')
    end.

(** [try { c } catch (error) { h error }]. *)
Definition try_catch {A} (c : M A) (h : exn -> M A) : M A :=
  fun w =>
    match c w with
    | (Ok a, w') => (Ok a, w')
    | (Throw e, w') => h e w'
    end.

Notation "'await' x := c 'in' k" := (bind c (fun x => k))
  (at level 10, x name, c at level 200, k at level 200,
   format "'[v' 'await'  x  :=  c  'in' '/' k ']'").

(** Lifts the outcome of a pure step that may throw. *)
Definition lift {A} (r : Res A) : M A := fun w => (r, w).

(** [Date.now()]. *)
Definition Date_now : M Z := fun w => (Ok (now w), w).

(** The world after a backend call issued in [w]. *)
Definition after_call (env : Env) (w : World)
    (qs : list Monitor.QueryRequest) (fs : list string) : World :=
  {| now := now w + elapsed env w;
     currentContext := currentContext w;
     queries := queries w ++ qs;
     fetches := fetches w ++ fs |}.

(** [new Date(s)] for a string [s]. *)
Definition Date_of_string (env : Env) (s : string) : JsDate :=
  match parse_iso_utc s with
  | Some t => TimeClip t
  | None => Date_parse_other env s
  end.

(** [date.toISOString()], which throws on an Invalid Date. *)
Definition toISOString (d : JsDate) : Res string :=
  match d with
  | Some t => Ok (iso_of_time t)
  | None => Throw (RangeError "Invalid time value")
  end.

(** [Array.prototype.filter] for a callback that may throw; elements are
    visited from left to right. *)
Fixpoint filterR {A} (f : A -> Res bool) (l : list A) : Res (list A) :=
  match l with
  | [] => Ok []
  | x :: rest =>
      match f x with
      | Throw e => Throw e
      | Ok b =>
          match filterR f rest with
          | Throw e => Throw e
          | Ok rest' => Ok (if b then x :: rest' else rest')
          end
      end
  end.

(* ===================================================================== *)
(** ** [src/context.ts]: the session context *)
(* ===================================================================== *)

Module Context.
Section WithEnv.
Variable env : Env.

Definition set_currentContext (c : option AppContext) (w : World) : World :=
  {| now := now w;
     currentContext := c;
     queries := queries w;
     fetches := fetches w |}.

Definition getAppContext : M (option AppContext) :=
  fun w =>
    match currentContext w with
    | Some c => (Ok (Some c), w)
    | None =>
        match AZURE_SUBSCRIPTION_ID env, AZURE_RESOURCE_GROUP env,
              AZURE_APP_NAME env with
        | Some sub, Some rg, Some app =>
            if truthy_string sub && truthy_string rg && truthy_string app
            then
              let c := {| subscriptionId := sub;
                          resourceGroup := rg;
                          appName := app;
                          logAnalyticsWorkspaceId := None;
                          diagnosticsEnabled := None |} in
              (Ok (Some c), set_currentContext (Some c) w)
            else (Ok None, w)
        | _, _, _ => (Ok None, w)
        end
    end.

Definition setAppContext (context : AppContext) : M unit :=
  fun w => (Ok tt, set_currentContext (Some context) w).

Definition updateDiagnosticInfo (workspaceId : option string)
    (enabled : option bool) : M unit :=
  fun w =>
    match currentContext w with
    | Some c =>
        (Ok tt,
         set_currentContext
           (Some {| subscriptionId := subscriptionId c;
                    resourceGroup := resourceGroup c;
                    appName := appName c;
                    logAnalyticsWorkspaceId := workspaceId;
                    diagnosticsEnabled := enabled |}) w)
    | None => (Ok tt, w)
    end.

Definition clearAppContext : M unit :=
  fun w => (Ok tt, set_currentContext None w).

Definition no_context_message : string :=
  "No App Service configured. Use set_context tool or set environment variables:"
  +:+ LF +:+ "  AZURE_SUBSCRIPTION_ID"
  +:+ LF +:+ "  AZURE_RESOURCE_GROUP"
  +:+ LF +:+ "  AZURE_APP_NAME".

Definition requireAppContext : M AppContext :=
  await context := getAppContext in
  match context with
  | None => throw (Error no_context_message)
  | Some c => ret c
  end.

End WithEnv.
End Context.

(* ===================================================================== *)
(** ** [src/azure/log-analytics.ts]: the structured query connector *)
(* ===================================================================== *)

Module LogAnalytics.

(** Query constraints. *)
Definition MAX_ROWS : Z := 500.
Definition MAX_TIMERANGE_DAYS : Z := 7.
Definition QUERY_TIMEOUT_MS : Z := 30000.

Record LogQueryResult : Type := {
  success : bool;
  rowCount : Z;
  truncated : bool;
  columns : list string;
  rows : list (gmap string jsval);
  queryTimeMs : Z;
  error : option string;
}.

(** Add row limit to query if not already present. *)
Definition addRowLimit (query : string) (limit : Z) : string :=
  let lowerQuery := toLowerCase query in
  if includes lowerQuery "| limit" || includes lowerQuery "| take"
  then query
  else query +:+ LF +:+ "| limit " +:+ num_to_string limit.

(** [c.name || ''] *)
Definition column_name (c : Monitor.LogsColumn) : string :=
  match Monitor.name c with
  | Some n => n
  | None => EmptyString
  end.

(** The object built for one row, by its own properties: [obj[col] =
    row[idx]] for every column, in order, on an object made by [{}]; a
    cell that is missing reads as [undefined].  The name "__proto__" is the
    accessor of [Object.prototype]: an assignment to it stores no own
    property, and it replaces the prototype of the object when the value
    is [null] or an object.  Once the prototype is [null] ([bare]) the
    accessor is out of reach and the name is stored like any other. *)
Fixpoint fill_object (columns : list string) (idx : nat) (row : list jsval)
    (bare : bool) (obj : gmap string jsval) : gmap string jsval :=
  match columns with
  | [] => obj
  | col :: rest =>
      let value := nth idx row VUndefined in
      if String.eqb col "__proto__" && negb bare then
        fill_object rest (S idx) row
          (match value with VNull => true | _ => false end) obj
      else
        fill_object rest (S idx) row bare (<[col := value]> obj)
  end.

Definition row_object (columns : list string) (row : list jsval)
    : gmap string jsval :=
  fill_object columns 0%nat row false ∅.

Definition len {A} (l : list A) : Z := Z.of_nat (length l).

Section WithEnv.
Variable env : Env.

(** [this.client.queryWorkspace(...)]: the call is recorded and the
    backend answers or throws. *)
Definition queryWorkspace (req : Monitor.QueryRequest)
    : M Monitor.LogsQueryResult :=
  fun w => (queryWorkspace_answer env w req, after_call env w [req] []).

Definition time_range_message : string :=
  "Time range exceeds maximum of " +:+ num_to_string MAX_TIMERANGE_DAYS
  +:+ " days. Use a shorter time range.".

(** [partialError?.message || 'Unknown error'] *)
Definition partial_message (e : option Monitor.LogsQueryError) : string :=
  match e with
  | Some pe =>
      if truthy_string (Monitor.message pe) then Monitor.message pe
      else "Unknown error"
  | None => "Unknown error"
  end.

(** Execute a KQL query with guardrails. *)
Definition query (workspaceId kqlQuery : string) (timeRangeMinutes : Z)
    : M LogQueryResult :=
  await startTime := Date_now in
  (* Validate time range *)
  let maxMinutes := MAX_TIMERANGE_DAYS * 24 * 60 in
  if timeRangeMinutes >? maxMinutes then
    ret {| success := false;
           rowCount := 0;
           truncated := false;
           columns := [];
           rows := [];
           queryTimeMs := 0;
           error := Some time_range_message |}
  else
    (* Add row limit if not present *)
    let limitedQuery := addRowLimit kqlQuery MAX_ROWS in
    try_catch
      (await endTime := Date_now in
       let startTimeDate := TimeClip (endTime - timeRangeMinutes * 60 * 1000) in
       await result := queryWorkspace
                    {| Monitor.workspaceId := workspaceId;
                       Monitor.query := limitedQuery;
                       Monitor.startTime := startTimeDate;
                       Monitor.endTime := Some endTime;
                       Monitor.serverTimeoutInSeconds := QUERY_TIMEOUT_MS / 1000 |} in
       await finished := Date_now in
       let queryTimeMs := finished - startTime in
       match Monitor.status result, Monitor.tables result with
       | Monitor.Success, table :: _ =>
           let columnDescriptors :=
             match Monitor.columnDescriptors table with
             | Some cs => cs
             | None => []
             end in
           let columns := map column_name columnDescriptors in
           let rows := map (row_object columns) (Monitor.rows table) in
           ret {| success := true;
                  rowCount := len rows;
                  truncated := len rows >=? MAX_ROWS;
                  columns := columns;
                  rows := rows;
                  queryTimeMs := queryTimeMs;
                  error := None |}
       | Monitor.PartialFailure, _ =>
           ret {| success := false;
                  rowCount := 0;
                  truncated := false;
                  columns := [];
                  rows := [];
                  queryTimeMs := queryTimeMs;
                  error := Some ("Partial query failure: "
                                 +:+ partial_message (Monitor.partialError result)) |}
       | _, _ =>
           ret {| success := true;
                  rowCount := 0;
                  truncated := false;
                  columns := [];
                  rows := [];
                  queryTimeMs := queryTimeMs;
                  error := None |}
       end)
      (fun error =>
         await caught := Date_now in
         ret {| success := false;
                rowCount := 0;
                truncated := false;
                columns := [];
                rows := [];
                queryTimeMs := caught - startTime;
                error := Some (exn_message error) |}).

End WithEnv.
End LogAnalytics.

(* ===================================================================== *)
(** ** [src/azure/kudu.ts]: the unstructured log connector *)
(* ===================================================================== *)

Module Kudu.

Record ContainerLog : Type := {
  timestamp : string;
  content : string;
}.

Record KuduLogsResult : Type := {
  success : bool;
  entries : list ContainerLog;
  error : option string;
}.

(** Get the SCM URL for an app. *)
Definition getScmUrl (appName : string) : string :=
  "https://" +:+ appName +:+ ".scm.azurewebsites.net".

(** The pattern [/^(\d{4}-\d{2}-\d{2}[T ]\d{2}:\d{2}:\d{2})/], one
    character class per position. *)
Definition is_char (c : ascii) : ascii -> bool := fun x => Ascii.eqb x c.

Definition T_or_space (x : ascii) : bool :=
  Ascii.eqb x "T" || Ascii.eqb x " ".

Definition timestamp_pattern : list (ascii -> bool) :=
  [isDigit; isDigit; isDigit; isDigit; is_char "-";
   isDigit; isDigit; is_char "-"; isDigit; isDigit;
   T_or_space;
   isDigit; isDigit; is_char ":"; isDigit; isDigit; is_char ":";
   isDigit; isDigit].

(** The prefix of [s] that matches the pattern, if there is one. *)
Fixpoint match_prefix (pat : list (ascii -> bool)) (s : string)
    : option string :=
  match pat with
  | [] => Some EmptyString
  | p :: pat' =>
      match s with
      | EmptyString => None
      | String c s' =>
          if p c then
            match match_prefix pat' s' with
            | Some m => Some (String c m)
            | None => None
            end
          else None
      end
  end.

Definition timestampMatch (line : string) : option string :=
  match_prefix timestamp_pattern line.

(** [line => line.trim()] as a filter: keeps the lines that are not
    blank. *)
Definition not_blank (line : string) : bool := truthy_string (trim line).

Section WithEnv.
Variable env : Env.

(** The comparator of [logs.sort]: [new Date(b.lastUpdated).getTime() -
    new Date(a.lastUpdated).getTime()]; a NaN result counts as zero. *)
Definition compare_lastUpdated (a b : KuduLogEntry) : Z :=
  match Date_of_string env (lastUpdated b), Date_of_string env (lastUpdated a) with
  | Some tb, Some ta => tb - ta
  | _, _ => 0
  end.

(** [Array.prototype.sort] with that comparator: a stable sort. *)
Fixpoint insert_entry (x : KuduLogEntry) (l : list KuduLogEntry)
    : list KuduLogEntry :=
  match l with
  | [] => [x]
  | y :: l' =>
      if compare_lastUpdated x y <=? 0 then x :: y :: l'
      else y :: insert_entry x l'
  end.

Fixpoint sort_entries (l : list KuduLogEntry) : list KuduLogEntry :=
  match l with
  | [] => []
  | x :: rest => insert_entry x (sort_entries rest)
  end.

(** Fetch with auth headers: acquiring the token or the request itself
    may throw. *)
Definition fetchWithAuth (url : string) : M Fetch.Response :=
  fun w => (fetch_answer env w url, after_call env w [] [url]).

Definition http_error (response : Fetch.Response) : exn :=
  Error ("HTTP " +:+ num_to_string (Fetch.status response) +:+ ": "
         +:+ Fetch.statusText response).

(** List available container logs (docker logs). *)
Definition listContainerLogs (appName : string) : M (list KuduLogEntry) :=
  let url := getScmUrl appName +:+ "/api/logs/docker" in
  try_catch
    (await response := fetchWithAuth url in
     if negb (Fetch.ok response) then throw (http_error response)
     else lift (Fetch.json response))
    (fun error =>
       throw (Error ("Failed to list container logs: " +:+ exn_message error))).

(** Get recent container logs. *)
Definition getContainerLogs (appName : string) (maxLines : Z)
    : M KuduLogsResult :=
  try_catch
    ((* First list available logs *)
     await logs := listContainerLogs appName in
     match logs with
     | [] => ret {| success := true; entries := []; error := None |}
     | _ :: _ =>
         (* Sort by lastUpdated, get most recent *)
         match sort_entries logs with
         | [] => throw (TypeError "Cannot read properties of undefined (reading 'href')")
         | recentLog :: _ =>
             (* Fetch the most recent log file *)
             await response := fetchWithAuth (href recentLog) in
             if negb (Fetch.ok response) then throw (http_error response)
             else
               let content := Fetch.text response in
               let lines := List.filter not_blank (split_lines content) in
               (* Take last N lines *)
               let recentLines := slice_from (- maxLines) lines in
               await current := Date_now in
               let entries :=
                 map (fun line =>
                        {| timestamp :=
                             match timestampMatch line with
                             | Some m => m
                             | None => iso_of_time current
                             end;
                           content := line |})
                     recentLines in
               ret {| success := true; entries := entries; error := None |}
         end
     end)
    (fun error =>
       ret {| success := false;
              entries := [];
              error := Some (exn_message error) |}).

(** List files in LogFiles directory. *)
Definition listLogFiles (appName : string) (path : string)
    : M (list KuduLogEntry) :=
  let url := getScmUrl appName +:+ "/api/vfs" +:+ path in
  try_catch
    (await response := fetchWithAuth url in
     if negb (Fetch.ok response) then throw (http_error response)
     else lift (Fetch.json response))
    (fun error =>
       throw (Error ("Failed to list log files: " +:+ exn_message error))).

(** Read a specific log file. *)
Definition readLogFile (appName : string) (path : string) (maxBytes : Z)
    : M string :=
  let url := getScmUrl appName +:+ "/api/vfs" +:+ path in
  try_catch
    (await response := fetchWithAuth url in
     if negb (Fetch.ok response) then throw (http_error response)
     else
       let content := Fetch.text response in
       (* Truncate if too large *)
       if Z.of_nat (String.length content) >? maxBytes
       then ret (string_slice_from (- maxBytes) content
                 +:+ LF +:+ "... (truncated)")
       else ret content)
    (fun error =>
       throw (Error ("Failed to read log file: " +:+ exn_message error))).

(** [e.content.toLowerCase().includes(filter.toLowerCase())] *)
Definition matches_filter (filter : string) (text : string) : bool :=
  includes (toLowerCase text) (toLowerCase filter).

(** [if (filter) { xs = xs.filter(keep) }]: an absent or empty filter
    keeps everything. *)
Definition apply_filter {A} (flt : option string) (text_of : A -> string)
    (xs : list A) : list A :=
  match flt with
  | Some f =>
      if truthy_string f
      then List.filter (fun x => matches_filter f (text_of x)) xs
      else xs
  | None => xs
  end.

(** Get recent application logs from various sources. *)
Definition getRecentLogs (appName : string) (maxLines : Z)
    (flt : option string) : M KuduLogsResult :=
  (* Try container logs first (most common for modern apps) *)
  await containerResult := getContainerLogs appName maxLines in
  if success containerResult
     && (LogAnalytics.len (entries containerResult) >? 0)
  then
    (* Apply filter if provided *)
    let entries := apply_filter flt content (entries containerResult) in
    ret {| success := true; entries := entries; error := None |}
  else
    (* Fallback to Application logs if container logs empty *)
    try_catch
      (await logFiles := listLogFiles appName "/LogFiles/Application/" in
       match logFiles with
       | [] => ret {| success := true; entries := []; error := None |}
       | _ :: _ =>
           (* Get most recent log file *)
           match sort_entries logFiles with
           | [] => throw (TypeError "Cannot read properties of undefined (reading 'path')")
           | first :: _ =>
               await content := readLogFile appName (path first) 100000 in
               let lines := List.filter not_blank (split_lines content) in
               let lines := apply_filter flt (fun line => line) lines in
               await current := Date_now in
               let entries :=
                 map (fun line =>
                        {| timestamp := iso_of_time current;
                           content := line |})
                     (slice_from (- maxLines) lines) in
               ret {| success := true; entries := entries; error := None |}
           end
       end)
      (fun _ =>
         (* Return container result even if Application logs fail *)
         ret containerResult).

End WithEnv.
End Kudu.

(* ===================================================================== *)
(** ** [src/azure/arm.ts]: the metadata client, as the tools use it *)
(* ===================================================================== *)

Module ArmClient.
Section WithEnv.
Variable env : Env.

(** A call to the metadata backend: it takes time and answers or throws. *)
Definition arm_call {A} (answer : World -> Res A) : M A :=
  fun w => (answer w, after_call env w [] []).

(** The loop of [getDeployments]: every deployment is pushed, and the
    loop stops once [limit] of them are collected. *)
Fixpoint collect (limit : Z) (count : Z) (l : list Arm.Deployment)
    : list Arm.Deployment :=
  match l with
  | [] => []
  | d :: rest =>
      d :: (if count + 1 >=? limit then [] else collect limit (count + 1) rest)
  end.

(** Get recent deployments; any failure yields the empty list. *)
Definition getDeployments (context : AppContext) (limit : Z)
    : M (list Arm.Deployment) :=
  try_catch
    (await all := arm_call (fun w => listDeployments_answer env w context) in
     ret (collect limit 0 all))
    (fun _ => ret []).

Definition getDiagnosticSettings (context : AppContext)
    : M Arm.DiagnosticInfo :=
  arm_call (fun w => getDiagnosticSettings_answer env w context).

Definition resolveWorkspaceId (workspaceResourceId subscriptionId : string)
    : M (option string) :=
  arm_call (fun w =>
              resolveWorkspaceId_answer env w workspaceResourceId subscriptionId).

End WithEnv.
End ArmClient.

(* ===================================================================== *)
(** ** [src/tools/index.ts]: timestamp correlation and deployment diagnosis *)
(* ===================================================================== *)

Module Tools.

(** The arguments of a tool call that the two workflows read. *)
Record ToolArgs : Type := {
  timestamp : option string;
  windowMinutes : option Z;
  deploymentIndex : option Z;
}.

(** [(x as number) || d]: an absent or zero number is replaced by [d]. *)
Definition or_default (x : option Z) (d : Z) : Z :=
  match x with
  | Some n => if n =? 0 then d else n
  | None => d
  end.

(** [s || d] for an optional string: absent or empty gives [d]. *)
Definition or_text (x : option string) (d : string) : string :=
  match x with
  | Some s => if truthy_string s then s else d
  | None => d
  end.

(** A workspace identifier that passes [if (workspaceId)]. *)
Definition usable (x : option string) : option string :=
  match x with
  | Some s => if truthy_string s then Some s else None
  | None => None
  end.

(** [new Date(date.getTime() + ms)] *)
Definition date_plus (d : JsDate) (ms : Z) : JsDate :=
  match d with
  | Some t => TimeClip (t + ms)
  | None => None
  end.

(** [row.Column]: a column the row does not have reads as [undefined]. *)
Definition field (r : gmap string jsval) (column : string) : jsval :=
  match r !! column with
  | Some v => v
  | None => VUndefined
  end.

(** [v?.includes(kw)]: [undefined] for a nullish [v], a test on a string,
    and a TypeError on any other scalar, which has no such method. *)
Definition opt_includes (v : jsval) (kw : string) : Res bool :=
  match v with
  | VUndefined | VNull => Ok false
  | VStr s => Ok (includes s kw)
  | _ => Throw (TypeError "includes is not a function")
  end.

(** [v?.toLowerCase().includes(kw)] *)
Definition opt_lower_includes (v : jsval) (kw : string) : Res bool :=
  match v with
  | VUndefined | VNull => Ok false
  | VStr s => Ok (includes (toLowerCase s) kw)
  | _ => Throw (TypeError "toLowerCase is not a function")
  end.

(** [test(k1) || test(k2) || ...], evaluated from left to right. *)
Fixpoint any_of (test : string -> Res bool) (kws : list string) : Res bool :=
  match kws with
  | [] => Ok false
  | kw :: rest =>
      match test kw with
      | Throw e => Throw e
      | Ok true => Ok true
      | Ok false => any_of test rest
      end
  end.

(** The keyword tests of the platform-log analysis. *)
Definition is_startup (r : gmap string jsval) : Res bool :=
  any_of (opt_includes (field r "Message")) ["start"; "probe"; "running"].

Definition is_error (r : gmap string jsval) : Res bool :=
  any_of (opt_lower_includes (field r "Message"))
         ["error"; "fail"; "crash"; "oom"; "memory"].

Definition is_terminate (r : gmap string jsval) : Res bool :=
  any_of (opt_includes (field r "Message")) ["terminat"; "stop"].

(** The keyword test of the console-log analysis. *)
Definition is_app_error (r : gmap string jsval) : Res bool :=
  any_of (opt_lower_includes (field r "ResultDescription"))
         ["error"; "exception"; "fail"].

(** Conversion of a scalar to a number ([None] is NaN).  Numbers being
    integers, a string converts when it is blank or a decimal integer. *)
Fixpoint digits_value (acc : Z) (s : string) : option Z :=
  match s with
  | EmptyString => Some acc
  | String c s' =>
      match digit_val c with
      | Some v => digits_value (acc * 10 + v) s'
      | None => None
      end
  end.

Definition string_to_number (s : string) : option Z :=
  match trim s with
  | EmptyString => Some 0
  | String "-" (String c rest) => Z.opp <$> digits_value 0 (String c rest)
  | String "+" (String c rest) => digits_value 0 (String c rest)
  | t => digits_value 0 t
  end.

Definition to_number (v : jsval) : option Z :=
  match v with
  | VUndefined => None
  | VNull => Some 0
  | VBool b => Some (if b then 1 else 0)
  | VNum n => Some n
  | VStr s => string_to_number s
  | VDate d => d
  end.

(** [r.ScStatus >= 500] and [r.ScStatus < 400]; a comparison with NaN is
    false. *)
Definition is_http_error (r : gmap string jsval) : bool :=
  match to_number (field r "ScStatus") with
  | Some n => n >=? 500
  | None => false
  end.

Definition is_http_success (r : gmap string jsval) : bool :=
  match to_number (field r "ScStatus") with
  | Some n => n <? 400
  | None => false
  end.

Section WithEnv.
Variable env : Env.
(** [formatLogQueryResult(result, title).summary], the renderer. *)
Variable formatLogQueryResult : LogAnalytics.LogQueryResult -> string -> string.

(** A scalar inside a template literal. *)
Definition template (v : jsval) : string :=
  match v with
  | VUndefined => "undefined"
  | VNull => "null"
  | VBool b => if b then "true" else "false"
  | VNum n => num_to_string n
  | VStr s => s
  | VDate d => Date_toString env d
  end.

(** [new Date(v)] for a scalar [v]. *)
Definition Date_of_value (v : jsval) : JsDate :=
  match v with
  | VUndefined => None
  | VNull => Some 0
  | VBool b => Some (if b then 1 else 0)
  | VNum n => TimeClip n
  | VStr s => Date_of_string env s
  | VDate d => d
  end.

(** Helper to get workspace ID from context or fetch it. *)
Definition getWorkspaceId (context : AppContext) : M (option string) :=
  (* Check cached *)
  match usable (logAnalyticsWorkspaceId context) with
  | Some cached => ret (Some cached)
  | None =>
      (* Fetch diagnostic settings *)
      await diag := ArmClient.getDiagnosticSettings env context in
      match Arm.enabled diag, usable (Arm.logAnalyticsWorkspaceId diag) with
      | true, Some resourceId =>
          (* Resolve workspace resource ID to GUID *)
          await workspaceGuid :=
            ArmClient.resolveWorkspaceId env resourceId (subscriptionId context) in
          match usable workspaceGuid with
          | Some guid =>
              await _ := Context.updateDiagnosticInfo (Some guid) (Some true) in
              ret workspaceGuid
          | None => ret workspaceGuid
          end
      | _, _ => ret None
      end
  end.

(** The text of the combined query of [correlate_events]. *)
Definition correlate_query (startIso endIso : string) : string :=
  "union AppServiceHTTPLogs, AppServiceConsoleLogs, AppServicePlatformLogs"
  +:+ LF +:+ "| where TimeGenerated between (datetime('" +:+ startIso
  +:+ "') .. datetime('" +:+ endIso +:+ "'))"
  +:+ LF +:+ "| project TimeGenerated, Type=$table, Message=coalesce(ResultDescription, Message, strcat(CsMethod, ' ', CsUriStem, ' ', ScStatus))"
  +:+ LF +:+ "| order by TimeGenerated asc".

(** [case 'correlate_events'] *)
Definition correlate_events (args : ToolArgs) : M string :=
  await context := Context.requireAppContext env in
  await workspaceId := getWorkspaceId context in
  match usable workspaceId with
  | None => ret "Error: Log Analytics not configured."
  | Some workspaceId =>
      let timestamp :=
        match timestamp args with
        | Some s => Date_of_string env s
        | None => None
        end in
      let windowMs := or_default (windowMinutes args) 5 * 60 * 1000 in
      let startTime := date_plus timestamp (- windowMs) in
      let endTime := date_plus timestamp windowMs in
      await startIso := lift (toISOString startTime) in
      await endIso := lift (toISOString endTime) in
      let query := correlate_query startIso endIso in
      await result := LogAnalytics.query env workspaceId query 60 in
      ret (formatLogQueryResult result
             ("Events around " +:+
              match Tools.timestamp args with
              | Some s => s
              | None => "undefined"
              end))
  end.

(** The three queries of [diagnose_deployment]. *)
Definition window_clause (startIso endIso : string) : string :=
  "| where TimeGenerated between (datetime('" +:+ startIso
  +:+ "') .. datetime('" +:+ endIso +:+ "'))".

Definition platformQuery (startIso endIso : string) : string :=
  "AppServicePlatformLogs"
  +:+ LF +:+ window_clause startIso endIso
  +:+ LF +:+ "| project TimeGenerated, Message"
  +:+ LF +:+ "| order by TimeGenerated asc".

Definition consoleQuery (startIso endIso : string) : string :=
  "AppServiceConsoleLogs"
  +:+ LF +:+ window_clause startIso endIso
  +:+ LF +:+ "| project TimeGenerated, ResultDescription"
  +:+ LF +:+ "| order by TimeGenerated asc".

Definition httpQuery (startIso endIso : string) : string :=
  "AppServiceHTTPLogs"
  +:+ LF +:+ window_clause startIso endIso
  +:+ LF +:+ "| project TimeGenerated, CsMethod, CsUriStem, ScStatus, TimeTaken"
  +:+ LF +:+ "| order by TimeGenerated asc"
  +:+ LF +:+ "| take 20".

(** [for (const x of xs) { result += line(x) }], where building a line
    may throw. *)
Fixpoint append_lines {A} (line : A -> Res string) (xs : list A)
    (result : string) : Res string :=
  match xs with
  | [] => Ok result
  | x :: rest =>
      match line x with
      | Throw e => Throw e
      | Ok l => append_lines line rest (result +:+ l)
      end
  end.

(** [- ${new Date(evt.TimeGenerated).toISOString()}: ${evt.Message}\n] *)
Definition timed_line (evt : gmap string jsval) : Res string :=
  match toISOString (Date_of_value (field evt "TimeGenerated")) with
  | Throw e => Throw e
  | Ok iso =>
      Ok ("- " +:+ iso +:+ ": " +:+ template (field evt "Message") +:+ LF)
  end.

(** The headers of the three sections. *)
Definition platform_header (n : Z) : string :=
  "### Platform Events (" +:+ num_to_string n +:+ " events)" +:+ LF +:+ LF.

Definition application_header (n : Z) : string :=
  "### Application Logs (" +:+ num_to_string n +:+ " entries)" +:+ LF +:+ LF.

Definition http_header (n : Z) : string :=
  "### First HTTP Requests (" +:+ num_to_string n +:+ " requests)" +:+ LF +:+ LF.

Definition no_platform_events : string :=
  "_No platform events found in this window._" +:+ LF +:+ LF.

Definition no_console_output : string :=
  "_No console output in this window._" +:+ LF +:+ LF.

Definition no_application_errors : string :=
  "✅ No application errors detected." +:+ LF +:+ LF.

Definition no_http_requests : string :=
  "_No HTTP requests in this window (app may not have received traffic yet)._"
  +:+ LF +:+ LF.

(** Analyze platform logs: what follows the header of the section. *)
Definition platform_body (rows : list (gmap string jsval)) (result : string)
    : Res string :=
  match rows with
  | [] => Ok (result +:+ no_platform_events)
  | _ :: _ =>
      match filterR is_startup rows with
      | Throw e => Throw e
      | Ok startupEvents =>
      match filterR is_error rows with
      | Throw e => Throw e
      | Ok errorEvents =>
      match filterR is_terminate rows with
      | Throw e => Throw e
      | Ok terminateEvents =>
          let result :=
            match errorEvents with
            | [] => result
            | _ :: _ =>
                fold_left
                  (fun acc evt =>
                     acc +:+ "- `" +:+ template (field evt "Message") +:+ "`" +:+ LF)
                  (slice_first 5 errorEvents)
                  (result +:+ "⚠️ **Errors detected:**" +:+ LF)
                +:+ LF
            end in
          match
            match startupEvents with
            | [] => Ok result
            | _ :: _ =>
                match append_lines timed_line (slice_first 5 startupEvents)
                        (result +:+ "**Startup sequence:**" +:+ LF) with
                | Throw e => Throw e
                | Ok r => Ok (r +:+ LF)
                end
            end
          with
          | Throw e => Throw e
          | Ok result =>
              match terminateEvents with
              | [] => Ok result
              | _ :: _ =>
                  match append_lines timed_line (slice_first 3 terminateEvents)
                          (result +:+ "**Container terminations:**" +:+ LF) with
                  | Throw e => Throw e
                  | Ok r => Ok (r +:+ LF)
                  end
              end
          end
      end end end
  end.

(** Analyze console logs. *)
Definition application_body (rows : list (gmap string jsval)) (result : string)
    : Res string :=
  match rows with
  | [] => Ok (result +:+ no_console_output)
  | _ :: _ =>
      match filterR is_app_error rows with
      | Throw e => Throw e
      | Ok errorLogs =>
          match errorLogs with
          | [] => Ok (result +:+ no_application_errors)
          | _ :: _ =>
              Ok (fold_left
                    (fun acc log =>
                       acc +:+ template (field log "ResultDescription") +:+ LF)
                    (slice_first 5 errorLogs)
                    (result +:+ "⚠️ **Application errors:**" +:+ LF +:+ "```" +:+ LF)
                  +:+ "```" +:+ LF +:+ LF)
          end
      end
  end.

(** Analyze HTTP logs. *)
Definition http_body (rows : list (gmap string jsval)) (result : string)
    : Res string :=
  match rows with
  | [] => Ok (result +:+ no_http_requests)
  | _ :: _ =>
      let errors := List.filter is_http_error rows in
      let successful := List.filter is_http_success rows in
      let result :=
        match errors with
        | [] => result
        | _ :: _ =>
            fold_left
              (fun acc req =>
                 acc +:+ "- " +:+ template (field req "ScStatus") +:+ " "
                 +:+ template (field req "CsMethod") +:+ " "
                 +:+ template (field req "CsUriStem") +:+ " ("
                 +:+ template (field req "TimeTaken") +:+ "ms)" +:+ LF)
              (slice_first 5 errors)
              (result +:+ "⚠️ **HTTP 5xx errors:** "
               +:+ num_to_string (LogAnalytics.len errors) +:+ LF)
            +:+ LF
        end in
      match successful with
      | [] => Ok result
      | firstSuccess :: _ =>
          match toISOString (Date_of_value (field firstSuccess "TimeGenerated")) with
          | Throw e => Throw e
          | Ok iso =>
              Ok (result +:+ "✅ **Successful requests:** "
                  +:+ num_to_string (LogAnalytics.len successful) +:+ LF
                  +:+ "- First success: " +:+ template (field firstSuccess "CsMethod")
                  +:+ " " +:+ template (field firstSuccess "CsUriStem")
                  +:+ " at " +:+ iso +:+ LF +:+ LF)
          end
      end
  end.

(** The closing summary. *)
Definition summary (windowMinutes : Z) (deployIso : string) : string :=
  "### Diagnosis Summary" +:+ LF +:+ LF
  +:+ "Analyzed " +:+ num_to_string windowMinutes
  +:+ " minutes after deployment at " +:+ deployIso +:+ "." +:+ LF
  +:+ "Use `correlate_events` with specific timestamps for deeper investigation.".

(** The label and the body of the fallback on the Kudu logs. *)
Definition fallback_label : string :=
  "⚠️ Log Analytics not configured. Limited diagnosis available." +:+ LF +:+ LF.

Definition fallback_header : string :=
  "### Recent Container Logs" +:+ LF +:+ LF.

Definition fallback_body (entries : list Kudu.ContainerLog) : string :=
  match entries with
  | [] => EmptyString
  | _ :: _ =>
      "```" +:+ LF
      +:+ join_lines (map Kudu.content (slice_first 30 entries))
      +:+ LF +:+ "```" +:+ LF +:+ LF
  end.

(** The opening of the report. *)
Definition preamble (deployIso : string) (deployment : Arm.Deployment) : string :=
  "## Deployment Diagnosis" +:+ LF +:+ LF
  +:+ "**Deployment:** " +:+ deployIso +:+ LF
  +:+ "**Status:** "
  +:+ match Arm.status deployment with
      | Some n => if n =? 0 then "Unknown" else num_to_string n
      | None => "Unknown"
      end +:+ LF
  +:+ "**Deployer:** " +:+ or_text (Arm.deployer deployment) "N/A" +:+ LF
  +:+ "**Message:** " +:+ or_text (Arm.message deployment) "N/A" +:+ LF +:+ LF.

(** [new Date(deployment.startTime || deployment.endTime)]: a [Date]
    object is truthy, an absent one is not. *)
Definition deploy_time (deployment : Arm.Deployment) : JsDate :=
  match Arm.startTime deployment, Arm.endTime deployment with
  | Some d, _ => d
  | None, Some d => d
  | None, None => None
  end.

(** [deployments[deploymentIndex]] *)
Definition at_index {A} (l : list A) (i : Z) : option A :=
  if i <? 0 then None else nth_error l (Z.to_nat i).

(** [case 'diagnose_deployment'] *)
Definition diagnose_deployment (args : ToolArgs) : M string :=
  await context := Context.requireAppContext env in
  let deploymentIndex := or_default (deploymentIndex args) 0 in
  let windowMinutes := or_default (windowMinutes args) 10 in
  (* Get deployment info *)
  await deployments := ArmClient.getDeployments env context (deploymentIndex + 1) in
  if LogAnalytics.len deployments <=? deploymentIndex then
    ret ("Error: No deployment found at index " +:+ num_to_string deploymentIndex
         +:+ ". Only " +:+ num_to_string (LogAnalytics.len deployments)
         +:+ " deployments available.")
  else
    match at_index deployments deploymentIndex with
    | None => throw (TypeError "Cannot read properties of undefined (reading 'startTime')")
    | Some deployment =>
        let deployTime := deploy_time deployment in
        let endTime := date_plus deployTime (windowMinutes * 60 * 1000) in
        await deployIso := lift (toISOString deployTime) in
        let result := preamble deployIso deployment in
        (* Check if Log Analytics is available *)
        await workspaceId := getWorkspaceId context in
        await result :=
          match usable workspaceId with
          | Some workspaceId =>
              (* Query platform logs for startup issues *)
              await endIso := lift (toISOString endTime) in
              await platformLogs :=
                LogAnalytics.query env workspaceId
                  (platformQuery deployIso endIso) windowMinutes in
              (* Query console logs for app errors *)
              await consoleLogs :=
                LogAnalytics.query env workspaceId
                  (consoleQuery deployIso endIso) windowMinutes in
              (* Query HTTP logs for first requests *)
              await httpLogs :=
                LogAnalytics.query env workspaceId
                  (httpQuery deployIso endIso) windowMinutes in
              (* Analyze platform logs *)
              let result :=
                result +:+ platform_header
                             (LogAnalytics.len (LogAnalytics.rows platformLogs)) in
              await result := lift (platform_body (LogAnalytics.rows platformLogs) result) in
              (* Analyze console logs *)
              let result :=
                result +:+ application_header
                             (LogAnalytics.len (LogAnalytics.rows consoleLogs)) in
              await result := lift (application_body (LogAnalytics.rows consoleLogs) result) in
              (* Analyze HTTP logs *)
              let result :=
                result +:+ http_header
                             (LogAnalytics.len (LogAnalytics.rows httpLogs)) in
              lift (http_body (LogAnalytics.rows httpLogs) result)
          | None =>
              let result := result +:+ fallback_label in
              (* Fall back to Kudu logs *)
              await kuduLogs := Kudu.getRecentLogs env (appName context) 100 None in
              let result := result +:+ fallback_header in
              ret (result +:+ fallback_body (Kudu.entries kuduLogs))
          end in
        (* Summary *)
        ret (result +:+ summary windowMinutes deployIso)
    end.

End WithEnv.
End Tools.

(* ===================================================================== *)
(** ** Concrete backends and worlds, for the examples *)
(* ===================================================================== *)

Module Examples.

(** The value a computation ends in, if it does not throw. *)
Definition value_of {A} (x : Res A * World) : option A :=
  match fst x with
  | Ok a => Some a
  | Throw _ => None
  end.

(** A target whose workspace identifier is cached, and one without. *)
Definition ctx_ws : AppContext :=
  {| subscriptionId := "sub"; resourceGroup := "rg"; appName := "app";
     logAnalyticsWorkspaceId := Some "ws-guid";
     diagnosticsEnabled := Some true |}.

Definition ctx_plain : AppContext :=
  {| subscriptionId := "sub"; resourceGroup := "rg"; appName := "app";
     logAnalyticsWorkspaceId := None;
     diagnosticsEnabled := None |}.

(** 2024-01-16T10:30:00.000Z, no call made yet. *)
Definition world_of (c : AppContext) : World :=
  {| now := 1705401000000;
     currentContext := Some c;
     queries := [];
     fetches := [] |}.

(** An environment from the behaviour of the three backends; no environment
    variable, calls that take 40 ms, no diagnostic destination. *)
Definition make_env
    (la : Monitor.QueryRequest -> Res Monitor.LogsQueryResult)
    (kudu : string -> Res Fetch.Response)
    (deployments : list Arm.Deployment) : Env :=
  {| AZURE_SUBSCRIPTION_ID := None;
     AZURE_RESOURCE_GROUP := None;
     AZURE_APP_NAME := None;
     elapsed := fun _ => 40;
     queryWorkspace_answer := fun _ req => la req;
     fetch_answer := fun _ url => kudu url;
     listDeployments_answer := fun _ _ => Ok deployments;
     getDiagnosticSettings_answer := fun _ _ =>
       Ok {| Arm.enabled := false;
             Arm.logAnalyticsWorkspaceId := None;
             Arm.storageAccountId := None;
             Arm.eventHubId := None;
             Arm.categories := [] |};
     resolveWorkspaceId_answer := fun _ _ _ => Ok None;
     Date_parse_other := fun _ => None;
     Date_toString := fun _ => "Invalid Date" |}.

(** A renderer that shows the title and the number of rows. *)
Definition render (r : LogAnalytics.LogQueryResult) (title : string) : string :=
  title +:+ ": " +:+ num_to_string (LogAnalytics.rowCount r).

(** *** Structured backends *)

Definition table_of (cols : list string) (rows : list (list jsval))
    : Monitor.LogsQueryResult :=
  {| Monitor.status := Monitor.Success;
     Monitor.tables :=
       [{| Monitor.columnDescriptors :=
             Some (map (fun c => {| Monitor.name := Some c |}) cols);
           Monitor.rows := rows |}];
     Monitor.partialError := None |}.

(** A backend that answers every query with [n] rows of one column. *)
Definition la_rows (n : nat) (_ : Monitor.QueryRequest)
    : Res Monitor.LogsQueryResult :=
  Ok (table_of ["Message"] (repeat [VStr "event"] n)).

Definition la_down (_ : Monitor.QueryRequest) : Res Monitor.LogsQueryResult :=
  Throw (Error "socket hang up").

Definition kudu_down (_ : string) : Res Fetch.Response :=
  Throw (Error "getaddrinfo ENOTFOUND").

Definition env_rows (n : nat) : Env := make_env (la_rows n) kudu_down [].

Definition env_down : Env := make_env la_down kudu_down [].

(** A platform-log row with the given message. *)
Definition platform_row (message : string) : gmap string jsval :=
  <["Message" := VStr message]> ∅.

(** A backend for a deployment that pulled its image and then served only
    a 404: one platform event that carries no keyword, no console output,
    one HTTP request that is neither a 5xx nor a success. *)
Definition la_quiet_deploy (req : Monitor.QueryRequest)
    : Res Monitor.LogsQueryResult :=
  let q := Monitor.query req in
  if startsWith q "AppServicePlatformLogs" then
    Ok (table_of ["TimeGenerated"; "Message"]
          [[VDate (Some 1705314605000); VStr "Container pulled image"]])
  else if startsWith q "AppServiceHTTPLogs" then
    Ok (table_of ["TimeGenerated"; "CsMethod"; "CsUriStem"; "ScStatus"; "TimeTaken"]
          [[VDate (Some 1705314700000); VStr "GET"; VStr "/favicon.ico";
            VNum 404; VNum 12]])
  else Ok (table_of ["TimeGenerated"; "ResultDescription"] []).

Definition deployment_jan15 : Arm.Deployment :=
  {| Arm.id := Some "d1";
     Arm.status := Some 4;
     Arm.message := Some "Deploy main";
     Arm.author := Some "dev";
     Arm.deployer := Some "GitHub";
     Arm.startTime := Some (Some 1705314600000);
     Arm.endTime := None |}.

Definition env_quiet_deploy : Env :=
  make_env la_quiet_deploy kudu_down [deployment_jan15].

Definition no_args : Tools.ToolArgs :=
  {| Tools.timestamp := None;
     Tools.windowMinutes := None;
     Tools.deploymentIndex := None |}.

Definition correlate_args (radius : option Z) : Tools.ToolArgs :=
  {| Tools.timestamp := Some "2024-01-15T10:30:00Z";
     Tools.windowMinutes := radius;
     Tools.deploymentIndex := None |}.

(** *** Kudu hosts *)

Definition response_json (l : list KuduLogEntry) : Fetch.Response :=
  {| Fetch.ok := true; Fetch.status := 200; Fetch.statusText := "OK";
     Fetch.text := EmptyString; Fetch.json := Ok l |}.

Definition response_text (s : string) : Fetch.Response :=
  {| Fetch.ok := true; Fetch.status := 200; Fetch.statusText := "OK";
     Fetch.text := s; Fetch.json := Throw (Error "Unexpected token") |}.

Definition log_entry (href path : string) : KuduLogEntry :=
  {| machineName := "lw0"; lastUpdated := "2024-01-15T10:00:00Z";
     size := 64; href := href; path := path |}.

Definition docker_url : string := "https://app.scm.azurewebsites.net/api/logs/docker".
Definition files_url : string :=
  "https://app.scm.azurewebsites.net/api/vfs/LogFiles/Application/".
Definition file_url : string :=
  "https://app.scm.azurewebsites.net/api/vfs/LogFiles/Application/app.log".
Definition stream_url : string :=
  "https://app.scm.azurewebsites.net/api/vfs/LogFiles/docker.log".

(** No live stream; one application log file of two lines, one blank line
    between them. *)
Definition app_log_text : string :=
  "2024-01-14 08:00:00 boot failed" +:+ LF +:+ "   " +:+ LF
  +:+ "listening on 8080" +:+ LF.

Definition kudu_files_only (url : string) : Res Fetch.Response :=
  if String.eqb url docker_url then Ok (response_json [])
  else if String.eqb url files_url
  then Ok (response_json [log_entry file_url "/LogFiles/Application/app.log"])
  else if String.eqb url file_url
  then Ok (response_text app_log_text)
  else Throw (Error "404").

Definition env_files_only : Env := make_env la_down kudu_files_only [deployment_jan15].

(** One live stream of two lines; the application log directory fails. *)
Definition kudu_live (url : string) : Res Fetch.Response :=
  if String.eqb url docker_url
  then Ok (response_json [log_entry stream_url "/LogFiles/docker.log"])
  else if String.eqb url stream_url
  then Ok (response_text ("2024-01-15T10:29:58 Site started" +:+ LF
                          +:+ "listening on 8080" +:+ LF))
  else Throw (Error "404").

Definition env_live : Env := make_env la_down kudu_live [deployment_jan15].

(** The live stream serves the text that [kudu_files_only] keeps on disk. *)
Definition kudu_app_log_live (url : string) : Res Fetch.Response :=
  if String.eqb url docker_url
  then Ok (response_json [log_entry stream_url "/LogFiles/docker.log"])
  else if String.eqb url stream_url
  then Ok (response_text app_log_text)
  else Throw (Error "404").

Definition env_app_log_live : Env :=
  make_env la_down kudu_app_log_live [deployment_jan15].

End Examples.

(* ===================================================================== *)
(** ** [src/azure/log-analytics.ts]: the prebuilt query shapes *)
(* ===================================================================== *)

Module PrebuiltQueries.

(** The double quote of the [contains "..."] clauses. *)
Definition DQ : string := String (ascii_of_nat 34) EmptyString.

(** The optional filter of [queryHttpLogs]. *)
Record HttpFilter : Type := {
  statusCode : option Z;
  path : option string;
  minDurationMs : option Z;
}.

(** [if (filter?.field)] for a number: absent and zero do not count. *)
Definition given_number (x : option Z) : option Z :=
  match x with
  | Some n => if n =? 0 then None else Some n
  | None => None
  end.

(** [if (filter)] for a string: absent and empty do not count. *)
Definition given_text (x : option string) : option string :=
  match x with
  | Some s => if truthy_string s then Some s else None
  | None => None
  end.

Definition since (timeRangeMinutes : Z) : string :=
  "| where TimeGenerated > ago(" +:+ num_to_string timeRangeMinutes +:+ "m)".

(** The text built by [queryHttpLogs]. *)
Definition httpLogsText (timeRangeMinutes : Z) (filter : option HttpFilter)
    : string :=
  let query := "AppServiceHTTPLogs" +:+ LF +:+ since timeRangeMinutes in
  let query :=
    match given_number (filter ≫= statusCode) with
    | Some code => query +:+ LF +:+ "| where ScStatus == " +:+ num_to_string code
    | None => query
    end in
  let query :=
    match given_text (filter ≫= path) with
    | Some p => query +:+ LF +:+ "| where CsUriStem contains " +:+ DQ +:+ p +:+ DQ
    | None => query
    end in
  let query :=
    match given_number (filter ≫= minDurationMs) with
    | Some ms => query +:+ LF +:+ "| where TimeTaken >= " +:+ num_to_string ms
    | None => query
    end in
  query +:+ LF
  +:+ "| project TimeGenerated, CsMethod, CsUriStem, ScStatus, TimeTaken, CsHost, UserAgent"
  +:+ LF +:+ "| order by TimeGenerated desc".

(** The text built by [queryHttpErrors]. *)
Definition httpErrorsText (timeRangeMinutes : Z) : string :=
  "AppServiceHTTPLogs"
  +:+ LF +:+ since timeRangeMinutes
  +:+ LF +:+ "| where ScStatus >= 500"
  +:+ LF +:+ "| summarize Count=count(), AvgDuration=avg(TimeTaken) by ScStatus, CsUriStem"
  +:+ LF +:+ "| order by Count desc".

(** The text built by [queryAppLogs]. *)
Definition appLogsText (timeRangeMinutes : Z) (filter : option string) : string :=
  let query := "AppServiceConsoleLogs" +:+ LF +:+ since timeRangeMinutes in
  let query :=
    match given_text filter with
    | Some f =>
        query +:+ LF +:+ "| where ResultDescription contains " +:+ DQ +:+ f +:+ DQ
    | None => query
    end in
  query +:+ LF
  +:+ "| project TimeGenerated, Level, ResultDescription, Host"
  +:+ LF +:+ "| order by TimeGenerated desc".

(** The text built by [queryPlatformLogs]. *)
Definition platformLogsText (timeRangeMinutes : Z) : string :=
  "AppServicePlatformLogs"
  +:+ LF +:+ since timeRangeMinutes
  +:+ LF +:+ "| project TimeGenerated, Level, Message, ContainerName, Host"
  +:+ LF +:+ "| order by TimeGenerated desc".

(** The text built by [querySlowRequests]. *)
Definition slowRequestsText (timeRangeMinutes thresholdMs : Z) : string :=
  "AppServiceHTTPLogs"
  +:+ LF +:+ since timeRangeMinutes
  +:+ LF +:+ "| where TimeTaken >= " +:+ num_to_string thresholdMs
  +:+ LF +:+ "| project TimeGenerated, CsMethod, CsUriStem, ScStatus, TimeTaken"
  +:+ LF +:+ "| order by TimeTaken desc".

(** The text built by [getErrorSummary]. *)
Definition errorSummaryText (timeRangeMinutes : Z) : string :=
  "AppServiceHTTPLogs"
  +:+ LF +:+ since timeRangeMinutes
  +:+ LF +:+ "| where ScStatus >= 400"
  +:+ LF +:+ "| summarize "
  +:+ LF +:+ "    TotalCount=count(),"
  +:+ LF +:+ "    AvgDuration=avg(TimeTaken),"
  +:+ LF +:+ "    MaxDuration=max(TimeTaken),"
  +:+ LF +:+ "    FirstSeen=min(TimeGenerated),"
  +:+ LF +:+ "    LastSeen=max(TimeGenerated)"
  +:+ LF +:+ "  by ScStatus, CsUriStem"
  +:+ LF +:+ "| order by TotalCount desc".

Section WithEnv.
Variable env : Env.

(** Query HTTP logs (AppServiceHTTPLogs). *)
Definition queryHttpLogs (workspaceId : string) (timeRangeMinutes : Z)
    (filter : option HttpFilter) : M LogAnalytics.LogQueryResult :=
  LogAnalytics.query env workspaceId (httpLogsText timeRangeMinutes filter)
    timeRangeMinutes.

(** Query HTTP errors (5xx status codes). *)
Definition queryHttpErrors (workspaceId : string) (timeRangeMinutes : Z)
    : M LogAnalytics.LogQueryResult :=
  LogAnalytics.query env workspaceId (httpErrorsText timeRangeMinutes)
    timeRangeMinutes.

(** Query application logs (stdout/stderr). *)
Definition queryAppLogs (workspaceId : string) (timeRangeMinutes : Z)
    (filter : option string) : M LogAnalytics.LogQueryResult :=
  LogAnalytics.query env workspaceId (appLogsText timeRangeMinutes filter)
    timeRangeMinutes.

(** Query platform logs (deployments, restarts, etc.). *)
Definition queryPlatformLogs (workspaceId : string) (timeRangeMinutes : Z)
    : M LogAnalytics.LogQueryResult :=
  LogAnalytics.query env workspaceId (platformLogsText timeRangeMinutes)
    timeRangeMinutes.

(** Query slow requests. *)
Definition querySlowRequests (workspaceId : string)
    (timeRangeMinutes thresholdMs : Z) : M LogAnalytics.LogQueryResult :=
  LogAnalytics.query env workspaceId
    (slowRequestsText timeRangeMinutes thresholdMs) timeRangeMinutes.

(** Get error summary with patterns. *)
Definition getErrorSummary (workspaceId : string) (timeRangeMinutes : Z)
    : M LogAnalytics.LogQueryResult :=
  LogAnalytics.query env workspaceId (errorSummaryText timeRangeMinutes)
    timeRangeMinutes.

End WithEnv.
End PrebuiltQueries.

(* ===================================================================== *)
(** ** [src/azure/arm.ts]: diagnostic settings and workspace resolution *)
(* ===================================================================== *)

Module ArmSource.

(** An element of [setting.logs]. *)
Record LogSettings : Type := {
  category : option string;
  enabled : bool;
}.

(** A diagnostic setting, as the monitor client lists it. *)
Record DiagnosticSettingsResource : Type := {
  workspaceId : option string;
  storageAccountId : option string;
  eventHubAuthorizationRuleId : option string;
  logs : option (list LogSettings);
}.

(** The answer of the management endpoint to the lookup of a workspace:
    [customerId] is [data.properties?.customerId] of the body, or the
    exception thrown while reading the body. *)
Record WorkspaceResponse : Type := {
  ok : bool;
  customerId : Res (option string);
}.

Definition disabled : Arm.DiagnosticInfo :=
  {| Arm.enabled := false;
     Arm.logAnalyticsWorkspaceId := None;
     Arm.storageAccountId := None;
     Arm.eventHubId := None;
     Arm.categories := [] |}.

(** The inner loop: the categories of the enabled logs are pushed in
    order. *)
Definition enabled_categories (ls : list LogSettings) : list string :=
  omap (fun log =>
          if enabled log then Tools.usable (category log) else None) ls.

(** The body of the loop over the settings. *)
Definition absorb (result : Arm.DiagnosticInfo)
    (setting : DiagnosticSettingsResource) : Arm.DiagnosticInfo :=
  {| Arm.enabled :=
       match Tools.usable (workspaceId setting) with
       | Some _ => true
       | None => Arm.enabled result
       end;
     Arm.logAnalyticsWorkspaceId :=
       match Tools.usable (workspaceId setting) with
       | Some ws => Some ws
       | None => Arm.logAnalyticsWorkspaceId result
       end;
     Arm.storageAccountId :=
       match Tools.usable (storageAccountId setting) with
       | Some sa => Some sa
       | None => Arm.storageAccountId result
       end;
     Arm.eventHubId :=
       match Tools.usable (eventHubAuthorizationRuleId setting) with
       | Some eh => Some eh
       | None => Arm.eventHubId result
       end;
     Arm.categories :=
       Arm.categories result
       ++ match logs setting with
          | Some ls => enabled_categories ls
          | None => []
          end |}.

(** The pattern [/workspaces\/([^/]+)/]: somewhere in the text,
    "workspaces/" followed by a character that is not a slash. *)
Definition name_follows (s : string) : bool :=
  match string_skipn 11 s with
  | String c _ => negb (Ascii.eqb c "/")
  | EmptyString => false
  end.

Fixpoint matches_workspace (s : string) : bool :=
  (startsWith s "workspaces/" && name_follows s)
  || match s with
     | EmptyString => false
     | String _ s' => matches_workspace s'
     end.

Section WithEnv.
Variable env : Env.
(** [monitorClient.diagnosticSettings.list(resourceId)]: the [value] of the
    response, possibly absent, or a failure. *)
Variable list_answer :
  World -> string -> Res (option (list DiagnosticSettingsResource)).
(** [credential.getToken(...)]: the token, or none, or a failure. *)
Variable getToken_answer : World -> Res (option string).
(** [fetch(url, { headers: { Authorization } })] on the management
    endpoint. *)
Variable management_answer : World -> string -> string -> Res WorkspaceResponse.

Definition resourceId_of (context : AppContext) : string :=
  "/subscriptions/" +:+ subscriptionId context
  +:+ "/resourceGroups/" +:+ resourceGroup context
  +:+ "/providers/Microsoft.Web/sites/" +:+ appName context.

(** Get diagnostic settings for an App Service.  The monitor client of the
    subscription is obtained before the [try]; the embedding starts once it
    is there. *)
Definition getDiagnosticSettings (context : AppContext)
    : M Arm.DiagnosticInfo :=
  let resourceId := resourceId_of context in
  try_catch
    (await settingsResponse :=
       ArmClient.arm_call env (fun w => list_answer w resourceId) in
     let settings :=
       match settingsResponse with
       | Some value => value
       | None => []
       end in
     ret (fold_left absorb settings disabled))
    (fun _ =>
       (* Diagnostic settings might not exist *)
       ret disabled).

(** Resolve workspace ID from resource ID to workspace GUID. *)
Definition resolveWorkspaceId (workspaceResourceId subscriptionId : string)
    : M (option string) :=
  if negb (matches_workspace workspaceResourceId) then ret None
  else
    await found :=
      try_catch
        (await token := ArmClient.arm_call env getToken_answer in
         let authorization :=
           "Bearer " +:+ match token with
                         | Some t => t
                         | None => "undefined"
                         end in
         await response :=
           ArmClient.arm_call env
             (fun w =>
                management_answer w
                  ("https://management.azure.com" +:+ workspaceResourceId
                   +:+ "?api-version=2021-12-01-preview")
                  authorization) in
         if ok response then
           await id := lift (customerId response) in
           ret (Some (Tools.usable id))
         else ret None)
        (fun _ =>
           (* Fall through *)
           ret None) in
    match found with
    | Some result => ret result
    | None => ret None
    end.

End WithEnv.
End ArmSource.

(* ===================================================================== *)
(** ** [src/tools/index.ts]: context, log access and analysis tools *)
(* ===================================================================== *)

Module ToolCases.

(** The arguments these tools read; the three names of [set_context] and
    the query of [query_logs] are required by the schemas of the tools. *)
Module Args.

Record ToolArgs : Type := {
  subscriptionId : string;
  resourceGroup : string;
  appName : string;
  query : string;
  timeRangeMinutes : option Z;
  maxLines : option Z;
  filter : option string;
  minutes : option Z;
  thresholdMs : option Z;
  hours : option Z;
}.

End Args.

(** [(args.hours as number) * 60 || 24 * 60]: an absent number makes the
    product NaN, which is falsy like zero. *)
Definition hours_to_minutes (hours : option Z) : Z :=
  match hours with
  | Some h => if h * 60 =? 0 then 24 * 60 else h * 60
  | None => 24 * 60
  end.

Definition no_context_text : string :=
  "No App Service configured." +:+ LF +:+ LF
  +:+ "Use `set_context` or set environment variables:"
  +:+ LF +:+ "- AZURE_SUBSCRIPTION_ID"
  +:+ LF +:+ "- AZURE_RESOURCE_GROUP"
  +:+ LF +:+ "- AZURE_APP_NAME".

Definition current_context_text (context : AppContext) : string :=
  "**Current App Service**"
  +:+ LF +:+ "- Subscription: " +:+ subscriptionId context
  +:+ LF +:+ "- Resource Group: " +:+ resourceGroup context
  +:+ LF +:+ "- App: " +:+ appName context.

Definition query_logs_unavailable : string :=
  "Error: Log Analytics not configured. Use check_diagnostics to see status."
  +:+ LF +:+ LF +:+ "Fallback: Use get_recent_logs for Kudu container logs.".

Section WithEnv.
Variable env : Env.
(** The renderers: the [summary] each one returns. *)
Variable formatLogQueryResult : LogAnalytics.LogQueryResult -> string -> string.
Variable formatErrorSummary : LogAnalytics.LogQueryResult -> string.
Variable formatKuduLogs : Kudu.KuduLogsResult -> string.
Variable formatDiagnosticInfo : Arm.DiagnosticInfo -> string.

(** [case 'get_context'] *)
Definition get_context : M string :=
  await context := Context.getAppContext env in
  match context with
  | None => ret no_context_text
  | Some context => ret (current_context_text context)
  end.

(** [case 'set_context'] *)
Definition set_context (args : Args.ToolArgs) : M string :=
  let ctx :=
    {| subscriptionId := Args.subscriptionId args;
       resourceGroup := Args.resourceGroup args;
       appName := Args.appName args;
       logAnalyticsWorkspaceId := None;
       diagnosticsEnabled := None |} in
  await _ := Context.setAppContext ctx in
  ret ("✅ Context set to **" +:+ appName ctx +:+ "** in "
       +:+ resourceGroup ctx).

(** [case 'check_diagnostics'] *)
Definition check_diagnostics : M string :=
  await context := Context.requireAppContext env in
  await diag := ArmClient.getDiagnosticSettings env context in
  await _ :=
    (* Cache workspace ID for later use *)
    match Tools.usable (Arm.logAnalyticsWorkspaceId diag) with
    | Some resourceId =>
        await workspaceGuid :=
          ArmClient.resolveWorkspaceId env resourceId
            (subscriptionId context) in
        Context.updateDiagnosticInfo (Tools.usable workspaceGuid)
          (Some (Arm.enabled diag))
    | None => Context.updateDiagnosticInfo None (Some false)
    end in
  ret (formatDiagnosticInfo diag).

(** [case 'query_logs'] *)
Definition query_logs (args : Args.ToolArgs) : M string :=
  await context := Context.requireAppContext env in
  await workspaceId := Tools.getWorkspaceId env context in
  match Tools.usable workspaceId with
  | None => ret query_logs_unavailable
  | Some workspaceId =>
      await result :=
        LogAnalytics.query env workspaceId (Args.query args)
          (Tools.or_default (Args.timeRangeMinutes args) 60) in
      ret (formatLogQueryResult result "Query Results")
  end.

(** [case 'get_recent_logs'] *)
Definition get_recent_logs (args : Args.ToolArgs) : M string :=
  await context := Context.requireAppContext env in
  await result :=
    Kudu.getRecentLogs env (appName context)
      (Tools.or_default (Args.maxLines args) 100) (Args.filter args) in
  ret (formatKuduLogs result).

(** [case 'get_http_errors'] *)
Definition get_http_errors (args : Args.ToolArgs) : M string :=
  await context := Context.requireAppContext env in
  await workspaceId := Tools.getWorkspaceId env context in
  match Tools.usable workspaceId with
  | None =>
      ret "Error: Log Analytics not configured. HTTP error analysis requires diagnostic settings."
  | Some workspaceId =>
      await result :=
        PrebuiltQueries.queryHttpErrors env workspaceId
          (Tools.or_default (Args.minutes args) 60) in
      ret (formatErrorSummary result)
  end.

(** [case 'get_slow_requests'] *)
Definition get_slow_requests (args : Args.ToolArgs) : M string :=
  await context := Context.requireAppContext env in
  await workspaceId := Tools.getWorkspaceId env context in
  match Tools.usable workspaceId with
  | None => ret "Error: Log Analytics not configured."
  | Some workspaceId =>
      await result :=
        PrebuiltQueries.querySlowRequests env workspaceId
          (Tools.or_default (Args.minutes args) 60)
          (Tools.or_default (Args.thresholdMs args) 1000) in
      ret (formatLogQueryResult result
             ("Slow Requests (>"
              +:+ num_to_string (Tools.or_default (Args.thresholdMs args) 1000)
              +:+ "ms)"))
  end.

(** [case 'get_restarts'] *)
Definition get_restarts (args : Args.ToolArgs) : M string :=
  await context := Context.requireAppContext env in
  await workspaceId := Tools.getWorkspaceId env context in
  match Tools.usable workspaceId with
  | Some workspaceId =>
      await result :=
        PrebuiltQueries.queryPlatformLogs env workspaceId
          (hours_to_minutes (Args.hours args)) in
      ret (formatLogQueryResult result "Platform Events (restarts, deployments)")
  | None =>
      (* Fallback to Kudu *)
      await kuduResult :=
        Kudu.getRecentLogs env (appName context) 200 None in
      ret (formatKuduLogs kuduResult +:+ LF +:+ LF
           +:+ "_Note: Full restart history requires Log Analytics._")
  end.

(** [case 'summarize_errors'] *)
Definition summarize_errors (args : Args.ToolArgs) : M string :=
  await context := Context.requireAppContext env in
  await workspaceId := Tools.getWorkspaceId env context in
  match Tools.usable workspaceId with
  | None =>
      ret "Error: Log Analytics not configured. Error analysis requires diagnostic settings."
  | Some workspaceId =>
      await result :=
        PrebuiltQueries.getErrorSummary env workspaceId
          (hours_to_minutes (Args.hours args)) in
      ret (formatErrorSummary result)
  end.

End WithEnv.
End ToolCases.

(* ===================================================================== *)
(** ** [src/utils/formatter.ts]: two of the renderers *)
(* ===================================================================== *)

Module Formatter.

(** [arr.join(sep)]. *)
Fixpoint join (sep : string) (l : list string) : string :=
  match l with
  | [] => EmptyString
  | [x] => x
  | x :: rest => x +:+ sep +:+ join sep rest
  end.

Definition not_configured : string :=
  "⚠️ **Diagnostic settings not configured**"
  +:+ LF
  +:+ LF +:+ "Log Analytics is not enabled for this app. Only Kudu container logs are available."
  +:+ LF
  +:+ LF +:+ "To enable full log querying:"
  +:+ LF +:+ "1. Go to Azure Portal → App Service → Diagnostic settings"
  +:+ LF +:+ "2. Add a diagnostic setting"
  +:+ LF +:+ "3. Enable log categories: AppServiceHTTPLogs, AppServiceConsoleLogs, AppServicePlatformLogs"
  +:+ LF +:+ "4. Select a Log Analytics workspace as destination".

(** Format diagnostic settings info: the [summary]. *)
Definition formatDiagnosticInfo (info : Arm.DiagnosticInfo) : string :=
  if negb (Arm.enabled info) then not_configured
  else
    let lines :=
      [ "✅ **Diagnostic settings enabled**";
        "- Log Analytics: "
        +:+ match Tools.usable (Arm.logAnalyticsWorkspaceId info) with
            | Some _ => "Yes"
            | None => "No"
            end ] in
    let lines :=
      match Tools.usable (Arm.storageAccountId info) with
      | Some _ => lines ++ ["- Storage Account: Yes"]
      | None => lines
      end in
    let lines :=
      match Tools.usable (Arm.eventHubId info) with
      | Some _ => lines ++ ["- Event Hub: Yes"]
      | None => lines
      end in
    let lines :=
      if LogAnalytics.len (Arm.categories info) >? 0
      then lines ++ ["- Enabled categories: " +:+ join ", " (Arm.categories info)]
      else lines in
    join LF lines.

(** Format Kudu logs result: the [summary]; the handlers leave
    [maxDisplay] at its default of 50. *)
Definition formatKuduLogs (result : Kudu.KuduLogsResult) (maxDisplay : Z)
    : string :=
  if negb (Kudu.success result) then
    "❌ **Failed to fetch logs**" +:+ LF
    +:+ match Kudu.error result with
        | Some e => e
        | None => "undefined"
        end
  else if LogAnalytics.len (Kudu.entries result) =? 0 then
    "No recent log entries found."
  else
    let summary :=
      "**Recent container logs** ("
      +:+ num_to_string (LogAnalytics.len (Kudu.entries result))
      +:+ " lines)" +:+ LF +:+ LF in
    let summary := summary +:+ "```" +:+ LF in
    let displayEntries := slice_from (- maxDisplay) (Kudu.entries result) in
    let summary :=
      fold_left (fun acc entry => acc +:+ Kudu.content entry +:+ LF)
        displayEntries summary in
    let summary := summary +:+ "```" in
    if LogAnalytics.len (Kudu.entries result) >? maxDisplay
    then summary +:+ LF +:+ LF +:+ "_Showing last " +:+ num_to_string maxDisplay
         +:+ " of " +:+ num_to_string (LogAnalytics.len (Kudu.entries result))
         +:+ " lines_"
    else summary.

End Formatter.

(* ===================================================================== *)
(** ** Notions used to state the further properties *)
(* ===================================================================== *)

Module Notions.

(** No character of [s] is [c]. *)
Fixpoint avoids (c : ascii) (s : string) : bool :=
  match s with
  | EmptyString => true
  | String x s' => negb (Ascii.eqb x c) && avoids c s'
  end.

(** No occurrence of [needle] starts inside [lit], whatever follows [lit]:
    no suffix of [lit] starts with [needle] or starts [needle]. *)
Fixpoint clear_of (lit needle : string) : bool :=
  match lit with
  | EmptyString => true
  | String _ lit' =>
      negb (startsWith lit needle) && negb (startsWith needle lit)
      && clear_of lit' needle
  end.

(** The target the three environment variables describe, when all three
    are set and not empty. *)
Definition env_target (env : Env) : option AppContext :=
  match AZURE_SUBSCRIPTION_ID env, AZURE_RESOURCE_GROUP env,
        AZURE_APP_NAME env with
  | Some sub, Some rg, Some app =>
      if truthy_string sub && truthy_string rg && truthy_string app
      then Some {| subscriptionId := sub;
                   resourceGroup := rg;
                   appName := app;
                   logAnalyticsWorkspaceId := None;
                   diagnosticsEnabled := None |}
      else None
  | _, _, _ => None
  end.

(** Two contexts name the same App Service. *)
Definition same_target (a b : AppContext) : Prop :=
  subscriptionId a = subscriptionId b
  /\ resourceGroup a = resourceGroup b
  /\ appName a = appName b.

(** The time value of a descriptor's [lastUpdated], when it parses. *)
Definition updated_at (env : Env) (e : KuduLogEntry) : JsDate :=
  Date_of_string env (lastUpdated e).

(** The date of a descriptor parses. *)
Definition dated (env : Env) (e : KuduLogEntry) : Prop :=
  updated_at env e <> None.

(** [a] is at least as recent as [b]. *)
Definition recent (env : Env) (a b : KuduLogEntry) : Prop :=
  forall ta tb,
    updated_at env a = Some ta -> updated_at env b = Some tb -> tb <= ta.

(** The lines of a block of text, each one ended by a line feed. *)
Definition block_of (lines : list string) : string :=
  fold_right (fun line rest => line +:+ LF +:+ rest) EmptyString lines.

(** The entry made of a line of the live stream read at time [current]:
    its timestamp is the one the line starts with, or the time of
    reading. *)
Definition stream_entry (current : Z) (line : string) : Kudu.ContainerLog :=
  {| Kudu.timestamp :=
       match Kudu.timestampMatch line with
       | Some m => m
       | None => iso_of_time current
       end;
     Kudu.content := line |}.

End Notions.

(* ===================================================================== *)
(** ** More sample backends *)
(* ===================================================================== *)

Module MoreExamples.

Import Examples.

(** The resource identifier of a workspace and the diagnostic settings
    that send the logs to it. *)
Definition workspace_resource : string :=
  "/subscriptions/sub/resourceGroups/rg/providers/Microsoft.OperationalInsights/workspaces/logs".

Definition diag_to_workspace : Arm.DiagnosticInfo :=
  {| Arm.enabled := true;
     Arm.logAnalyticsWorkspaceId := Some workspace_resource;
     Arm.storageAccountId := None;
     Arm.eventHubId := None;
     Arm.categories := ["AppServiceHTTPLogs"; "AppServiceConsoleLogs"] |}.

(** An environment like [base] whose metadata backend reports these
    settings and resolves the workspace to "ws-guid". *)
Definition with_workspace (base : Env) : Env :=
  {| AZURE_SUBSCRIPTION_ID := AZURE_SUBSCRIPTION_ID base;
     AZURE_RESOURCE_GROUP := AZURE_RESOURCE_GROUP base;
     AZURE_APP_NAME := AZURE_APP_NAME base;
     elapsed := elapsed base;
     queryWorkspace_answer := queryWorkspace_answer base;
     fetch_answer := fetch_answer base;
     listDeployments_answer := listDeployments_answer base;
     getDiagnosticSettings_answer := fun _ _ => Ok diag_to_workspace;
     resolveWorkspaceId_answer := fun _ _ _ => Ok (Some "ws-guid");
     Date_parse_other := Date_parse_other base;
     Date_toString := Date_toString base |}.

Definition env_resolving : Env := with_workspace (env_rows 3).

(** A target whose cached identifier is out of date. *)
Definition ctx_stale : AppContext :=
  {| subscriptionId := "sub"; resourceGroup := "rg"; appName := "app";
     logAnalyticsWorkspaceId := Some "old-guid";
     diagnosticsEnabled := Some true |}.

(** A world without a stored context. *)
Definition world_without_context : World :=
  {| now := 1705401000000;
     currentContext := None;
     queries := [];
     fetches := [] |}.

(** A structured backend with rows and the deployment of January 15. *)
Definition env_deployed : Env := make_env (la_rows 3) kudu_down [deployment_jan15].

Definition index_args (i : Z) : Tools.ToolArgs :=
  {| Tools.timestamp := None;
     Tools.windowMinutes := None;
     Tools.deploymentIndex := Some i |}.

Definition window_args (minutes : Z) : Tools.ToolArgs :=
  {| Tools.timestamp := None;
     Tools.windowMinutes := Some minutes;
     Tools.deploymentIndex := None |}.

Definition vague_args : Tools.ToolArgs :=
  {| Tools.timestamp := Some "yesterday";
     Tools.windowMinutes := None;
     Tools.deploymentIndex := None |}.

(** The arguments of the log and analysis tools. *)
Definition tool_args (query : string) (filter : option string)
    (hours : option Z) : ToolCases.Args.ToolArgs :=
  {| ToolCases.Args.subscriptionId := "sub";
     ToolCases.Args.resourceGroup := "rg";
     ToolCases.Args.appName := "app";
     ToolCases.Args.query := query;
     ToolCases.Args.timeRangeMinutes := None;
     ToolCases.Args.maxLines := None;
     ToolCases.Args.filter := filter;
     ToolCases.Args.minutes := None;
     ToolCases.Args.thresholdMs := None;
     ToolCases.Args.hours := hours |}.

(** Renderers that show the number of rows, of entries and of
    categories. *)
Definition render_summary (r : LogAnalytics.LogQueryResult) : string :=
  "rows: " +:+ num_to_string (LogAnalytics.rowCount r).

Definition render_kudu (r : Kudu.KuduLogsResult) : string :=
  "entries: " +:+ num_to_string (LogAnalytics.len (Kudu.entries r)).

Definition render_diagnostics (d : Arm.DiagnosticInfo) : string :=
  "categories: " +:+ num_to_string (LogAnalytics.len (Arm.categories d)).

(** Two streams, the second one more recent. *)
Definition stream_of (updated href : string) : KuduLogEntry :=
  {| machineName := "lw0"; lastUpdated := updated;
     size := 64; href := href; path := "/LogFiles/docker.log" |}.

Definition old_stream : KuduLogEntry :=
  stream_of "2024-01-14T10:00:00Z" "https://app.scm.azurewebsites.net/api/vfs/LogFiles/old.log".

Definition new_stream : KuduLogEntry :=
  stream_of "2024-01-15T10:00:00Z" stream_url.

Definition kudu_two_streams (url : string) : Res Fetch.Response :=
  if String.eqb url docker_url
  then Ok (response_json [old_stream; new_stream])
  else if String.eqb url stream_url
  then Ok (response_text ("2024-01-15T10:29:58 Site started" +:+ LF))
  else Throw (Error "404").

Definition env_two_streams : Env := make_env la_down kudu_two_streams [].

End MoreExamples.

(* ===================================================================== *)
(** ** The properties as the specification words them *)
(* ===================================================================== *)

Module Spec.

(** A case-insensitive substring test: [text] contains [kw] when case is
    ignored. *)
Definition contains_ci (text kw : string) : bool :=
  includes (toLowerCase text) (toLowerCase kw).


(** Event Classifier: the tags of a platform-log message and of an
    application-log line, all case-insensitive substring tests. *)
Definition startup_tag (message : string) : bool :=
  existsb (contains_ci message) ["start"; "probe"; "running"].

Definition termination_tag (message : string) : bool :=
  existsb (contains_ci message) ["terminat"; "stop"].

Definition error_tag (message : string) : bool :=
  existsb (contains_ci message) ["error"; "fail"; "crash"; "oom"; "memory"].

Definition app_error_tag (line : string) : bool :=
  existsb (contains_ci line) ["error"; "exception"; "fail"].

(** Unstructured Log Connector: the lines of a log, processed as the
    live-stream lines are: blank lines dropped, the last [maxLines] kept,
    a leading timestamp extracted (the fetch time otherwise), the filter
    applied. *)
Definition live_stream_entries (fetchTime : Z) (maxLines : Z)
    (flt : option string) (text : string) : list Kudu.ContainerLog :=
  Kudu.apply_filter flt Kudu.content
    (map (fun line =>
            {| Kudu.timestamp :=
                 match Kudu.timestampMatch line with
                 | Some m => m
                 | None => iso_of_time fetchTime
                 end;
               Kudu.content := line |})
         (slice_from (- maxLines) (List.filter Kudu.not_blank (split_lines text)))).

(** Guardrail Enforcer: the request dispatched for a query issued in
    world [w]: the capped query over the window that ends now, with the
    server-side timeout of 30 s. *)
Definition request_of (w : World) (workspaceId kqlQuery : string)
    (timeRangeMinutes : Z) : Monitor.QueryRequest :=
  {| Monitor.workspaceId := workspaceId;
     Monitor.query := LogAnalytics.addRowLimit kqlQuery 500;
     Monitor.startTime := TimeClip (now w - timeRangeMinutes * 60 * 1000);
     Monitor.endTime := Some (now w);
     Monitor.serverTimeoutInSeconds := 30 |}.

End Spec.

(* ===================================================================== *)
(** ** Facts about the built-ins *)
(* ===================================================================== *)

(** String concatenation computes on its first argument. *)
#[local] Arguments String.append _ _ : simpl nomatch.

Section StringFacts.

Lemma append_empty_r (s : string) : s +:+ EmptyString = s.
Proof. induction s as [|c s IH]; simpl; [reflexivity | now rewrite IH]. Qed.

Lemma append_assoc (a b c : string) : (a +:+ b) +:+ c = a +:+ (b +:+ c).
Proof. induction a as [|x a IH]; simpl; [reflexivity | now rewrite IH]. Qed.

Lemma startsWith_spec (s p : string) :
  startsWith s p = true <-> exists post, s = p +:+ post.
Proof.
  revert s. induction p as [|a p IH]; intros s; simpl.
  - split; [intros _; now exists s | reflexivity].
  - destruct s as [|b s].
    + split; [discriminate | intros [post H]; discriminate].
    + rewrite andb_true_iff, IH. split.
      * intros [Hab [post ->]]. apply Ascii.eqb_eq in Hab. subst b.
        now exists post.
      * intros [post H]. injection H as -> ->. split.
        -- apply Ascii.eqb_refl.
        -- now exists post.
Qed.

Lemma includes_spec (s needle : string) :
  includes s needle = true <-> exists pre post, s = pre +:+ needle +:+ post.
Proof.
  induction s as [|c s IH].
  - simpl. rewrite orb_false_r, startsWith_spec. split.
    + intros [post H]. now exists EmptyString, post.
    + intros [pre [post H]]. destruct pre; [now exists post | discriminate].
  - cbn [includes]. rewrite orb_true_iff, startsWith_spec, IH. split.
    + intros [[post H] | [pre [post H]]].
      * now exists EmptyString, post.
      * exists (String c pre), post. simpl. now rewrite H.
    + intros [pre [post H]]. destruct pre as [|x pre].
      * left. now exists post.
      * right. simpl in H. injection H as _ H. now exists pre, post.
Qed.


Lemma includes_append_r (s t needle : string) :
  includes t needle = true -> includes (s +:+ t) needle = true.
Proof.
  rewrite !includes_spec. intros [pre [post ->]].
  exists (s +:+ pre), post. now rewrite append_assoc.
Qed.

Lemma toLowerCase_append (a b : string) :
  toLowerCase (a +:+ b) = toLowerCase a +:+ toLowerCase b.
Proof. induction a as [|c a IH]; simpl; [reflexivity | now rewrite IH]. Qed.

(** Lower-casing works character by character, so a split of the
    lower-cased text comes from a split of the text. *)
Lemma toLowerCase_append_inv (s a b : string) :
  toLowerCase s = a +:+ b ->
  exists a' b', s = a' +:+ b' /\ toLowerCase a' = a /\ toLowerCase b' = b.
Proof.
  revert s. induction a as [|x a IH]; intros s H.
  - exists EmptyString, s. now simpl in *.
  - destruct s as [|c s]; [discriminate|].
    simpl in H. injection H as Hx H.
    destruct (IH s H) as [a' [b' [-> [Ha Hb]]]].
    exists (String c a'), b'. simpl. now rewrite Hx, Ha.
Qed.

(** What the test [text.toLowerCase().includes(kw)] decides, for a
    keyword written in lower case: some piece of [text] is [kw] up to
    case. *)
Lemma lower_includes_spec (text kw : string) :
  includes (toLowerCase text) kw = true <->
  exists pre mid post,
    text = pre +:+ mid +:+ post /\ toLowerCase mid = kw.
Proof.
  rewrite includes_spec. split.
  - intros [pre [post H]].
    apply toLowerCase_append_inv in H. destruct H as [pre' [rest [-> [_ H]]]].
    apply toLowerCase_append_inv in H. destruct H as [mid [post' [-> [Hm _]]]].
    now exists pre', mid, post'.
  - intros [pre [mid [post [-> Hm]]]].
    exists (toLowerCase pre), (toLowerCase post).
    now rewrite !toLowerCase_append, Hm.
Qed.

End StringFacts.

(* ===================================================================== *)
(** ** The guardrail enforcer and the structured query connector *)
(* ===================================================================== *)

Section QueryFacts.

Import LogAnalytics.

Variable env : Env.

(** The clause appended by the enforcer. *)
Lemma addRowLimit_unfold (q : string) :
  addRowLimit q 500 =
    if includes (toLowerCase q) "| limit" || includes (toLowerCase q) "| take"
    then q
    else q +:+ LF +:+ "| limit 500".
Proof. reflexivity. Qed.

(** The enforcer only ever appends: the query it returns starts with the
    query it was given. *)
Lemma addRowLimit_prefix (q : string) :
  startsWith (addRowLimit q 500) q = true.
Proof.
  rewrite addRowLimit_unfold. apply startsWith_spec.
  destruct (_ || _).
  - exists EmptyString. now rewrite append_empty_r.
  - now exists (LF +:+ "| limit 500").
Qed.

(** A query beyond the ceiling is answered on the spot. *)
Lemma query_rejected (workspaceId kqlQuery : string) (timeRangeMinutes : Z)
    (w : World) :
  timeRangeMinutes > 10080 ->
  query env workspaceId kqlQuery timeRangeMinutes w =
    (Ok {| success := false; rowCount := 0; truncated := false;
           columns := []; rows := []; queryTimeMs := 0;
           error := Some "Time range exceeds maximum of 7 days. Use a shorter time range." |},
     w).
Proof.
  intros H. unfold query, bind, Date_now.
  replace (timeRangeMinutes >? MAX_TIMERANGE_DAYS * 24 * 60) with true; [reflexivity|].
  symmetry. apply Z.gtb_lt. unfold MAX_TIMERANGE_DAYS. lia.
Qed.

(** A query within the ceiling is dispatched once; its result is read off
    the answer of the backend. *)
Lemma query_dispatched (workspaceId kqlQuery : string) (timeRangeMinutes : Z)
    (w : World) :
  timeRangeMinutes <= 10080 ->
  let req := Spec.request_of w workspaceId kqlQuery timeRangeMinutes in
  let w' := after_call env w [req] [] in
  let empty ok msg :=
    {| success := ok; rowCount := 0; truncated := false;
       columns := []; rows := []; queryTimeMs := now w' - now w;
       error := msg |} in
  query env workspaceId kqlQuery timeRangeMinutes w =
    (Ok match queryWorkspace_answer env w req with
        | Throw e => empty false (Some (exn_message e))
        | Ok result =>
            match Monitor.status result, Monitor.tables result with
            | Monitor.Success, table :: _ =>
                let columns :=
                  map column_name
                      (match Monitor.columnDescriptors table with
                       | Some cs => cs
                       | None => []
                       end) in
                let rows := map (row_object columns) (Monitor.rows table) in
                {| success := true; rowCount := len rows;
                   truncated := len rows >=? 500;
                   columns := columns; rows := rows;
                   queryTimeMs := now w' - now w; error := None |}
            | Monitor.PartialFailure, _ =>
                empty false
                  (Some ("Partial query failure: "
                         +:+ partial_message (Monitor.partialError result)))
            | _, _ => empty true None
            end
        end,
     w').
Proof.
  intros H req w' empty. unfold query, bind, Date_now.
  replace (timeRangeMinutes >? MAX_TIMERANGE_DAYS * 24 * 60) with false.
  2:{ symmetry. rewrite Z.gtb_ltb. apply Z.ltb_ge. unfold MAX_TIMERANGE_DAYS. lia. }
  unfold try_catch, bind, Date_now, queryWorkspace, ret.
  fold req. fold w'.
  change (queryWorkspace_answer env w
            {| Monitor.workspaceId := workspaceId;
               Monitor.query := addRowLimit kqlQuery MAX_ROWS;
               Monitor.startTime := TimeClip (now w - timeRangeMinutes * 60 * 1000);
               Monitor.endTime := Some (now w);
               Monitor.serverTimeoutInSeconds := QUERY_TIMEOUT_MS / 1000 |})
    with (queryWorkspace_answer env w req).
  destruct (queryWorkspace_answer env w req) as [result|e]; [|reflexivity].
  destruct (Monitor.status result), (Monitor.tables result); reflexivity.
Qed.

(** Whatever the backend does, [query] returns a result. *)
Lemma query_total (workspaceId kqlQuery : string) (timeRangeMinutes : Z)
    (w : World) :
  exists r w', query env workspaceId kqlQuery timeRangeMinutes w = (Ok r, w').
Proof.
  destruct (Z_gt_le_dec timeRangeMinutes 10080) as [H|H].
  - eexists. eexists. apply query_rejected, H.
  - eexists. eexists. apply query_dispatched, H.
Qed.




(** C2 (as amended). Every result of [query] has rowCount equal to the
    number of its rows, and truncated is true exactly when rowCount is at
    least the cap of 500. *)
Theorem query_result_invariant (workspaceId kqlQuery : string)
    (timeRangeMinutes : Z) (w : World) :
  exists r w',
    query env workspaceId kqlQuery timeRangeMinutes w = (Ok r, w')
    /\ rowCount r = len (rows r)
    /\ (truncated r = true <-> rowCount r >= 500).
Proof.
  assert (Hempty : false = true <-> 0 >= 500) by (split; [discriminate | lia]).
  destruct (Z_gt_le_dec timeRangeMinutes 10080) as [H|H].
  - eexists. eexists. split; [apply query_rejected, H|]. split; [reflexivity|exact Hempty].
  - eexists. eexists. split; [apply query_dispatched, H|].
    destruct (queryWorkspace_answer env w _) as [result|e].
    + destruct (Monitor.status result), (Monitor.tables result);
        (split; [reflexivity|]); try exact Hempty.
      cbn [truncated rowCount]. rewrite Z.geb_leb, Z.leb_le. lia.
    + split; [reflexivity|exact Hempty].
Qed.

(** C4. [query] never throws: whatever the input and whatever the backend
    does, it returns a result.  A time range above the ceiling, a thrown
    error and a partial failure give success=false with a message; a
    successful answer with a table gives success=true with one row per
    row of the table (none for a table without rows); any other answer
    gives success=true with rowCount=0. *)
Theorem query_never_throws (workspaceId kqlQuery : string)
    (timeRangeMinutes : Z) (w : World) :
  exists r w',
    query env workspaceId kqlQuery timeRangeMinutes w = (Ok r, w')
    /\ (timeRangeMinutes > 10080 ->
          success r = false /\ rowCount r = 0 /\ is_Some (error r))
    /\ (timeRangeMinutes <= 10080 ->
          match queryWorkspace_answer env w
                  (Spec.request_of w workspaceId kqlQuery timeRangeMinutes) with
          | Throw e =>
              success r = false /\ rowCount r = 0
              /\ error r = Some (exn_message e)
          | Ok result =>
              match Monitor.status result, Monitor.tables result with
              | Monitor.Success, table :: _ =>
                  success r = true /\ error r = None
                  /\ rowCount r = len (Monitor.rows table)
                  /\ length (rows r) = length (Monitor.rows table)
              | Monitor.PartialFailure, _ =>
                  success r = false /\ rowCount r = 0
                  /\ exists msg, error r = Some ("Partial query failure: " +:+ msg)
              | _, _ =>
                  success r = true /\ rowCount r = 0 /\ error r = None
              end
          end).
Proof.
  destruct (Z_gt_le_dec timeRangeMinutes 10080) as [H|H].
  - eexists. eexists. split; [apply query_rejected, H|]. split.
    + intros _. cbn. eauto.
    + intros H'. lia.
  - eexists. eexists. split; [apply query_dispatched, H|]. split.
    + intros H'. lia.
    + intros _.
      destruct (queryWorkspace_answer env w _) as [result|e].
      * destruct (Monitor.status result), (Monitor.tables result); cbn;
          unfold len; rewrite ?length_map; eauto 6.
      * cbn. auto.
Qed.

End QueryFacts.

Section RowLimitFacts.

Import LogAnalytics.


End RowLimitFacts.

(* ===================================================================== *)
(** ** The unstructured log connector *)
(* ===================================================================== *)

Section KuduFacts.

Import Kudu.

Variable env : Env.

(** The last [n] elements are at most [n]. *)
Lemma slice_from_last_length {A} (n : Z) (l : list A) :
  0 < n -> LogAnalytics.len (slice_from (- n) l) <= n.
Proof.
  intros Hn. unfold slice_from, rel_index, LogAnalytics.len.
  replace (- n <? 0) with true by (symmetry; apply Z.ltb_lt; lia).
  rewrite length_skipn. lia.
Qed.

Lemma filter_len_le {A} (p : A -> bool) (l : list A) :
  LogAnalytics.len (List.filter p l) <= LogAnalytics.len l.
Proof.
  unfold LogAnalytics.len.
  assert (H : (length (List.filter p l) <= length l)%nat).
  { induction l as [|x l IH]; cbn [List.filter length]; [lia|].
    destruct (p x); cbn [length]; lia. }
  lia.
Qed.

Lemma apply_filter_len_le {A} (flt : option string) (f : A -> string) (l : list A) :
  LogAnalytics.len (apply_filter flt f l) <= LogAnalytics.len l.
Proof.
  unfold apply_filter. destruct flt as [s|]; [|lia].
  destruct (truthy_string s); [apply filter_len_le | lia].
Qed.

Ltac failed_attempt :=
  repeat split; intros;
  first [reflexivity | discriminate | (unfold LogAnalytics.len; cbn [length]; lia)].

(** The live-stream attempt never throws; a failed attempt has no entry,
    and the attempt keeps at most [maxLines] lines. *)
Lemma getContainerLogs_total (appName : string) (maxLines : Z) (w : World) :
  exists r w',
    getContainerLogs env appName maxLines w = (Ok r, w')
    /\ queries w' = queries w
    /\ (success r = false -> entries r = [])
    /\ (0 < maxLines -> LogAnalytics.len (entries r) <= maxLines).
Proof.
  unfold getContainerLogs, listContainerLogs, try_catch, bind, fetchWithAuth,
    throw, ret, lift, Date_now.
  destruct (fetch_answer env w _) as [response|e]; cbn.
  2:{ eexists. eexists. split; [reflexivity|]. cbn. rewrite app_nil_r.
      failed_attempt. }
  destruct (Fetch.ok response); cbn.
  2:{ eexists. eexists. split; [reflexivity|]. cbn. rewrite app_nil_r.
      failed_attempt. }
  destruct (Fetch.json response) as [logs|e]; cbn.
  2:{ eexists. eexists. split; [reflexivity|]. cbn. rewrite app_nil_r.
      failed_attempt. }
  destruct logs as [|l logs]; cbn.
  { eexists. eexists. split; [reflexivity|]. cbn. rewrite app_nil_r.
    failed_attempt. }
  destruct (insert_entry env l (sort_entries env logs)) as [|recentLog others]; cbn.
  { eexists. eexists. split; [reflexivity|]. cbn. rewrite app_nil_r.
    failed_attempt. }
  destruct (fetch_answer env _ (href recentLog)) as [response2|e]; cbn.
  2:{ eexists. eexists. split; [reflexivity|]. cbn. rewrite !app_nil_r.
      failed_attempt. }
  destruct (Fetch.ok response2); cbn.
  2:{ eexists. eexists. split; [reflexivity|]. cbn. rewrite !app_nil_r.
      failed_attempt. }
  eexists. eexists. split; [reflexivity|]. cbn. rewrite !app_nil_r.
  repeat split; [discriminate|].
  intros Hn. unfold LogAnalytics.len. rewrite length_map.
  now apply slice_from_last_length.
Qed.

(** Listing and reading log files leave the log of structured queries
    as it is. *)
Lemma listLogFiles_queries (appName path : string) (w : World) :
  queries (snd (listLogFiles env appName path w)) = queries w.
Proof.
  unfold listLogFiles, try_catch, bind, fetchWithAuth, throw, lift.
  destruct (fetch_answer env w _) as [response|e]; cbn; [|apply app_nil_r].
  destruct (Fetch.ok response); cbn; [|apply app_nil_r].
  destruct (Fetch.json response); cbn; apply app_nil_r.
Qed.

Lemma readLogFile_queries (appName path : string) (maxBytes : Z) (w : World) :
  queries (snd (readLogFile env appName path maxBytes w)) = queries w.
Proof.
  unfold readLogFile, try_catch, bind, fetchWithAuth, throw, ret.
  destruct (fetch_answer env w _) as [response|e]; cbn; [|apply app_nil_r].
  destruct (Fetch.ok response); cbn; [|apply app_nil_r].
  destruct (_ >? maxBytes); cbn; apply app_nil_r.
Qed.

(** With at least one entry from the live stream, the result is made of
    these entries and nothing else is fetched. *)
Lemma getRecentLogs_live (appName : string) (maxLines : Z)
    (flt : option string) (w : World) (cr : KuduLogsResult) (w1 : World) :
  getContainerLogs env appName maxLines w = (Ok cr, w1) ->
  (success cr && (LogAnalytics.len (entries cr) >? 0)) = true ->
  getRecentLogs env appName maxLines flt w =
    (Ok {| success := true;
           entries := apply_filter flt content (entries cr);
           error := None |}, w1).
Proof.
  intros Hc Hgo. unfold getRecentLogs, bind. rewrite Hc, Hgo. reflexivity.
Qed.

(** The outcome of the on-disk fallback, read off the answers of the
    Kudu host. *)
Lemma getRecentLogs_on_disk (appName : string) (maxLines : Z)
    (flt : option string) (w : World) (cr : KuduLogsResult) (w1 : World) :
  getContainerLogs env appName maxLines w = (Ok cr, w1) ->
  (success cr && (LogAnalytics.len (entries cr) >? 0)) = false ->
  match listLogFiles env appName "/LogFiles/Application/" w1 with
  | (Throw _, w2) =>
      getRecentLogs env appName maxLines flt w = (Ok cr, w2)
  | (Ok [], w2) =>
      getRecentLogs env appName maxLines flt w =
        (Ok {| success := true; entries := []; error := None |}, w2)
  | (Ok ((_ :: _) as logFiles), w2) =>
      match sort_entries env logFiles with
      | [] => getRecentLogs env appName maxLines flt w = (Ok cr, w2)
      | first :: _ =>
          match readLogFile env appName (path first) 100000 w2 with
          | (Throw _, w3) =>
              getRecentLogs env appName maxLines flt w = (Ok cr, w3)
          | (Ok text, w3) =>
              getRecentLogs env appName maxLines flt w =
                (Ok {| success := true;
                       entries :=
                         map (fun line =>
                                {| timestamp := iso_of_time (now w3);
                                   content := line |})
                             (slice_from (- maxLines)
                                (apply_filter flt (fun line => line)
                                   (List.filter not_blank (split_lines text))));
                       error := None |}, w3)
          end
      end
  end.
Proof.
  intros Hc Hgo.
  remember (getRecentLogs env appName maxLines flt w) as R eqn:ER.
  unfold getRecentLogs, bind in ER. rewrite Hc, Hgo in ER.
  unfold try_catch, bind, throw, ret, Date_now in ER.
  destruct (listLogFiles env appName "/LogFiles/Application/" w1)
    as [[[|f files]|e] w2]; try exact ER.
  destruct (sort_entries env (f :: files)) as [|first others]; [exact ER|].
  destruct (readLogFile env appName (path first) 100000 w2) as [[text|e] w3];
    exact ER.
Qed.

Lemma unusable_attempt_empty (cr : KuduLogsResult) :
  (success cr = false -> entries cr = []) ->
  (success cr && (LogAnalytics.len (entries cr) >? 0)) = false ->
  entries cr = [].
Proof.
  intros Hfail Hgo. apply andb_false_iff in Hgo. destruct Hgo as [H|H]; [auto|].
  destruct (entries cr) as [|x l]; [reflexivity|].
  unfold LogAnalytics.len in H. cbn [length] in H.
  rewrite Z.gtb_ltb in H. apply Z.ltb_ge in H. lia.
Qed.

(** [getRecentLogs] never throws, sends no structured query, and returns
    at most [maxLines] entries. *)
Lemma getRecentLogs_total (appName : string) (maxLines : Z)
    (flt : option string) (w : World) :
  exists r w',
    getRecentLogs env appName maxLines flt w = (Ok r, w')
    /\ queries w' = queries w
    /\ (0 < maxLines -> LogAnalytics.len (entries r) <= maxLines).
Proof.
  destruct (getContainerLogs_total appName maxLines w)
    as [cr [w1 [Hc [Hq [Hfail Hlen]]]]].
  destruct (success cr && (LogAnalytics.len (entries cr) >? 0)) eqn:Hgo.
  - eexists. eexists. split; [apply (getRecentLogs_live _ _ _ _ _ _ Hc Hgo)|].
    split; [exact Hq|]. intros Hn. cbn [entries].
    pose proof (apply_filter_len_le flt content (entries cr)).
    specialize (Hlen Hn). lia.
  - pose proof (getRecentLogs_on_disk appName maxLines flt w cr w1 Hc Hgo) as H.
    pose proof (unusable_attempt_empty cr Hfail Hgo) as Hnil.
    pose proof (listLogFiles_queries appName "/LogFiles/Application/" w1) as Hq2.
    assert (Hcr : 0 < maxLines -> LogAnalytics.len (entries cr) <= maxLines).
    { intros Hn. rewrite Hnil. unfold LogAnalytics.len. cbn [length]. lia. }
    destruct (listLogFiles env appName "/LogFiles/Application/" w1)
      as [[[|f files]|e] w2]; cbn [snd] in Hq2.
    + eexists. eexists. split; [exact H|]. split; [congruence|].
      intros Hn. unfold LogAnalytics.len. cbn [entries length]. lia.
    + destruct (sort_entries env (f :: files)) as [|first others].
      * eexists. eexists. split; [exact H|]. split; [congruence|exact Hcr].
      * pose proof (readLogFile_queries appName (path first) 100000 w2) as Hq3.
        destruct (readLogFile env appName (path first) 100000 w2)
          as [[text|e] w3]; cbn [snd] in Hq3.
        -- eexists. eexists. split; [exact H|]. split; [congruence|].
           intros Hn. cbn [entries]. unfold LogAnalytics.len.
           rewrite length_map. now apply slice_from_last_length.
        -- eexists. eexists. split; [exact H|]. split; [congruence|exact Hcr].
    + eexists. eexists. split; [exact H|]. split; [congruence|exact Hcr].
Qed.

(** [getRecentLogs] never raises.  When the live-stream attempt yields no
    usable entry, the result is a success whose lines are those of the
    file that the sort puts first among the on-disk application logs:
    blank lines dropped, the filter applied, then the last [maxLines]
    kept.  An empty listing gives an empty success, and when listing or
    reading the on-disk log fails, the result of the live-stream attempt
    is returned as it is. *)
Lemma getRecentLogs_fallback (appName : string) (maxLines : Z)
    (flt : option string) (w : World) :
  (exists r w', getRecentLogs env appName maxLines flt w = (Ok r, w'))
  /\ forall (cr : KuduLogsResult) (w1 : World),
       getContainerLogs env appName maxLines w = (Ok cr, w1) ->
       (success cr && (LogAnalytics.len (entries cr) >? 0)) = false ->
       match listLogFiles env appName "/LogFiles/Application/" w1 with
       | (Throw _, w2) =>
           getRecentLogs env appName maxLines flt w = (Ok cr, w2)
       | (Ok [], w2) =>
           getRecentLogs env appName maxLines flt w =
             (Ok {| success := true; entries := []; error := None |}, w2)
       | (Ok ((_ :: _) as logFiles), w2) =>
           match sort_entries env logFiles with
           | [] => getRecentLogs env appName maxLines flt w = (Ok cr, w2)
           | first :: _ =>
               match readLogFile env appName (path first) 100000 w2 with
               | (Throw _, w3) =>
                   getRecentLogs env appName maxLines flt w = (Ok cr, w3)
               | (Ok text, w3) =>
                   exists r,
                     getRecentLogs env appName maxLines flt w = (Ok r, w3)
                     /\ success r = true
                     /\ error r = None
                     /\ map content (entries r) =
                          slice_from (- maxLines)
                            (apply_filter flt (fun line => line)
                               (List.filter not_blank (split_lines text)))
               end
           end
       end.
Proof.
  split.
  - destruct (getRecentLogs_total appName maxLines flt w) as [r [w' [H _]]].
    now exists r, w'.
  - intros cr w1 Hc Hgo.
    pose proof (getRecentLogs_on_disk appName maxLines flt w cr w1 Hc Hgo) as H.
    destruct (listLogFiles env appName "/LogFiles/Application/" w1)
      as [[[|f files]|e] w2]; try exact H.
    destruct (sort_entries env (f :: files)) as [|first others]; [exact H|].
    destruct (readLogFile env appName (path first) 100000 w2) as [[text|e] w3];
      [|exact H].
    eexists. split; [exact H|]. split; [reflexivity|]. split; [reflexivity|].
    cbn [entries]. rewrite map_map. cbn [content]. apply map_id.
Qed.

Lemma filter_nothing {A} (p : A -> bool) (l : list A) :
  (forall x, In x l -> p x = false) -> List.filter p l = [].
Proof.
  induction l as [|x l IH]; intros H; cbn [List.filter]; [reflexivity|].
  rewrite (H x (or_introl eq_refl)). apply IH. intros y Hy. apply H. now right.
Qed.

(** C10. When the live-stream attempt succeeds with at least one entry
    and a non-empty filter matches none of them, [getRecentLogs] returns
    success with no entry and the world is the one the live-stream
    attempt left: the on-disk fallback is not attempted, the decision is
    taken on the entries before the filter. *)
Theorem filter_does_not_trigger_fallback (appName : string) (maxLines : Z)
    (f : string) (w : World) (cr : KuduLogsResult) (w1 : World) :
  getContainerLogs env appName maxLines w = (Ok cr, w1) ->
  success cr = true ->
  entries cr <> [] ->
  f <> EmptyString ->
  (forall e, In e (entries cr) ->
             includes (toLowerCase (content e)) (toLowerCase f) = false) ->
  getRecentLogs env appName maxLines (Some f) w =
    (Ok {| success := true; entries := []; error := None |}, w1)
  /\ fetches (snd (getRecentLogs env appName maxLines (Some f) w)) =
      fetches (snd (getContainerLogs env appName maxLines w)).
Proof.
  intros Hc Hs Hne Hf Hnone.
  assert (Hgo : (success cr && (LogAnalytics.len (entries cr) >? 0)) = true).
  { rewrite Hs. cbn [andb]. rewrite Z.gtb_ltb. apply Z.ltb_lt.
    destruct (entries cr); [congruence|].
    unfold LogAnalytics.len. cbn [length]. lia. }
  assert (E : getRecentLogs env appName maxLines (Some f) w =
              (Ok {| success := true; entries := []; error := None |}, w1)).
  { rewrite (getRecentLogs_live _ _ _ _ _ _ Hc Hgo). unfold apply_filter.
    destruct f as [|c f']; [congruence|]. cbn [truthy_string].
    rewrite filter_nothing; [reflexivity|]. exact Hnone. }
  split; [exact E|]. now rewrite E, Hc.
Qed.

End KuduFacts.

(* ===================================================================== *)
(** ** The event classifier *)
(* ===================================================================== *)

Section ClassifierFacts.

Import Tools.

Lemma any_of_total (p : string -> bool) (kws : list string) :
  any_of (fun kw => Ok (p kw)) kws = Ok (existsb p kws).
Proof.
  induction kws as [|kw kws IH]; cbn [any_of existsb]; [reflexivity|].
  destruct (p kw); [reflexivity | exact IH].
Qed.

Lemma field_of_singleton (column : string) (v : jsval) :
  field (<[column := v]> ∅) column = v.
Proof. unfold field. now rewrite lookup_insert_eq. Qed.

(** What the four keyword tests decide on a row whose text is a string:
    the error tests of the platform and of the application logs ignore
    case; the startup and termination tests look for the keywords as they
    are written, in lower case. *)
Lemma keyword_tests_on_text (m : string) :
  is_error (<["Message" := VStr m]> ∅) = Ok (Spec.error_tag m)
  /\ is_app_error (<["ResultDescription" := VStr m]> ∅) = Ok (Spec.app_error_tag m)
  /\ is_startup (<["Message" := VStr m]> ∅) =
       Ok (existsb (includes m) ["start"; "probe"; "running"])
  /\ is_terminate (<["Message" := VStr m]> ∅) =
       Ok (existsb (includes m) ["terminat"; "stop"]).
Proof.
  unfold is_error, is_app_error, is_startup, is_terminate.
  rewrite !field_of_singleton.
  repeat split.
  - apply (any_of_total (includes (toLowerCase m))).
  - apply (any_of_total (includes (toLowerCase m))).
  - apply (any_of_total (includes m)).
  - apply (any_of_total (includes m)).
Qed.

End ClassifierFacts.

(* ===================================================================== *)
(** ** The correlation orchestrator *)
(* ===================================================================== *)

Section ToolsFacts.

Import Tools.

Variable env : Env.
Variable formatLogQueryResult : LogAnalytics.LogQueryResult -> string -> string.

(** Reading the session context, the deployment history and the
    workspace identifier sends no structured query. *)
Lemma requireAppContext_queries (w : World) :
  queries (snd (Context.requireAppContext env w)) = queries w.
Proof.
  unfold Context.requireAppContext, Context.getAppContext, bind, throw, ret.
  destruct (currentContext w); [reflexivity|].
  destruct (AZURE_SUBSCRIPTION_ID env), (AZURE_RESOURCE_GROUP env),
    (AZURE_APP_NAME env); try reflexivity.
  destruct (_ && _); reflexivity.
Qed.

Lemma getDeployments_queries (context : AppContext) (limit : Z) (w : World) :
  queries (snd (ArmClient.getDeployments env context limit w)) = queries w.
Proof.
  unfold ArmClient.getDeployments, ArmClient.arm_call, try_catch, bind, ret.
  destruct (listDeployments_answer env w context); cbn; apply app_nil_r.
Qed.

Lemma getWorkspaceId_queries (context : AppContext) (w : World) :
  queries (snd (getWorkspaceId env context w)) = queries w.
Proof.
  unfold getWorkspaceId, ArmClient.getDiagnosticSettings,
    ArmClient.resolveWorkspaceId, ArmClient.arm_call, bind, ret.
  destruct (usable (logAnalyticsWorkspaceId context)); [reflexivity|].
  destruct (getDiagnosticSettings_answer env w context) as [diag|e]; cbn;
    [|apply app_nil_r].
  destruct (Arm.enabled diag); cbn; [|apply app_nil_r].
  destruct (usable (Arm.logAnalyticsWorkspaceId diag)); cbn; [|apply app_nil_r].
  destruct (resolveWorkspaceId_answer env _ _ _) as [guid|e]; cbn;
    [|now rewrite !app_nil_r].
  destruct (usable guid); cbn.
  - unfold Context.updateDiagnosticInfo. cbn.
    destruct (currentContext w); cbn; now rewrite !app_nil_r.
  - now rewrite !app_nil_r.
Qed.

Lemma slice_first_length {A} (n : nat) (l : list A) :
  (length (slice_first n l) <= n)%nat.
Proof. unfold slice_first. rewrite length_firstn. lia. Qed.

(** C8. A deployment diagnosis that finds no usable workspace identifier
    sends no structured query: it asks the Kudu connector for the last
    100 lines, gets at most 100 of them, and its report is the preamble,
    the warning that Log Analytics is not configured and that the
    diagnosis is limited, the first 30 of these lines in a fenced block
    under the header of the container logs (the header alone when there
    is no line), and the summary. *)
Theorem diagnose_without_workspace (args : ToolArgs) (w : World)
    (context : AppContext) (w1 : World)
    (deployments : list Arm.Deployment) (w2 : World)
    (deployment : Arm.Deployment) (deployIso : string)
    (workspaceId : option string) (w3 : World) :
  let index := or_default (deploymentIndex args) 0 in
  let window := or_default (windowMinutes args) 10 in
  Context.requireAppContext env w = (Ok context, w1) ->
  ArmClient.getDeployments env context (index + 1) w1 = (Ok deployments, w2) ->
  index < LogAnalytics.len deployments ->
  at_index deployments index = Some deployment ->
  toISOString (deploy_time deployment) = Ok deployIso ->
  getWorkspaceId env context w2 = (Ok workspaceId, w3) ->
  usable workspaceId = None ->
  exists kuduLogs w4,
    Kudu.getRecentLogs env (appName context) 100 None w3 = (Ok kuduLogs, w4)
    /\ diagnose_deployment env args w =
         (Ok (preamble deployIso deployment
              +:+ "⚠️ Log Analytics not configured. Limited diagnosis available."
              +:+ LF +:+ LF
              +:+ "### Recent Container Logs" +:+ LF +:+ LF
              +:+ match Kudu.entries kuduLogs with
                  | [] => EmptyString
                  | _ :: _ =>
                      "```" +:+ LF
                      +:+ join_lines
                            (map Kudu.content (firstn 30 (Kudu.entries kuduLogs)))
                      +:+ LF +:+ "```" +:+ LF +:+ LF
                  end
              +:+ summary window deployIso),
          w4)
    /\ queries w4 = queries w
    /\ LogAnalytics.len (Kudu.entries kuduLogs) <= 100.
Proof.
  intros index window Hctx Hdep Hlen Hat Hiso Hws Hnone.
  destruct (getRecentLogs_total env (appName context) 100 None w3)
    as [kuduLogs [w4 [Hk [Hq Hbound]]]].
  exists kuduLogs, w4. split; [exact Hk|]. split; [|split].
  - unfold diagnose_deployment, bind. rewrite Hctx.
    fold index. fold window. rewrite Hdep.
    replace (LogAnalytics.len deployments <=? index) with false
      by (symmetry; apply Z.leb_gt; exact Hlen).
    rewrite Hat. unfold lift. rewrite Hiso, Hws, Hnone, Hk. unfold ret.
    unfold fallback_label, fallback_header, fallback_body, slice_first.
    now rewrite !append_assoc.
  - pose proof (requireAppContext_queries w) as Q1. rewrite Hctx in Q1.
    pose proof (getDeployments_queries context (index + 1) w1) as Q2.
    rewrite Hdep in Q2.
    pose proof (getWorkspaceId_queries context w2) as Q3. rewrite Hws in Q3.
    cbn [snd] in *. congruence.
  - apply Hbound. lia.
Qed.

Lemma TimeClip_in_range (t : Z) : Z.abs t <= maxTime -> TimeClip t = Some t.
Proof.
  intros H. unfold TimeClip.
  now replace (Z.abs t <=? maxTime) with true by (symmetry; apply Z.leb_le; exact H).
Qed.

End ToolsFacts.

(* ===================================================================== *)
(** ** The report of a deployment diagnosis *)
(* ===================================================================== *)

Section ReportFacts.

Import Tools.

Variable env : Env.

(** Appending lines only ever extends the report. *)
Lemma fold_lines_extends {A} (line : A -> string) (xs : list A) (result : string) :
  exists body,
    fold_left (fun acc x => acc +:+ line x) xs result = result +:+ body.
Proof.
  revert result. induction xs as [|x xs IH]; intros result; cbn [fold_left].
  - exists EmptyString. now rewrite append_empty_r.
  - destruct (IH (result +:+ line x)) as [body H].
    exists (line x +:+ body). now rewrite H, append_assoc.
Qed.

Lemma append_lines_extends {A} (line : A -> Res string) (xs : list A)
    (result r : string) :
  append_lines line xs result = Ok r -> exists body, r = result +:+ body.
Proof.
  revert result. induction xs as [|x xs IH]; intros result H; cbn [append_lines] in H.
  - injection H as <-. exists EmptyString. now rewrite append_empty_r.
  - destruct (line x) as [l|e]; [|discriminate].
    destruct (IH _ H) as [body ->]. exists (l +:+ body). now rewrite append_assoc.
Qed.

(** The platform section: what follows the header extends the report, and
    is the marker when there is no row. *)
Lemma platform_body_extends (rows : list (gmap string jsval)) (result r : string) :
  platform_body env rows result = Ok r ->
  exists body,
    r = result +:+ body /\ (rows = [] -> body = no_platform_events).
Proof.
  unfold platform_body. destruct rows as [|row rows].
  - intros H. injection H as <-. now exists no_platform_events.
  - destruct (filterR is_startup _) as [startupEvents|e]; [|discriminate].
    destruct (filterR is_error _) as [errorEvents|e]; [|discriminate].
    destruct (filterR is_terminate _) as [terminateEvents|e]; [|discriminate].
    set (r1 := match errorEvents with [] => result | _ :: _ => _ end).
    assert (H1 : exists b1, r1 = result +:+ b1).
    { unfold r1. destruct errorEvents as [|x xs].
      - exists EmptyString. now rewrite append_empty_r.
      - destruct (fold_lines_extends
                    (fun evt => "- `" +:+ template env (field evt "Message") +:+ "`" +:+ LF)
                    (slice_first 5 (x :: xs))
                    (result +:+ "⚠️ **Errors detected:**" +:+ LF)) as [b Hb].
        rewrite Hb. eexists. rewrite !append_assoc. reflexivity. }
    destruct H1 as [b1 ->].
    destruct startupEvents as [|s ss].
    + destruct terminateEvents as [|t ts]; intros H.
      * injection H as <-. exists b1. split; [reflexivity | discriminate].
      * destruct (append_lines (timed_line env) _ _) as [r2|e] eqn:E2; [|discriminate].
        injection H as <-. apply append_lines_extends in E2. destruct E2 as [b2 ->].
        eexists. split; [rewrite !append_assoc; reflexivity | discriminate].
    + destruct (append_lines (timed_line env) (slice_first 5 (s :: ss)) _)
        as [r2|e] eqn:E2; [|discriminate].
      apply append_lines_extends in E2. destruct E2 as [b2 ->].
      destruct terminateEvents as [|t ts]; intros H.
      * injection H as <-. eexists.
        split; [rewrite !append_assoc; reflexivity | discriminate].
      * destruct (append_lines (timed_line env) (slice_first 3 (t :: ts)) _)
          as [r3|e] eqn:E3; [|discriminate].
        injection H as <-. apply append_lines_extends in E3. destruct E3 as [b3 ->].
        eexists. split; [rewrite !append_assoc; reflexivity | discriminate].
Qed.

(** The application section is never empty: it is the marker of an empty
    result, the marker of a result without error, or the error lines. *)
Lemma application_body_extends (rows : list (gmap string jsval)) (result r : string) :
  application_body env rows result = Ok r ->
  exists body,
    r = result +:+ body
    /\ (rows = [] -> body = no_console_output)
    /\ body <> EmptyString.
Proof.
  unfold application_body. destruct rows as [|row rows].
  - intros H. injection H as <-. exists no_console_output.
    repeat split. discriminate.
  - destruct (filterR is_app_error _) as [[|x xs]|e]; [| |discriminate]; intros H;
      injection H as <-.
    + exists no_application_errors. repeat split; discriminate.
    + match goal with
      | |- context [fold_left ?f ?l ?a] =>
          destruct (fold_lines_extends
                      (fun log => template env (field log "ResultDescription") +:+ LF)
                      l a) as [b Hb]
      end.
      rewrite Hb. eexists. split; [rewrite !append_assoc; reflexivity|].
      split; discriminate.
Qed.

(** The HTTP section: what follows the header extends the report, and is
    the marker when there is no row. *)
Lemma http_body_extends (rows : list (gmap string jsval)) (result r : string) :
  http_body env rows result = Ok r ->
  exists body,
    r = result +:+ body /\ (rows = [] -> body = no_http_requests).
Proof.
  unfold http_body. destruct rows as [|row rows].
  - intros H. injection H as <-. now exists no_http_requests.
  - set (rs := row :: rows).
    set (r1 := match List.filter is_http_error rs with [] => result | _ :: _ => _ end).
    assert (H1 : exists b1, r1 = result +:+ b1).
    { unfold r1. destruct (List.filter is_http_error rs) as [|x xs].
      - exists EmptyString. now rewrite append_empty_r.
      - match goal with
        | |- context [fold_left ?f ?l ?a] =>
            destruct (fold_lines_extends
                        (fun req =>
                           "- " +:+ template env (field req "ScStatus") +:+ " "
                           +:+ template env (field req "CsMethod") +:+ " "
                           +:+ template env (field req "CsUriStem") +:+ " ("
                           +:+ template env (field req "TimeTaken") +:+ "ms)" +:+ LF)
                        l a) as [b Hb]
        end.
        rewrite Hb. eexists. rewrite !append_assoc. reflexivity. }
    destruct H1 as [b1 ->].
    destruct (List.filter is_http_success rs) as [|firstSuccess others]; intros H.
    + injection H as <-. exists b1. split; [reflexivity | discriminate].
    + destruct (toISOString _) as [iso|e]; [|discriminate].
      injection H as <-. eexists.
      split; [rewrite !append_assoc; reflexivity | discriminate].
Qed.

(** A deployment diagnosis that finds a usable workspace identifier sends
    its three queries in order, and a report it returns is made, in this
    order, of the preamble, the header of the platform events and what the
    analysis adds, the header of the application logs and what the analysis
    adds, the header of the first HTTP requests and what the analysis adds,
    and the summary.  A result without rows puts the marker of its section
    there, and the application section is never empty. *)
Lemma diagnose_with_workspace (args : ToolArgs) (w : World)
    (context : AppContext) (w1 : World)
    (deployments : list Arm.Deployment) (w2 : World)
    (deployment : Arm.Deployment) (deployIso endIso : string)
    (found : option string) (workspaceId : string) (w3 : World) :
  let index := or_default (deploymentIndex args) 0 in
  let window := or_default (windowMinutes args) 10 in
  Context.requireAppContext env w = (Ok context, w1) ->
  ArmClient.getDeployments env context (index + 1) w1 = (Ok deployments, w2) ->
  index < LogAnalytics.len deployments ->
  at_index deployments index = Some deployment ->
  toISOString (deploy_time deployment) = Ok deployIso ->
  getWorkspaceId env context w2 = (Ok found, w3) ->
  usable found = Some workspaceId ->
  toISOString (date_plus (deploy_time deployment) (window * 60 * 1000)) = Ok endIso ->
  exists platformLogs w4 consoleLogs w5 httpLogs w6,
    LogAnalytics.query env workspaceId (platformQuery deployIso endIso) window w3 =
      (Ok platformLogs, w4)
    /\ LogAnalytics.query env workspaceId (consoleQuery deployIso endIso) window w4 =
         (Ok consoleLogs, w5)
    /\ LogAnalytics.query env workspaceId (httpQuery deployIso endIso) window w5 =
         (Ok httpLogs, w6)
    /\ snd (diagnose_deployment env args w) = w6
    /\ forall report,
         fst (diagnose_deployment env args w) = Ok report ->
         exists platform application http,
           report =
             preamble deployIso deployment
             +:+ platform_header (LogAnalytics.len (LogAnalytics.rows platformLogs))
             +:+ platform
             +:+ application_header (LogAnalytics.len (LogAnalytics.rows consoleLogs))
             +:+ application
             +:+ http_header (LogAnalytics.len (LogAnalytics.rows httpLogs))
             +:+ http
             +:+ summary window deployIso
           /\ (LogAnalytics.rows platformLogs = [] -> platform = no_platform_events)
           /\ (LogAnalytics.rows consoleLogs = [] -> application = no_console_output)
           /\ application <> EmptyString
           /\ (LogAnalytics.rows httpLogs = [] -> http = no_http_requests).
Proof.
  intros index window Hctx Hdep Hlen Hat Hiso Hws Hfound Hend.
  destruct (query_total env workspaceId (platformQuery deployIso endIso) window w3)
    as [platformLogs [w4 Hp]].
  destruct (query_total env workspaceId (consoleQuery deployIso endIso) window w4)
    as [consoleLogs [w5 Hc]].
  destruct (query_total env workspaceId (httpQuery deployIso endIso) window w5)
    as [httpLogs [w6 Hh]].
  exists platformLogs, w4, consoleLogs, w5, httpLogs, w6.
  split; [exact Hp|]. split; [exact Hc|]. split; [exact Hh|].
  unfold diagnose_deployment, bind. rewrite Hctx.
  fold index. fold window. rewrite Hdep.
  replace (LogAnalytics.len deployments <=? index) with false
    by (symmetry; apply Z.leb_gt; exact Hlen).
  rewrite Hat. unfold lift. rewrite Hiso, Hws, Hfound, Hend, Hp, Hc, Hh.
  destruct (platform_body env _ _) as [r1|e] eqn:E1; [|split; [reflexivity|discriminate]].
  destruct (application_body env _ _) as [r2|e] eqn:E2; [|split; [reflexivity|discriminate]].
  destruct (http_body env _ _) as [r3|e] eqn:E3; [|split; [reflexivity|discriminate]].
  split; [reflexivity|]. cbn [fst ret]. intros report H. injection H as <-.
  apply platform_body_extends in E1. destruct E1 as [b1 [-> M1]].
  apply application_body_extends in E2. destruct E2 as [b2 [-> [M2 N2]]].
  apply http_body_extends in E3. destruct E3 as [b3 [-> M3]].
  exists b1, b2, b3. split; [now rewrite !append_assoc|]. auto.
Qed.

End ReportFacts.

(* ===================================================================== *)
(** ** The properties on concrete runs *)
(* ===================================================================== *)

Section Runs.

Import Examples.



(** The claim C2 as stated fails: a query that brings its own, larger
    cap is not capped by the enforcer; with 501 rows back, truncated is
    true and rowCount is not 500. *)
Lemma truncated_above_cap :
  let run := LogAnalytics.query (env_rows 501) "ws" "T | take 1000" 60
               (world_of ctx_ws) in
  LogAnalytics.truncated <$> value_of run = Some true
  /\ LogAnalytics.rowCount <$> value_of run = Some 501
  /\ 501 <> 500.
Proof. split; [|split]; [vm_compute; reflexivity | vm_compute; reflexivity | lia]. Qed.



(** A backend that is down gives a failed result, not an exception. *)
Lemma query_never_throws_witness :
  60 <= 10080
  /\ exists r w',
       LogAnalytics.query env_down "ws" "T" 60 (world_of ctx_ws) = (Ok r, w')
       /\ LogAnalytics.success r = false
       /\ LogAnalytics.rowCount r = 0
       /\ LogAnalytics.error r = Some "socket hang up".
Proof.
  split; [lia|].
  destruct (query_never_throws env_down "ws" "T" 60 (world_of ctx_ws))
    as [r [w' [E [_ H]]]].
  exists r, w'. split; [exact E|]. apply H. lia.
Defined.

(** C5, where the code departs from it: the lines of the on-disk log are
    not processed as the lines of the live stream are.  The same text is
    served once from the disk, with no live stream, and once as the live
    stream.  With maxLines = 1 and the filter "boot", the fallback filters
    first and returns the matching line, while the live stream is cut to
    its last line first and nothing is left for the filter.  With no
    filter, the fallback stamps both lines with the time of the read,
    while the live stream gives the first line the timestamp it starts
    with. *)
Theorem fallback_departs_from_live_stream :
  let w := world_of ctx_ws in
  let on_disk maxLines flt :=
    Kudu.entries <$> value_of (Kudu.getRecentLogs env_files_only "app" maxLines flt w) in
  let live maxLines flt :=
    Kudu.entries <$> value_of (Kudu.getRecentLogs env_app_log_live "app" maxLines flt w) in
  Kudu.entries <$> value_of (Kudu.getContainerLogs env_files_only "app" 1 w) = Some []
  /\ on_disk 1 (Some "boot") =
       Some [ {| Kudu.timestamp := "2024-01-16T10:30:00.120Z";
                 Kudu.content := "2024-01-14 08:00:00 boot failed" |} ]
  /\ live 1 (Some "boot") = Some []
  /\ Spec.live_stream_entries 1705401000120 1 (Some "boot") app_log_text = []
  /\ on_disk 100 None =
       Some [ {| Kudu.timestamp := "2024-01-16T10:30:00.120Z";
                 Kudu.content := "2024-01-14 08:00:00 boot failed" |};
              {| Kudu.timestamp := "2024-01-16T10:30:00.120Z";
                 Kudu.content := "listening on 8080" |} ]
  /\ live 100 None =
       Some [ {| Kudu.timestamp := "2024-01-14 08:00:00";
                 Kudu.content := "2024-01-14 08:00:00 boot failed" |};
              {| Kudu.timestamp := "2024-01-16T10:30:00.080Z";
                 Kudu.content := "listening on 8080" |} ]
  /\ Spec.live_stream_entries 1705401000120 100 None app_log_text =
       [ {| Kudu.timestamp := "2024-01-14 08:00:00";
            Kudu.content := "2024-01-14 08:00:00 boot failed" |};
         {| Kudu.timestamp := "2024-01-16T10:30:00.120Z";
            Kudu.content := "listening on 8080" |} ].
Proof. repeat split; vm_compute; reflexivity. Qed.

(** With no live stream, the lines of the application log come back. *)
Lemma getRecentLogs_fallback_witness :
  exists r,
    Kudu.getRecentLogs env_files_only "app" 100 (Some "LISTEN") (world_of ctx_ws) =
      (Ok r, snd (Kudu.getRecentLogs env_files_only "app" 100 (Some "LISTEN")
                    (world_of ctx_ws)))
    /\ Kudu.success r = true
    /\ Kudu.error r = None
    /\ map Kudu.content (Kudu.entries r) = ["listening on 8080"].
Proof.
  exact (proj2 (getRecentLogs_fallback env_files_only "app" 100 (Some "LISTEN")
                  (world_of ctx_ws))
           {| Kudu.success := true; Kudu.entries := []; Kudu.error := None |}
           (snd (Kudu.getContainerLogs env_files_only "app" 100 (world_of ctx_ws)))
           eq_refl eq_refl).
Defined.

(** C6, where the code departs from it: the startup and termination
    tests of the platform-log analysis compare case-sensitively, unlike
    the error tests next to them.  "Starting container" contains "start"
    when case is ignored and is not counted as a startup event;
    "Container Stopped" contains "stop" when case is ignored and is not
    counted as a termination; "Probe FAILED" is counted as an error. *)
Theorem startup_test_is_case_sensitive :
  Spec.startup_tag "Starting container" = true
  /\ Tools.is_startup (platform_row "Starting container") = Ok false
  /\ Spec.termination_tag "Container Stopped" = true
  /\ Tools.is_terminate (platform_row "Container Stopped") = Ok false
  /\ Spec.error_tag "Probe FAILED" = true
  /\ Tools.is_error (platform_row "Probe FAILED") = Ok true.
Proof. repeat split; vm_compute; reflexivity. Qed.

(** C7, where the code departs from it: with one platform event that
    carries no keyword and one HTTP request answered 404, the platform
    section and the HTTP section of the report are a header with nothing
    under it, neither findings nor a marker.  The application section,
    which has no row, carries its marker. *)
Theorem diagnose_sections_left_empty :
  fst (Tools.diagnose_deployment env_quiet_deploy no_args (world_of ctx_ws)) =
    Ok (Tools.preamble "2024-01-15T10:30:00.000Z" deployment_jan15
        +:+ Tools.platform_header 1
        +:+ Tools.application_header 0
        +:+ Tools.no_console_output
        +:+ Tools.http_header 1
        +:+ Tools.summary 10 "2024-01-15T10:30:00.000Z").
Proof. vm_compute. reflexivity. Qed.

(** Without a workspace identifier the report is built from the Kudu
    lines and no structured query is sent. *)
Lemma diagnose_without_workspace_witness :
  let run := Tools.diagnose_deployment env_files_only no_args (world_of ctx_plain) in
  queries (snd run) = []
  /\ value_of run =
       Some (Tools.preamble "2024-01-15T10:30:00.000Z" deployment_jan15
             +:+ "⚠️ Log Analytics not configured. Limited diagnosis available."
             +:+ LF +:+ LF
             +:+ "### Recent Container Logs" +:+ LF +:+ LF
             +:+ "```" +:+ LF
             +:+ "2024-01-14 08:00:00 boot failed" +:+ LF
             +:+ "listening on 8080" +:+ LF
             +:+ "```" +:+ LF +:+ LF
             +:+ Tools.summary 10 "2024-01-15T10:30:00.000Z").
Proof.
  destruct (diagnose_without_workspace env_files_only no_args (world_of ctx_plain)
              ctx_plain
              (snd (Context.requireAppContext env_files_only (world_of ctx_plain)))
              [deployment_jan15]
              (snd (ArmClient.getDeployments env_files_only ctx_plain 1
                      (world_of ctx_plain)))
              deployment_jan15 "2024-01-15T10:30:00.000Z" None
              (snd (Tools.getWorkspaceId env_files_only ctx_plain
                      (snd (ArmClient.getDeployments env_files_only ctx_plain 1
                              (world_of ctx_plain)))))
              eq_refl eq_refl eq_refl eq_refl eq_refl eq_refl eq_refl)
    as [kuduLogs [w4 [Hk [Hrun [Hq _]]]]].
  cbv zeta. rewrite Hrun. cbn [snd]. split; [exact Hq|].
  vm_compute in Hk. injection Hk as <- _. vm_compute. reflexivity.
Defined.

(** C9, where the code departs from it: the window is written into the
    text of the query and the request is sent over another span.  For
    2024-01-15T10:30:00Z and the default radius, asked on
    2024-01-16T10:30:00Z, the one request sent filters on TimeGenerated
    between 10:25 and 10:35 of January 15, while its own span is the 60
    minutes before the call, 09:30 to 10:30 of January 16: the window ends
    before the span starts.  For the radius 0 the window in the text is
    again [10:25, 10:35] and not [10:30, 10:30]. *)
Theorem correlate_span_misses_window :
  let run := Tools.correlate_events (env_rows 3) render (correlate_args None)
               (world_of ctx_ws) in
  let zero := Tools.correlate_events (env_rows 3) render (correlate_args (Some 0))
                (world_of ctx_ws) in
  Date_of_string (env_rows 3) "2024-01-15T10:30:00Z" = Some 1705314600000
  /\ iso_of_time (1705314600000 - 5 * 60000) = "2024-01-15T10:25:00.000Z"
  /\ iso_of_time (1705314600000 + 5 * 60000) = "2024-01-15T10:35:00.000Z"
  /\ (exists req,
        queries (snd run) = [req]
        /\ Monitor.query req =
             "union AppServiceHTTPLogs, AppServiceConsoleLogs, AppServicePlatformLogs"
             +:+ LF +:+ "| where TimeGenerated between (datetime('2024-01-15T10:25:00.000Z') .. datetime('2024-01-15T10:35:00.000Z'))"
             +:+ LF +:+ "| project TimeGenerated, Type=$table, Message=coalesce(ResultDescription, Message, strcat(CsMethod, ' ', CsUriStem, ' ', ScStatus))"
             +:+ LF +:+ "| order by TimeGenerated asc"
             +:+ LF +:+ "| limit 500"
        /\ Monitor.startTime req = Some 1705397400000
        /\ Monitor.endTime req = Some 1705401000000)
  /\ iso_of_time 1705397400000 = "2024-01-16T09:30:00.000Z"
  /\ iso_of_time 1705401000000 = "2024-01-16T10:30:00.000Z"
  /\ 1705314600000 + 5 * 60000 < 1705397400000
  /\ map Monitor.query (queries (snd zero)) = map Monitor.query (queries (snd run))
  /\ Tools.correlate_query "2024-01-15T10:30:00.000Z" "2024-01-15T10:30:00.000Z"
       +:+ LF +:+ "| limit 500"
     <> Tools.correlate_query "2024-01-15T10:25:00.000Z" "2024-01-15T10:35:00.000Z"
        +:+ LF +:+ "| limit 500".
Proof.
  cbv zeta.
  split; [vm_compute; reflexivity|]. split; [vm_compute; reflexivity|].
  split; [vm_compute; reflexivity|].
  split.
  { eexists. split; [vm_compute; reflexivity|].
    split; [vm_compute; reflexivity|]. split; vm_compute; reflexivity. }
  split; [vm_compute; reflexivity|]. split; [vm_compute; reflexivity|].
  split; [lia|]. split; [vm_compute; reflexivity|].
  vm_compute. intros H. discriminate H.
Qed.

(** A filter that matches no line of the live stream gives an empty
    success, and only the live stream is fetched. *)
Lemma filter_does_not_trigger_fallback_witness :
  Kudu.getRecentLogs env_live "app" 100 (Some "zzz") (world_of ctx_ws) =
    (Ok {| Kudu.success := true; Kudu.entries := []; Kudu.error := None |},
     snd (Kudu.getContainerLogs env_live "app" 100 (world_of ctx_ws)))
  /\ fetches (snd (Kudu.getRecentLogs env_live "app" 100 (Some "zzz")
                     (world_of ctx_ws))) = [docker_url; stream_url].
Proof.
  destruct (filter_does_not_trigger_fallback env_live "app" 100 "zzz"
              (world_of ctx_ws)
              {| Kudu.success := true;
                 Kudu.entries :=
                   [ {| Kudu.timestamp := "2024-01-15T10:29:58";
                        Kudu.content := "2024-01-15T10:29:58 Site started" |};
                     {| Kudu.timestamp := "2024-01-16T10:30:00.080Z";
                        Kudu.content := "listening on 8080" |} ];
                 Kudu.error := None |}
              (snd (Kudu.getContainerLogs env_live "app" 100 (world_of ctx_ws)))
              eq_refl eq_refl
              ltac:(discriminate) ltac:(discriminate)
              ltac:(intros e [<-|[<-|[]]]; reflexivity))
    as [Hrun Hf].
  split; [exact Hrun|]. rewrite Hf. reflexivity.
Defined.

End Runs.

(* ===================================================================== *)
(** ** Further properties: the session context *)
(* ===================================================================== *)

Section ContextFacts.

Import Notions.

Variable env : Env.

(** What [getAppContext] returns and leaves behind. *)
Lemma getAppContext_cases (w : World) :
  Context.getAppContext env w =
    match currentContext w with
    | Some c => (Ok (Some c), w)
    | None =>
        match env_target env with
        | Some c => (Ok (Some c), Context.set_currentContext (Some c) w)
        | None => (Ok None, w)
        end
    end.
Proof.
  unfold Context.getAppContext, env_target.
  destruct (currentContext w); [reflexivity|].
  destruct (AZURE_SUBSCRIPTION_ID env), (AZURE_RESOURCE_GROUP env),
    (AZURE_APP_NAME env); try reflexivity.
  destruct (_ && _); reflexivity.
Qed.

(** X1. [getAppContext] never throws and caches what it finds: a stored
    context wins over the environment; without one, a target is built
    exactly when the three environment variables are set and not empty, and
    it is stored; calling again in the world it leaves gives the same answer
    and changes nothing.  The clock and the logs of backend calls are never
    touched.  After [setAppContext] the context given is the one found,
    whatever the environment says, and after [clearAppContext] the
    environment decides again. *)
Theorem getAppContext_caches (w : World) :
  (exists found w1,
     Context.getAppContext env w = (Ok found, w1)
     /\ found = match currentContext w with
                | Some c => Some c
                | None => env_target env
                end
     /\ currentContext w1 = found
     /\ Context.getAppContext env w1 = (Ok found, w1)
     /\ now w1 = now w /\ queries w1 = queries w /\ fetches w1 = fetches w)
  /\ (forall context,
        let w1 := snd (Context.setAppContext context w) in
        Context.getAppContext env w1 = (Ok (Some context), w1))
  /\ fst (Context.getAppContext env (snd (Context.clearAppContext w))) =
       Ok (env_target env).
Proof.
  split; [|split].
  - rewrite getAppContext_cases.
    destruct (currentContext w) as [c|] eqn:Hc.
    + exists (Some c), w. rewrite getAppContext_cases, Hc.
      repeat split; assumption.
    + destruct (env_target env) as [c|] eqn:He.
      * exists (Some c), (Context.set_currentContext (Some c) w).
        rewrite getAppContext_cases. cbn. repeat split.
      * exists None, w. rewrite getAppContext_cases, Hc, He.
        repeat split; assumption.
  - intros context w1. reflexivity.
  - rewrite getAppContext_cases. cbn. now destruct (env_target env).
Qed.

(** The context [requireAppContext] returns is the stored one, and only
    the stored context can have changed. *)
Lemma requireAppContext_stored (w : World) (c : AppContext) (w1 : World) :
  Context.requireAppContext env w = (Ok c, w1) ->
  currentContext w1 = Some c
  /\ now w1 = now w /\ queries w1 = queries w /\ fetches w1 = fetches w.
Proof.
  unfold Context.requireAppContext, bind. rewrite getAppContext_cases.
  destruct (currentContext w) as [c0|] eqn:Hc.
  - intros H. injection H as <- <-. auto.
  - destruct (env_target env) as [c0|]; [|discriminate].
    intros H. injection H as <- <-. cbn. auto.
Qed.

(** X2. [requireAppContext] throws exactly when no context is stored and
    the environment does not describe one; it then throws the configuration
    error and leaves the world as it was.  Otherwise it returns the context
    that is stored afterwards. *)
Theorem requireAppContext_cases (w : World) :
  (currentContext w = None -> env_target env = None ->
   Context.requireAppContext env w =
     (Throw (Error Context.no_context_message), w))
  /\ (forall e w1,
        Context.requireAppContext env w = (Throw e, w1) ->
        currentContext w = None /\ env_target env = None)
  /\ (forall c w1,
        Context.requireAppContext env w = (Ok c, w1) ->
        currentContext w1 = Some c
        /\ (currentContext w = Some c \/
            (currentContext w = None /\ env_target env = Some c))).
Proof.
  unfold Context.requireAppContext, bind. rewrite getAppContext_cases.
  destruct (currentContext w) as [c|] eqn:Hc.
  - split; [discriminate|]. split.
    + intros e w1 H. discriminate H.
    + intros c' w1 H. injection H as <- <-. auto.
  - destruct (env_target env) as [c|] eqn:He.
    + split; [discriminate|]. split.
      * intros e w1 H. discriminate H.
      * intros c' w1 H. injection H as <- <-. cbn. auto.
    + split; [reflexivity|]. split.
      * auto.
      * intros c' w1 H. discriminate H.
Qed.

End ContextFacts.

(* ===================================================================== *)
(** ** Further properties: the cached workspace identifier *)
(* ===================================================================== *)

Section WorkspaceFacts.

Import Notions.

Variable env : Env.
Variable formatDiagnosticInfo : Arm.DiagnosticInfo -> string.

Lemma usable_some (x : option string) (s : string) :
  Tools.usable x = Some s -> x = Some s /\ s <> EmptyString.
Proof.
  unfold Tools.usable. destruct x as [t|]; [|discriminate].
  destruct t; cbn; [discriminate|]. intros H. injection H as <-.
  split; [reflexivity | discriminate].
Qed.

Lemma usable_idem (s : string) :
  s <> EmptyString -> Tools.usable (Some s) = Some s.
Proof. destruct s; [congruence | reflexivity]. Qed.

(** X4. A workspace identifier is resolved once.  When [getWorkspaceId],
    called on the stored context, returns a usable identifier, the stored
    context afterwards names the same App Service and carries this
    identifier, and calling [getWorkspaceId] on it returns the identifier
    again without any call: the world is left as it is. *)
Theorem getWorkspaceId_caches (w : World) (c : AppContext)
    (found : option string) (guid : string) (w1 : World) :
  currentContext w = Some c ->
  Tools.getWorkspaceId env c w = (Ok found, w1) ->
  Tools.usable found = Some guid ->
  exists c1,
    currentContext w1 = Some c1
    /\ same_target c c1
    /\ logAnalyticsWorkspaceId c1 = Some guid
    /\ Tools.getWorkspaceId env c1 w1 = (Ok (Some guid), w1).
Proof.
  intros Hc Hrun Hfound.
  destruct (usable_some _ _ Hfound) as [-> Hne].
  unfold Tools.getWorkspaceId in Hrun.
  destruct (Tools.usable (logAnalyticsWorkspaceId c)) as [cached|] eqn:Hcached.
  - injection Hrun as <- <-. exists c.
    destruct (usable_some _ _ Hcached) as [Hlw _].
    split; [exact Hc|]. split; [repeat split|]. split; [exact Hlw|].
    unfold Tools.getWorkspaceId. now rewrite Hcached.
  - unfold bind, ArmClient.getDiagnosticSettings, ArmClient.resolveWorkspaceId,
      ArmClient.arm_call, ret in Hrun.
    destruct (getDiagnosticSettings_answer env w c) as [diag|e]; [|discriminate].
    destruct (Arm.enabled diag); [|discriminate].
    destruct (Tools.usable (Arm.logAnalyticsWorkspaceId diag)); [|discriminate].
    destruct (resolveWorkspaceId_answer env _ _ _) as [g|e]; [|discriminate].
    destruct (Tools.usable g) as [g'|] eqn:Hg.
    + unfold Context.updateDiagnosticInfo in Hrun. cbn in Hrun. rewrite Hc in Hrun.
      injection Hrun as -> <-.
      rewrite (usable_idem guid Hne) in Hg. injection Hg as <-.
      eexists. split; [reflexivity|]. split; [repeat split|].
      split; [reflexivity|].
      unfold Tools.getWorkspaceId. cbn [logAnalyticsWorkspaceId].
      now rewrite (usable_idem guid Hne).
    + injection Hrun as -> _. rewrite (usable_idem guid Hne) in Hg. discriminate.
Qed.

(** X5. A failed resolution is not remembered: when [getWorkspaceId]
    returns no usable identifier, or throws, the stored context is the one
    it started from and no structured query and no Kudu request was sent. *)
Theorem getWorkspaceId_miss_not_cached (w : World) (c : AppContext)
    (r : Res (option string)) (w1 : World) :
  Tools.getWorkspaceId env c w = (r, w1) ->
  match r with
  | Ok found => Tools.usable found = None
  | Throw _ => True
  end ->
  currentContext w1 = currentContext w
  /\ queries w1 = queries w
  /\ fetches w1 = fetches w.
Proof.
  intros Hrun Hmiss. unfold Tools.getWorkspaceId in Hrun.
  destruct (Tools.usable (logAnalyticsWorkspaceId c)) as [cached|] eqn:Hcached.
  - injection Hrun as <- <-. auto.
  - unfold bind, ArmClient.getDiagnosticSettings, ArmClient.resolveWorkspaceId,
      ArmClient.arm_call, ret in Hrun.
    destruct (getDiagnosticSettings_answer env w c) as [diag|e].
    2:{ injection Hrun as <- <-. cbn. now rewrite !app_nil_r. }
    destruct (Arm.enabled diag).
    2:{ injection Hrun as <- <-. cbn. now rewrite !app_nil_r. }
    destruct (Tools.usable (Arm.logAnalyticsWorkspaceId diag)).
    2:{ injection Hrun as <- <-. cbn. now rewrite !app_nil_r. }
    destruct (resolveWorkspaceId_answer env _ _ _) as [g|e].
    2:{ injection Hrun as <- <-. cbn. now rewrite !app_nil_r. }
    destruct (Tools.usable g) as [g'|] eqn:Hg.
    + unfold Context.updateDiagnosticInfo in Hrun. cbn in Hrun.
      destruct (currentContext w); injection Hrun as <- <-; cbn in Hmiss; congruence.
    + injection Hrun as <- <-. cbn. now rewrite !app_nil_r.
Qed.

(** X6. [check_diagnostics] refreshes the cache.  When it completes, the
    stored context names the same App Service and its cached identifier is
    the one just resolved, or none when the diagnostic settings show no
    workspace or the resolution finds nothing: an identifier cached
    earlier does not survive.  The flag is the one of the settings. *)
Theorem check_diagnostics_refreshes (w : World) (c : AppContext) (w1 : World)
    (diag : Arm.DiagnosticInfo) (resolved : option string) :
  Context.requireAppContext env w = (Ok c, w1) ->
  getDiagnosticSettings_answer env w1 c = Ok diag ->
  match Tools.usable (Arm.logAnalyticsWorkspaceId diag) with
  | Some resourceId =>
      resolveWorkspaceId_answer env (after_call env w1 [] []) resourceId
        (subscriptionId c) = Ok resolved
  | None => resolved = None
  end ->
  exists w2 c2,
    ToolCases.check_diagnostics env formatDiagnosticInfo w =
      (Ok (formatDiagnosticInfo diag), w2)
    /\ currentContext w2 = Some c2
    /\ same_target c c2
    /\ logAnalyticsWorkspaceId c2 = Tools.usable resolved
    /\ diagnosticsEnabled c2 =
         Some (match Tools.usable (Arm.logAnalyticsWorkspaceId diag) with
               | Some _ => Arm.enabled diag
               | None => false
               end)
    /\ queries w2 = queries w /\ fetches w2 = fetches w.
Proof.
  intros Hctx Hdiag Hres.
  destruct (requireAppContext_stored env w c w1 Hctx) as [Hc [_ [Hq Hf]]].
  unfold ToolCases.check_diagnostics, bind. rewrite Hctx.
  unfold ArmClient.getDiagnosticSettings, ArmClient.arm_call. rewrite Hdiag.
  destruct (Tools.usable (Arm.logAnalyticsWorkspaceId diag)) as [rid|].
  - unfold bind, ArmClient.resolveWorkspaceId, ArmClient.arm_call. rewrite Hres.
    unfold Context.updateDiagnosticInfo. cbn. rewrite Hc.
    eexists. eexists. split; [reflexivity|]. cbn.
    rewrite !app_nil_r. repeat split; assumption.
  - subst resolved. unfold Context.updateDiagnosticInfo. cbn. rewrite Hc.
    eexists. eexists. split; [reflexivity|]. cbn.
    rewrite !app_nil_r. repeat split; assumption.
Qed.

End WorkspaceFacts.

(* ===================================================================== *)
(** ** Further properties: the metadata client *)
(* ===================================================================== *)

Section ArmFacts.

Import ArmSource.

Variable env : Env.
Variable list_answer :
  World -> string -> Res (option (list DiagnosticSettingsResource)).
Variable getToken_answer : World -> Res (option string).
Variable management_answer : World -> string -> string -> Res WorkspaceResponse.

(** The flag and the workspace go together, whatever settings are
    absorbed. *)
Lemma absorb_keeps_flag (settings : list DiagnosticSettingsResource)
    (init : Arm.DiagnosticInfo) :
  (Arm.enabled init = true <->
   Tools.usable (Arm.logAnalyticsWorkspaceId init) <> None) ->
  let info := fold_left absorb settings init in
  Arm.enabled info = true <->
  Tools.usable (Arm.logAnalyticsWorkspaceId info) <> None.
Proof.
  revert init. induction settings as [|s settings IH]; intros init Hinit.
  - exact Hinit.
  - cbn [fold_left]. apply IH. unfold absorb. cbn.
    destruct (Tools.usable (workspaceId s)) as [ws|] eqn:Hws; [|exact Hinit].
    destruct (usable_some _ _ Hws) as [_ Hne].
    rewrite (usable_idem ws Hne). split; [discriminate | reflexivity].
Qed.

(** Settings without a workspace leave the workspace found so far. *)
Lemma absorb_without_workspace (settings : list DiagnosticSettingsResource)
    (init : Arm.DiagnosticInfo) :
  Forall (fun s => Tools.usable (workspaceId s) = None) settings ->
  Arm.logAnalyticsWorkspaceId (fold_left absorb settings init) =
    Arm.logAnalyticsWorkspaceId init.
Proof.
  intros H. revert init. induction H as [|s settings Hs _ IH]; intros init.
  - reflexivity.
  - cbn [fold_left]. rewrite IH. unfold absorb. cbn. now rewrite Hs.
Qed.

(** The categories are collected in the order of the settings. *)
Lemma absorb_categories (settings : list DiagnosticSettingsResource)
    (init : Arm.DiagnosticInfo) :
  Arm.categories (fold_left absorb settings init) =
    Arm.categories init
    ++ concat (map (fun s => match logs s with
                             | Some ls => enabled_categories ls
                             | None => []
                             end) settings).
Proof.
  revert init. induction settings as [|s settings IH]; intros init.
  - cbn. now rewrite app_nil_r.
  - cbn [fold_left map concat]. rewrite IH. cbn. now rewrite <- app_assoc.
Qed.

(** X7. [getDiagnosticSettings], with its monitor client at hand, never
    throws.  A failure of the listing gives the disabled answer.  In every answer the flag is set exactly when
    a non-empty workspace is reported; the workspace reported is the one of
    the last setting that has one; and the categories are those of the
    enabled logs that carry a category, in the order of the settings. *)
Theorem getDiagnosticSettings_summary (context : AppContext) (w : World) :
  exists info w1,
    getDiagnosticSettings env list_answer context w = (Ok info, w1)
    /\ (Arm.enabled info = true <->
        Tools.usable (Arm.logAnalyticsWorkspaceId info) <> None)
    /\ (forall e, list_answer w (resourceId_of context) = Throw e ->
                  info = disabled)
    /\ (forall settings,
          list_answer w (resourceId_of context) = Ok (Some settings) ->
          (forall before s after ws,
             settings = before ++ s :: after ->
             Tools.usable (workspaceId s) = Some ws ->
             Forall (fun t => Tools.usable (workspaceId t) = None) after ->
             Arm.logAnalyticsWorkspaceId info = Some ws)
          /\ (Forall (fun t => Tools.usable (workspaceId t) = None) settings ->
              Arm.enabled info = false)
          /\ Arm.categories info =
               concat (map (fun s => match logs s with
                                     | Some ls => enabled_categories ls
                                     | None => []
                                     end) settings)).
Proof.
  assert (Hd : Arm.enabled disabled = true <->
               Tools.usable (Arm.logAnalyticsWorkspaceId disabled) <> None).
  { cbn. split; [discriminate | congruence]. }
  unfold getDiagnosticSettings, try_catch, bind, ArmClient.arm_call, ret.
  destruct (list_answer w (resourceId_of context)) as [[settings|]|e].
  - eexists. eexists. split; [reflexivity|].
    split; [now apply absorb_keeps_flag|]. split; [discriminate|].
    intros settings' H. injection H as <-. split; [|split].
    + intros before s after ws -> Hws Hafter.
      rewrite fold_left_app. cbn [fold_left].
      rewrite (absorb_without_workspace after _ Hafter).
      unfold absorb. cbn. now rewrite Hws.
    + intros Hnone.
      pose proof (absorb_keeps_flag settings disabled Hd) as Hflag. cbv zeta in Hflag.
      rewrite (absorb_without_workspace settings disabled Hnone) in Hflag.
      destruct (Arm.enabled (fold_left absorb settings disabled)); [|reflexivity].
      destruct (proj1 Hflag eq_refl). reflexivity.
    + now rewrite absorb_categories.
  - eexists. eexists. split; [reflexivity|]. split; [exact Hd|].
    split; [discriminate|]. intros settings H. discriminate H.
  - eexists. eexists. split; [reflexivity|]. split; [exact Hd|].
    split; [reflexivity|]. intros settings H. discriminate H.
Qed.

Lemma join_two (a b : string) (rest : list string) :
  exists post, Formatter.join LF (a :: b :: rest) = (a +:+ LF +:+ b) +:+ post.
Proof.
  destruct rest as [|c rest].
  - exists EmptyString. cbn [Formatter.join]. now rewrite !append_empty_r.
  - exists (LF +:+ Formatter.join LF (c :: rest)).
    cbn [Formatter.join]. now rewrite !append_assoc.
Qed.

(** What the renderer shows for an answer, by its flag. *)
Lemma formatDiagnosticInfo_cases (info : Arm.DiagnosticInfo) :
  (Arm.enabled info = true <->
   Tools.usable (Arm.logAnalyticsWorkspaceId info) <> None) ->
  (Arm.enabled info = false
   /\ Formatter.formatDiagnosticInfo info = Formatter.not_configured)
  \/ (Arm.enabled info = true
      /\ startsWith (Formatter.formatDiagnosticInfo info)
           ("✅ **Diagnostic settings enabled**" +:+ LF +:+ "- Log Analytics: Yes")
         = true).
Proof.
  intros Hflag. unfold Formatter.formatDiagnosticInfo.
  destruct (Arm.enabled info); [right | left; now split].
  split; [reflexivity|]. cbn [negb].
  destruct (Tools.usable (Arm.logAnalyticsWorkspaceId info)) as [ws|].
  2:{ destruct (proj1 Hflag eq_refl). reflexivity. }
  apply startsWith_spec.
  destruct (Tools.usable (Arm.storageAccountId info)),
    (Tools.usable (Arm.eventHubId info)),
    (LogAnalytics.len (Arm.categories info) >? 0);
    cbn [app]; apply join_two.
Qed.

(** X3. What [check_diagnostics] shows for the settings that
    [getDiagnosticSettings] reads: either the text that explains how to
    configure diagnostic settings, or a text that starts with the line of
    the enabled settings and "- Log Analytics: Yes"; the answer "No" of the
    renderer is never shown.  Settings without a workspace are shown as
    not configured even when they name a storage account or an event hub
    and enable log categories. *)
Theorem diagnostics_display (context : AppContext) (w : World) :
  exists info w1,
    getDiagnosticSettings env list_answer context w = (Ok info, w1)
    /\ ((Arm.enabled info = false
         /\ Formatter.formatDiagnosticInfo info = Formatter.not_configured)
        \/ (Arm.enabled info = true
            /\ startsWith (Formatter.formatDiagnosticInfo info)
                 ("✅ **Diagnostic settings enabled**"
                  +:+ LF +:+ "- Log Analytics: Yes") = true))
    /\ (forall settings,
          list_answer w (resourceId_of context) = Ok (Some settings) ->
          Forall (fun s => Tools.usable (workspaceId s) = None) settings ->
          Formatter.formatDiagnosticInfo info = Formatter.not_configured).
Proof.
  assert (Hd : Arm.enabled disabled = true <->
               Tools.usable (Arm.logAnalyticsWorkspaceId disabled) <> None).
  { cbn. split; [discriminate | congruence]. }
  unfold getDiagnosticSettings, try_catch, bind, ArmClient.arm_call, ret.
  destruct (list_answer w (resourceId_of context)) as [[settings|]|e].
  - eexists. eexists. split; [reflexivity|]. split.
    + apply formatDiagnosticInfo_cases. now apply absorb_keeps_flag.
    + intros settings' H Hnone. injection H as <-.
      pose proof (absorb_keeps_flag settings disabled Hd) as Hflag.
      cbv zeta in Hflag.
      rewrite (absorb_without_workspace settings disabled Hnone) in Hflag.
      unfold Formatter.formatDiagnosticInfo.
      destruct (Arm.enabled (fold_left absorb settings disabled)); [|reflexivity].
      destruct (proj1 Hflag eq_refl). reflexivity.
  - eexists. eexists. split; [reflexivity|]. split.
    + left. now split.
    + intros settings H. discriminate H.
  - eexists. eexists. split; [reflexivity|]. split.
    + left. now split.
    + intros settings H. discriminate H.
Qed.

Lemma matches_workspace_includes (s : string) :
  matches_workspace s = true -> includes s "workspaces/" = true.
Proof.
  induction s as [|c s IH].
  - cbn. discriminate.
  - cbn [matches_workspace includes]. intros H.
    apply orb_true_iff in H. destruct H as [H|H].
    + apply andb_true_iff in H. destruct H as [H _]. now rewrite H.
    + rewrite (IH H). apply orb_true_r.
Qed.

(** X8. [resolveWorkspaceId] never throws.  A resource identifier that does
    not contain "workspaces/" followed by a name is answered with null on
    the spot, without any call; and an identifier it returns is never
    empty. *)
Theorem resolveWorkspaceId_safe (workspaceResourceId subscriptionId : string)
    (w : World) :
  exists r w1,
    resolveWorkspaceId env getToken_answer management_answer
      workspaceResourceId subscriptionId w = (Ok r, w1)
    /\ (includes workspaceResourceId "workspaces/" = false -> r = None /\ w1 = w)
    /\ (matches_workspace workspaceResourceId = false -> r = None /\ w1 = w)
    /\ (forall guid, r = Some guid -> guid <> EmptyString)
    /\ queries w1 = queries w /\ fetches w1 = fetches w
    /\ currentContext w1 = currentContext w.
Proof.
  assert (Hinc : includes workspaceResourceId "workspaces/" = false ->
                 matches_workspace workspaceResourceId = false).
  { intros H. destruct (matches_workspace workspaceResourceId) eqn:E; [|reflexivity].
    apply matches_workspace_includes in E. congruence. }
  unfold resolveWorkspaceId.
  destruct (matches_workspace workspaceResourceId) eqn:Hm; cbn [negb].
  2:{ exists None, w. repeat split; intros; auto; congruence. }
  unfold bind, try_catch, ArmClient.arm_call, lift, ret.
  destruct (getToken_answer w) as [token|e]; cbn.
  2:{ eexists. eexists. split; [reflexivity|]. cbn. rewrite !app_nil_r.
      repeat split; try congruence;
      try (match goal with
           | Hx : includes _ _ = false |- _ => specialize (Hinc Hx); congruence
           end). }
  destruct (management_answer _ _ _) as [response|e]; cbn.
  2:{ eexists. eexists. split; [reflexivity|]. cbn. rewrite !app_nil_r.
      repeat split; try congruence;
      try (match goal with
           | Hx : includes _ _ = false |- _ => specialize (Hinc Hx); congruence
           end). }
  destruct (ok response); cbn.
  2:{ eexists. eexists. split; [reflexivity|]. cbn. rewrite !app_nil_r.
      repeat split; try congruence;
      try (match goal with
           | Hx : includes _ _ = false |- _ => specialize (Hinc Hx); congruence
           end). }
  destruct (customerId response) as [id|e]; cbn.
  2:{ eexists. eexists. split; [reflexivity|]. cbn. rewrite !app_nil_r.
      repeat split; try congruence;
      try (match goal with
           | Hx : includes _ _ = false |- _ => specialize (Hinc Hx); congruence
           end). }
  eexists. eexists. split; [reflexivity|]. cbn. rewrite !app_nil_r.
  repeat split; try congruence;
      try (match goal with
           | Hx : includes _ _ = false |- _ => specialize (Hinc Hx); congruence
           end).
  intros guid Hg. apply usable_some in Hg. tauto.
Qed.

Lemma collect_firstn (limit count : Z) (l : list Arm.Deployment) :
  ArmClient.collect limit count l =
    firstn (Z.to_nat (Z.max 1 (limit - count))) l.
Proof.
  revert count. induction l as [|d rest IH]; intros count.
  - now rewrite firstn_nil.
  - cbn [ArmClient.collect].
    destruct (count + 1 >=? limit) eqn:E.
    + rewrite Z.geb_leb in E. apply Z.leb_le in E.
      replace (Z.max 1 (limit - count)) with 1 by lia. reflexivity.
    + rewrite Z.geb_leb in E. apply Z.leb_gt in E.
      rewrite IH.
      replace (Z.to_nat (Z.max 1 (limit - count)))
        with (S (Z.to_nat (Z.max 1 (limit - (count + 1))))) by lia.
      reflexivity.
Qed.

(** X9. [getDeployments], with its management client at hand, never throws
    and sends no query: it returns the first [limit] deployments of the
    history, one deployment when [limit] is zero or negative and the
    history is not empty, and the empty list when the history cannot be
    read. *)
Theorem getDeployments_prefix (context : AppContext) (limit : Z) (w : World) :
  exists deployments w1,
    ArmClient.getDeployments env context limit w = (Ok deployments, w1)
    /\ deployments =
         match listDeployments_answer env w context with
         | Ok history => firstn (Z.to_nat (Z.max 1 limit)) history
         | Throw _ => []
         end
    /\ LogAnalytics.len deployments <= Z.max 1 limit
    /\ queries w1 = queries w /\ fetches w1 = fetches w.
Proof.
  unfold ArmClient.getDeployments, try_catch, bind, ArmClient.arm_call, ret.
  destruct (listDeployments_answer env w context) as [history|e].
  - eexists. eexists. split; [reflexivity|]. rewrite collect_firstn.
    replace (limit - 0) with limit by lia. split; [reflexivity|].
    unfold LogAnalytics.len. rewrite length_firstn. cbn. rewrite !app_nil_r.
    repeat split. lia.
  - eexists. eexists. split; [reflexivity|]. split; [reflexivity|].
    unfold LogAnalytics.len. cbn. rewrite !app_nil_r. repeat split. lia.
Qed.

End ArmFacts.

(* ===================================================================== *)
(** ** Further properties: texts without a pipe *)
(* ===================================================================== *)

Section TextFacts.

Import Notions.

Lemma avoids_append (c : ascii) (a b : string) :
  avoids c (a +:+ b) = avoids c a && avoids c b.
Proof.
  induction a as [|x a IH]; simpl; [reflexivity|].
  now rewrite IH, andb_assoc.
Qed.

Lemma lower_ascii_pipe (x : ascii) :
  Ascii.eqb (lower_ascii x) "|" = Ascii.eqb x "|".
Proof. destruct x as [[] [] [] [] [] [] [] []]; reflexivity. Qed.

Lemma avoids_lower (s : string) :
  avoids "|" (toLowerCase s) = avoids "|" s.
Proof.
  induction s as [|x s IH]; simpl; [reflexivity|].
  now rewrite lower_ascii_pipe, IH.
Qed.

Lemma avoids_uint (d : Decimal.uint) :
  avoids "|" (NilEmpty.string_of_uint d) = true.
Proof. induction d; simpl; auto. Qed.

(** A number in decimal has no pipe. *)
Lemma avoids_num (z : Z) : avoids "|" (num_to_string z) = true.
Proof.
  unfold num_to_string, NilZero.string_of_int, NilZero.string_of_uint.
  destruct (Z.to_int z) as [d|d]; destruct d; simpl; try reflexivity;
    apply avoids_uint.
Qed.

Lemma avoids_zeros (n : nat) (s : string) :
  avoids "|" s = true -> avoids "|" (zeros n s) = true.
Proof. intros H. induction n as [|n IH]; simpl; auto. Qed.

Lemma avoids_pad (width : nat) (z : Z) : avoids "|" (pad width z) = true.
Proof. unfold pad. apply avoids_zeros, avoids_num. Qed.

(** An ISO date has no pipe. *)
Lemma avoids_iso (t : Z) : avoids "|" (iso_of_time t) = true.
Proof.
  unfold iso_of_time. destruct (civil_from_days (t / msPerDay)) as [[y m] d].
  rewrite !avoids_append, !avoids_pad.
  replace (avoids "|" (iso_year y)) with true; [reflexivity|].
  unfold iso_year. destruct (_ && _); [now rewrite avoids_pad|].
  destruct (y <? 0); rewrite avoids_append, avoids_pad; reflexivity.
Qed.

Lemma startsWith_append_false (s needle rest : string) :
  startsWith s needle = false ->
  startsWith needle s = false ->
  startsWith (s +:+ rest) needle = false.
Proof.
  revert s. induction needle as [|a needle IH]; intros s H1 H2.
  - discriminate H1.
  - destruct s as [|b s]; [discriminate H2|].
    simpl in *. destruct (Ascii.eqb a b) eqn:E.
    + rewrite Ascii.eqb_sym in E. rewrite E in *. simpl in *. now apply IH.
    + reflexivity.
Qed.

(** A text in which no occurrence can start does not matter to the
    search. *)
Lemma includes_clear (lit rest needle : string) :
  clear_of lit needle = true ->
  includes (lit +:+ rest) needle = includes rest needle.
Proof.
  induction lit as [|c lit IH]; intros H; [reflexivity|].
  cbn [clear_of] in H. apply andb_true_iff in H. destruct H as [H H3].
  apply andb_true_iff in H. destruct H as [H1 H2].
  apply negb_true_iff in H1, H2.
  change (String c lit +:+ rest) with (String c (lit +:+ rest)).
  cbn [includes].
  change (String c (lit +:+ rest)) with (String c lit +:+ rest).
  rewrite (startsWith_append_false _ _ rest H1 H2). cbn [orb]. now apply IH.
Qed.

(** A text without the first character of the needle does not matter to
    the search either. *)
Lemma includes_avoid (c : ascii) (x rest needle : string) :
  avoids c x = true ->
  includes (x +:+ rest) (String c needle) = includes rest (String c needle).
Proof.
  induction x as [|y x IH]; intros H; [reflexivity|].
  cbn [avoids] in H. apply andb_true_iff in H. destruct H as [Hy Hx].
  change (String y x +:+ rest) with (String y (x +:+ rest)).
  cbn [includes startsWith]. rewrite Ascii.eqb_sym.
  apply negb_true_iff in Hy. rewrite Hy. cbn [andb orb]. now apply IH.
Qed.

Lemma includes_append_l (s t needle : string) :
  includes s needle = true -> includes (s +:+ t) needle = true.
Proof.
  rewrite !includes_spec. intros [pre [post ->]].
  exists pre, (post +:+ t). now rewrite !append_assoc.
Qed.

End TextFacts.

(** The search for a needle that starts with a pipe, in the lower-cased
    text of a query made of literal pieces and of pieces without a pipe. *)
Ltac search_pipe :=
  rewrite ?append_assoc, ?toLowerCase_append;
  repeat first
    [ rewrite includes_avoid by (rewrite avoids_lower; assumption)
    | rewrite includes_clear by reflexivity ];
  reflexivity.

(* ===================================================================== *)
(** ** Further properties: the prebuilt query shapes *)
(* ===================================================================== *)

Section PrebuiltFacts.

Import Notions PrebuiltQueries.

Variable env : Env.

(** A query whose lower-cased text holds neither "| limit" nor "| take"
    gets the cap. *)
Lemma addRowLimit_appends (q : string) :
  includes (toLowerCase q) "| limit" = false ->
  includes (toLowerCase q) "| take" = false ->
  LogAnalytics.addRowLimit q 500 = q +:+ LF +:+ "| limit 500".
Proof. intros H1 H2. now rewrite addRowLimit_unfold, H1, H2. Qed.

Lemma addRowLimit_keeps (q : string) :
  includes (toLowerCase q) "| limit" = true
  \/ includes (toLowerCase q) "| take" = true ->
  LogAnalytics.addRowLimit q 500 = q.
Proof.
  intros [H|H]; rewrite addRowLimit_unfold, H; [reflexivity|].
  now rewrite orb_true_r.
Qed.

Lemma httpErrors_capped (m : Z) :
  LogAnalytics.addRowLimit (httpErrorsText m) 500 =
    httpErrorsText m +:+ LF +:+ "| limit 500".
Proof.
  pose proof (avoids_num m) as H. unfold httpErrorsText, since.
  revert H. generalize (num_to_string m). intros n H.
  apply addRowLimit_appends; search_pipe.
Qed.

Lemma platformLogs_capped (m : Z) :
  LogAnalytics.addRowLimit (platformLogsText m) 500 =
    platformLogsText m +:+ LF +:+ "| limit 500".
Proof.
  pose proof (avoids_num m) as H. unfold platformLogsText, since.
  revert H. generalize (num_to_string m). intros n H.
  apply addRowLimit_appends; search_pipe.
Qed.

Lemma slowRequests_capped (m th : Z) :
  LogAnalytics.addRowLimit (slowRequestsText m th) 500 =
    slowRequestsText m th +:+ LF +:+ "| limit 500".
Proof.
  pose proof (avoids_num m) as H. pose proof (avoids_num th) as H'.
  unfold slowRequestsText, since.
  revert H H'. generalize (num_to_string m) (num_to_string th). intros n n' H H'.
  apply addRowLimit_appends; search_pipe.
Qed.

Lemma errorSummary_capped (m : Z) :
  LogAnalytics.addRowLimit (errorSummaryText m) 500 =
    errorSummaryText m +:+ LF +:+ "| limit 500".
Proof.
  pose proof (avoids_num m) as H. unfold errorSummaryText, since.
  revert H. generalize (num_to_string m). intros n H.
  apply addRowLimit_appends; search_pipe.
Qed.


End PrebuiltFacts.

(* ===================================================================== *)
(** ** Further properties: the filters of the prebuilt queries *)
(* ===================================================================== *)

Section FilterFacts.

Import Notions PrebuiltQueries.

Variable env : Env.

Lemma includes_addRowLimit (q needle : string) :
  includes q needle = true ->
  includes (LogAnalytics.addRowLimit q 500) needle = true.
Proof.
  intros H. rewrite addRowLimit_unfold. destruct (_ || _); [exact H|].
  now apply includes_append_l.
Qed.

(** X11. The free-text filter of [queryAppLogs].  An absent or empty filter
    adds no clause.  A filter is copied into the query between double
    quotes as it is; when it has no pipe character the query sent ends with
    the row cap, and when it contains "| take" or "| limit", in any case,
    the query is sent without the cap. *)
Theorem appLogs_filter_and_cap (workspaceId : string) (m : Z)
    (f : option string) (w : World) :
  m <= 10080 ->
  exists r w1 req,
    queryAppLogs env workspaceId m f w = (Ok r, w1)
    /\ queries w1 = queries w ++ [req]
    /\ startsWith (Monitor.query req) (appLogsText m f) = true
    /\ (given_text f = None ->
        Monitor.query req = appLogsText m None +:+ LF +:+ "| limit 500")
    /\ (forall s, given_text f = Some s ->
          includes (Monitor.query req)
            ("| where ResultDescription contains " +:+ DQ +:+ s +:+ DQ) = true
          /\ (avoids "|" s = true ->
              Monitor.query req = appLogsText m f +:+ LF +:+ "| limit 500")
          /\ (includes (toLowerCase s) "| take" = true
              \/ includes (toLowerCase s) "| limit" = true ->
              Monitor.query req = appLogsText m f)).
Proof.
  intros Hm. unfold queryAppLogs.
  eexists. eexists. eexists. split; [apply query_dispatched, Hm|].
  split; [reflexivity|]. cbn [Monitor.query Spec.request_of].
  split; [apply addRowLimit_prefix|].
  pose proof (avoids_num m) as Hn. unfold appLogsText, since.
  revert Hn. generalize (num_to_string m). intros n Hn.
  destruct (given_text f) as [s|]; split; try discriminate.
  - intros s' H. injection H as <-. split; [|split].
    + apply includes_addRowLimit, includes_spec.
      exists ("AppServiceConsoleLogs" +:+ LF
              +:+ "| where TimeGenerated > ago(" +:+ n +:+ "m)" +:+ LF),
        (LF +:+ "| project TimeGenerated, Level, ResultDescription, Host"
         +:+ LF +:+ "| order by TimeGenerated desc").
      rewrite !append_assoc. reflexivity.
    + intros Hs. apply addRowLimit_appends; search_pipe.
    + intros Hs. apply addRowLimit_keeps.
      pose (pre := "AppServiceConsoleLogs" +:+ LF
                   +:+ "| where TimeGenerated > ago(" +:+ n +:+ "m)" +:+ LF
                   +:+ "| where ResultDescription contains " +:+ DQ).
      pose (post := DQ +:+ LF
                    +:+ "| project TimeGenerated, Level, ResultDescription, Host"
                    +:+ LF +:+ "| order by TimeGenerated desc").
      match goal with
      | |- includes (toLowerCase ?text) _ = true \/ _ =>
          replace text with (pre +:+ s +:+ post)
            by (unfold pre, post; rewrite !append_assoc; reflexivity)
      end.
      rewrite (toLowerCase_append pre), (toLowerCase_append s).
      destruct Hs as [Hs|Hs]; [right | left];
        apply includes_append_r, includes_append_l, Hs.
  - intros _. cbn [given_text]. apply addRowLimit_appends; search_pipe.
Qed.
(** X12. The filter of [queryHttpLogs].  The clauses for the status code,
    the path and the minimal duration come in this order, a status code or
    a duration of zero and an empty path add nothing, and unless the path
    has a pipe character the query sent ends with the row cap, whatever the
    numbers. *)
Theorem httpLogs_filter_and_cap (workspaceId : string) (m : Z)
    (filter : option HttpFilter) (w : World) :
  m <= 10080 ->
  let status :=
    match given_number (filter ≫= statusCode) with
    | Some code => LF +:+ "| where ScStatus == " +:+ num_to_string code
    | None => EmptyString
    end in
  let stem :=
    match given_text (filter ≫= path) with
    | Some p => LF +:+ "| where CsUriStem contains " +:+ DQ +:+ p +:+ DQ
    | None => EmptyString
    end in
  let duration :=
    match given_number (filter ≫= minDurationMs) with
    | Some ms => LF +:+ "| where TimeTaken >= " +:+ num_to_string ms
    | None => EmptyString
    end in
  let text :=
    "AppServiceHTTPLogs" +:+ LF +:+ "| where TimeGenerated > ago("
    +:+ num_to_string m +:+ "m)" +:+ status +:+ stem +:+ duration +:+ LF
    +:+ "| project TimeGenerated, CsMethod, CsUriStem, ScStatus, TimeTaken, CsHost, UserAgent"
    +:+ LF +:+ "| order by TimeGenerated desc" in
  exists r w1 req,
    queryHttpLogs env workspaceId m filter w = (Ok r, w1)
    /\ queries w1 = queries w ++ [req]
    /\ startsWith (Monitor.query req) text = true
    /\ (match given_text (filter ≫= path) with
        | Some p => avoids "|" p = true
        | None => True
        end ->
        Monitor.query req = text +:+ LF +:+ "| limit 500").
Proof.
  intros Hm status stem duration text. unfold queryHttpLogs.
  assert (Htext : httpLogsText m filter = text).
  { unfold httpLogsText, text, status, stem, duration, since.
    destruct (given_number (filter ≫= statusCode)),
      (given_text (filter ≫= path)),
      (given_number (filter ≫= minDurationMs));
      rewrite ?append_assoc; reflexivity. }
  rewrite Htext.
  eexists. eexists. eexists. split; [apply query_dispatched, Hm|].
  split; [reflexivity|]. cbn [Monitor.query Spec.request_of].
  split; [apply addRowLimit_prefix|].
  unfold text, status, stem, duration.
  pose proof (avoids_num m) as Hn. revert Hn. generalize (num_to_string m).
  intros n Hn.
  destruct (given_number (filter ≫= statusCode)) as [code|];
    [pose proof (avoids_num code) as Hcode; revert Hcode;
     generalize (num_to_string code); intros c Hcode|];
  (destruct (given_number (filter ≫= minDurationMs)) as [ms|];
    [pose proof (avoids_num ms) as Hms; revert Hms;
     generalize (num_to_string ms); intros d Hms|]);
  (destruct (given_text (filter ≫= path)) as [p|]; intros Hp;
   apply addRowLimit_appends; search_pipe).
Qed.

End FilterFacts.

(* ===================================================================== *)
(** ** Further properties: diagnosis and correlation *)
(* ===================================================================== *)

Section DiagnosisFacts.

Import Notions Tools.

Variable env : Env.
Variable formatLogQueryResult : LogAnalytics.LogQueryResult -> string -> string.

(** An ISO text has no pipe. *)
Lemma toISOString_avoids (d : JsDate) (iso : string) :
  toISOString d = Ok iso -> avoids "|" iso = true.
Proof.
  destruct d as [t|]; cbn; [|discriminate].
  intros H. injection H as <-. apply avoids_iso.
Qed.

Lemma platformQuery_capped (startIso endIso : string) :
  avoids "|" startIso = true -> avoids "|" endIso = true ->
  LogAnalytics.addRowLimit (platformQuery startIso endIso) 500 =
    platformQuery startIso endIso +:+ LF +:+ "| limit 500".
Proof.
  intros Hs He. unfold platformQuery, window_clause.
  apply addRowLimit_appends; search_pipe.
Qed.

Lemma consoleQuery_capped (startIso endIso : string) :
  avoids "|" startIso = true -> avoids "|" endIso = true ->
  LogAnalytics.addRowLimit (consoleQuery startIso endIso) 500 =
    consoleQuery startIso endIso +:+ LF +:+ "| limit 500".
Proof.
  intros Hs He. unfold consoleQuery, window_clause.
  apply addRowLimit_appends; search_pipe.
Qed.

Lemma httpQuery_kept (startIso endIso : string) :
  LogAnalytics.addRowLimit (httpQuery startIso endIso) 500 =
    httpQuery startIso endIso.
Proof.
  apply addRowLimit_keeps. right. apply lower_includes_spec.
  exists ("AppServiceHTTPLogs"
          +:+ LF +:+ window_clause startIso endIso
          +:+ LF +:+ "| project TimeGenerated, CsMethod, CsUriStem, ScStatus, TimeTaken"
          +:+ LF +:+ "| order by TimeGenerated asc" +:+ LF),
    "| take", " 20".
  split; [|reflexivity]. unfold httpQuery. rewrite !append_assoc. reflexivity.
Qed.

Lemma correlate_query_capped (startIso endIso : string) :
  avoids "|" startIso = true -> avoids "|" endIso = true ->
  LogAnalytics.addRowLimit (correlate_query startIso endIso) 500 =
    correlate_query startIso endIso +:+ LF +:+ "| limit 500".
Proof.
  intros Hs He. unfold correlate_query.
  apply addRowLimit_appends; search_pipe.
Qed.

(** The world in which a query that is dispatched leaves the program. *)
Lemma query_dispatched_world (workspaceId kqlQuery : string) (m : Z) (w : World)
    (r : LogAnalytics.LogQueryResult) (w1 : World) :
  m <= 10080 ->
  LogAnalytics.query env workspaceId kqlQuery m w = (Ok r, w1) ->
  w1 = after_call env w [Spec.request_of w workspaceId kqlQuery m] [].
Proof.
  intros Hm H. rewrite (query_dispatched env workspaceId kqlQuery m w Hm) in H.
  now injection H.
Qed.

(** X13. The index of [diagnose_deployment], once the context is there.  A
    negative index passes the bounds check and the handler throws a
    TypeError on the deployment that is not there.  An index at or beyond
    the end of the history is answered with the error text, which gives the
    length of the history (zero when it cannot be read).  In both cases no
    structured query and no Kudu request is sent. *)
Theorem diagnose_index_out_of_range (args : ToolArgs) (w : World)
    (context : AppContext) (w1 : World) :
  let index := or_default (deploymentIndex args) 0 in
  let history :=
    match listDeployments_answer env w1 context with
    | Ok h => h
    | Throw _ => []
    end in
  Context.requireAppContext env w = (Ok context, w1) ->
  (index < 0 ->
   exists w2,
     diagnose_deployment env args w =
       (Throw (TypeError "Cannot read properties of undefined (reading 'startTime')"),
        w2)
     /\ queries w2 = queries w /\ fetches w2 = fetches w)
  /\ (LogAnalytics.len history <= index ->
      exists w2,
        diagnose_deployment env args w =
          (Ok ("Error: No deployment found at index " +:+ num_to_string index
               +:+ ". Only " +:+ num_to_string (LogAnalytics.len history)
               +:+ " deployments available."), w2)
        /\ queries w2 = queries w /\ fetches w2 = fetches w).
Proof.
  intros index history Hctx.
  destruct (requireAppContext_stored env w context w1 Hctx) as [_ [_ [Hq Hf]]].
  unfold diagnose_deployment, bind. rewrite Hctx. fold index.
  unfold ArmClient.getDeployments, try_catch, bind, ArmClient.arm_call, ret.
  unfold history.
  destruct (listDeployments_answer env w1 context) as [h|e]; split.
  - intros Hneg. rewrite collect_firstn.
    replace (LogAnalytics.len _ <=? index) with false.
    2:{ symmetry. apply Z.leb_gt. unfold LogAnalytics.len. lia. }
    unfold at_index.
    replace (index <? 0) with true by (symmetry; apply Z.ltb_lt; exact Hneg).
    eexists. split; [reflexivity|]. cbn. rewrite !app_nil_r. now split.
  - intros Hlen. rewrite collect_firstn.
    assert (E : firstn (Z.to_nat (Z.max 1 (index + 1 - 0))) h = h).
    { apply firstn_all2. unfold LogAnalytics.len in Hlen. lia. }
    rewrite E.
    replace (LogAnalytics.len h <=? index) with true
      by (symmetry; apply Z.leb_le; exact Hlen).
    eexists. split; [reflexivity|]. cbn. rewrite !app_nil_r. now split.
  - intros Hneg.
    replace (LogAnalytics.len _ <=? index) with false.
    2:{ symmetry. apply Z.leb_gt. unfold LogAnalytics.len. cbn [length]. lia. }
    unfold at_index.
    replace (index <? 0) with true by (symmetry; apply Z.ltb_lt; exact Hneg).
    eexists. split; [reflexivity|]. cbn. rewrite !app_nil_r. now split.
  - intros Hlen.
    replace (LogAnalytics.len (@nil Arm.Deployment) <=? index) with true
      by (symmetry; apply Z.leb_le; exact Hlen).
    eexists. split; [reflexivity|]. cbn. rewrite !app_nil_r. now split.
Qed.

(** X14. A diagnosis window above 10080 minutes, with a workspace: the
    three queries are rejected by the guardrail, none is sent, and the
    report does not say so: it shows the three sections with zero rows and
    their markers, as if the window had been searched and was empty. *)
Theorem diagnose_window_beyond_ceiling (args : ToolArgs) (w : World)
    (context : AppContext) (w1 : World)
    (deployments : list Arm.Deployment) (w2 : World)
    (deployment : Arm.Deployment) (deployIso endIso : string)
    (found : option string) (workspaceId : string) (w3 : World) :
  let index := or_default (deploymentIndex args) 0 in
  let window := or_default (windowMinutes args) 10 in
  Context.requireAppContext env w = (Ok context, w1) ->
  ArmClient.getDeployments env context (index + 1) w1 = (Ok deployments, w2) ->
  index < LogAnalytics.len deployments ->
  at_index deployments index = Some deployment ->
  toISOString (deploy_time deployment) = Ok deployIso ->
  getWorkspaceId env context w2 = (Ok found, w3) ->
  usable found = Some workspaceId ->
  toISOString (date_plus (deploy_time deployment) (window * 60 * 1000)) = Ok endIso ->
  window > 10080 ->
  diagnose_deployment env args w =
    (Ok (preamble deployIso deployment
         +:+ platform_header 0 +:+ no_platform_events
         +:+ application_header 0 +:+ no_console_output
         +:+ http_header 0 +:+ no_http_requests
         +:+ summary window deployIso), w3)
  /\ queries w3 = queries w.
Proof.
  intros index window Hctx Hdep Hlen Hat Hiso Hws Hfound Hend Hwin.
  split.
  - unfold diagnose_deployment, bind. rewrite Hctx.
    fold index. fold window. rewrite Hdep.
    replace (LogAnalytics.len deployments <=? index) with false
      by (symmetry; apply Z.leb_gt; exact Hlen).
    rewrite Hat. unfold lift. rewrite Hiso, Hws, Hfound, Hend.
    rewrite !(query_rejected env) by exact Hwin.
    cbn [LogAnalytics.rows platform_body application_body http_body].
    unfold LogAnalytics.len. cbn [length Z.of_nat]. unfold ret.
    rewrite !append_assoc. reflexivity.
  - pose proof (requireAppContext_queries env w) as Q1. rewrite Hctx in Q1.
    pose proof (getDeployments_queries env context (index + 1) w1) as Q2.
    rewrite Hdep in Q2.
    pose proof (getWorkspaceId_queries env context w2) as Q3. rewrite Hws in Q3.
    cbn [snd] in *. congruence.
Qed.

(** X15. The requests of a diagnosis, with a workspace and a window of at
    most 10080 minutes: exactly three are sent, to this workspace, for the
    platform, console and HTTP tables in this order.  The first two texts
    end with the row cap; the HTTP text is sent as it is, with its own
    "| take 20".  The time span of each request is the [window] minutes
    before the moment it is sent, the first one at the time the workspace
    was resolved: the span does not depend on the deployment time that
    the texts filter on. *)
Theorem diagnose_requests (args : ToolArgs) (w : World)
    (context : AppContext) (w1 : World)
    (deployments : list Arm.Deployment) (w2 : World)
    (deployment : Arm.Deployment) (deployIso endIso : string)
    (found : option string) (workspaceId : string) (w3 : World) :
  let index := or_default (deploymentIndex args) 0 in
  let window := or_default (windowMinutes args) 10 in
  Context.requireAppContext env w = (Ok context, w1) ->
  ArmClient.getDeployments env context (index + 1) w1 = (Ok deployments, w2) ->
  index < LogAnalytics.len deployments ->
  at_index deployments index = Some deployment ->
  toISOString (deploy_time deployment) = Ok deployIso ->
  getWorkspaceId env context w2 = (Ok found, w3) ->
  usable found = Some workspaceId ->
  toISOString (date_plus (deploy_time deployment) (window * 60 * 1000)) = Ok endIso ->
  window <= 10080 ->
  exists p c h,
    queries (snd (diagnose_deployment env args w)) = queries w ++ [p; c; h]
    /\ Monitor.query p = platformQuery deployIso endIso +:+ LF +:+ "| limit 500"
    /\ Monitor.query c = consoleQuery deployIso endIso +:+ LF +:+ "| limit 500"
    /\ Monitor.query h = httpQuery deployIso endIso
    /\ Forall (fun r => Monitor.workspaceId r = workspaceId) [p; c; h]
    /\ Forall (fun r => exists t, Monitor.endTime r = Some t
                         /\ Monitor.startTime r = TimeClip (t - window * 60 * 1000))
         [p; c; h]
    /\ Monitor.endTime p = Some (now w3).
Proof.
  intros index window Hctx Hdep Hlen Hat Hiso Hws Hfound Hend Hwin.
  destruct (diagnose_with_workspace env args w context w1 deployments w2
              deployment deployIso endIso found workspaceId w3
              Hctx Hdep Hlen Hat Hiso Hws Hfound Hend)
    as [pl [w4 [cl [w5 [hl [w6 [Hp [Hc [Hh [Hsnd _]]]]]]]]]].
  fold window in Hp, Hc, Hh.
  apply (query_dispatched_world _ _ _ _ _ _ Hwin) in Hp.
  apply (query_dispatched_world _ _ _ _ _ _ Hwin) in Hc.
  apply (query_dispatched_world _ _ _ _ _ _ Hwin) in Hh.
  assert (Q : queries w3 = queries w).
  { pose proof (requireAppContext_queries env w) as Q1. rewrite Hctx in Q1.
    pose proof (getDeployments_queries env context (index + 1) w1) as Q2.
    rewrite Hdep in Q2.
    pose proof (getWorkspaceId_queries env context w2) as Q3. rewrite Hws in Q3.
    cbn [snd] in *. congruence. }
  pose proof (toISOString_avoids _ _ Hiso) as Ha.
  pose proof (toISOString_avoids _ _ Hend) as Hb.
  exists (Spec.request_of w3 workspaceId (platformQuery deployIso endIso) window),
    (Spec.request_of w4 workspaceId (consoleQuery deployIso endIso) window),
    (Spec.request_of w5 workspaceId (httpQuery deployIso endIso) window).
  split.
  { rewrite Hsnd, Hh. cbn [queries after_call]. rewrite Hc.
    cbn [queries after_call]. rewrite Hp. cbn [queries after_call].
    rewrite Q, <- !app_assoc. reflexivity. }
  cbn [Monitor.query Spec.request_of].
  split; [now apply platformQuery_capped|].
  split; [now apply consoleQuery_capped|].
  split; [apply httpQuery_kept|].
  split; [repeat constructor|]. split; [|reflexivity].
  repeat constructor; eexists; split; reflexivity.
Qed.

(** X16. [correlate_events] without a usable timestamp.  With the context
    and a workspace at hand, a timestamp that is absent or that does not
    parse as a date makes the handler throw the RangeError of
    [toISOString]; nothing is sent. *)
Theorem correlate_invalid_timestamp (args : ToolArgs) (w : World)
    (context : AppContext) (w1 : World)
    (found : option string) (workspaceId : string) (w2 : World) :
  Context.requireAppContext env w = (Ok context, w1) ->
  getWorkspaceId env context w1 = (Ok found, w2) ->
  usable found = Some workspaceId ->
  match timestamp args with
  | Some s => Date_of_string env s = None
  | None => True
  end ->
  correlate_events env formatLogQueryResult args w =
    (Throw (RangeError "Invalid time value"), w2)
  /\ queries w2 = queries w.
Proof.
  intros Hctx Hws Hfound Hts. split.
  - unfold correlate_events, bind. rewrite Hctx, Hws, Hfound.
    destruct (timestamp args) as [s|]; [rewrite Hts|]; reflexivity.
  - pose proof (requireAppContext_queries env w) as Q1. rewrite Hctx in Q1.
    pose proof (getWorkspaceId_queries env context w1) as Q2. rewrite Hws in Q2.
    cbn [snd] in *. congruence.
Qed.

(** X17. The request of [correlate_events], for a timestamp whose window
    is made of valid dates: the text is sent with the row cap appended, and
    the time span of the request is the 60 minutes before the moment it is
    sent, whatever the timestamp and the radius. *)
Theorem correlate_request_span (args : ToolArgs) (w : World)
    (context : AppContext) (w1 : World)
    (found : option string) (workspaceId : string) (w2 : World)
    (s : string) (t : Z) :
  let r := or_default (windowMinutes args) 5 in
  Context.requireAppContext env w = (Ok context, w1) ->
  getWorkspaceId env context w1 = (Ok found, w2) ->
  usable found = Some workspaceId ->
  timestamp args = Some s ->
  Date_of_string env s = Some t ->
  Z.abs (t - r * 60000) <= maxTime ->
  Z.abs (t + r * 60000) <= maxTime ->
  exists req,
    queries (snd (correlate_events env formatLogQueryResult args w)) =
      queries w ++ [req]
    /\ Monitor.query req =
         correlate_query (iso_of_time (t - r * 60000)) (iso_of_time (t + r * 60000))
         +:+ LF +:+ "| limit 500"
    /\ Monitor.endTime req = Some (now w2)
    /\ Monitor.startTime req = TimeClip (now w2 - 3600000).
Proof.
  intros r Hctx Hws Hfound Hts Ht Hlo Hhi.
  assert (Q : queries w2 = queries w).
  { pose proof (requireAppContext_queries env w) as Q1. rewrite Hctx in Q1.
    pose proof (getWorkspaceId_queries env context w1) as Q2. rewrite Hws in Q2.
    cbn [snd] in *. congruence. }
  unfold correlate_events, bind. rewrite Hctx, Hws, Hfound, Hts, Ht.
  fold r. unfold date_plus.
  replace (t + - (r * 60 * 1000)) with (t - r * 60000) by lia.
  replace (t + r * 60 * 1000) with (t + r * 60000) by lia.
  rewrite !TimeClip_in_range by assumption.
  unfold lift, toISOString.
  rewrite (query_dispatched env workspaceId _ 60 w2) by lia.
  eexists. unfold ret. cbn [snd queries after_call]. rewrite Q.
  split; [reflexivity|].
  cbn [Monitor.query Monitor.endTime Monitor.startTime Spec.request_of].
  split; [apply correlate_query_capped; apply avoids_iso|].
  split; reflexivity.
Qed.

End DiagnosisFacts.

(* ===================================================================== *)
(** ** Further properties: the Kudu connector *)
(* ===================================================================== *)

Section SortFacts.

Import Notions Kudu.

Variable env : Env.

Lemma insert_entry_perm (x : KuduLogEntry) (l : list KuduLogEntry) :
  Permutation (insert_entry env x l) (x :: l).
Proof.
  induction l as [|y l IH]; cbn [insert_entry]; [reflexivity|].
  destruct (_ <=? 0); [reflexivity|].
  rewrite IH. apply perm_swap.
Qed.

Lemma sort_entries_perm (l : list KuduLogEntry) :
  Permutation (sort_entries env l) l.
Proof.
  induction l as [|x l IH]; cbn [sort_entries]; [reflexivity|].
  rewrite insert_entry_perm. now constructor.
Qed.

Lemma insert_entry_ordered (x : KuduLogEntry) (l : list KuduLogEntry) :
  dated env x -> Forall (dated env) l ->
  ForallOrdPairs (recent env) l ->
  ForallOrdPairs (recent env) (insert_entry env x l).
Proof.
  intros Hx Hl Hs. induction Hs as [|y l Hy Hs IH]; cbn [insert_entry].
  - repeat constructor.
  - apply Forall_cons_iff in Hl. destruct Hl as [Hdy Hl].
    unfold compare_lastUpdated.
    unfold dated, updated_at in Hx, Hdy.
    destruct (Date_of_string env (lastUpdated x)) as [tx|] eqn:Ex; [|congruence].
    destruct (Date_of_string env (lastUpdated y)) as [ty|] eqn:Ey; [|congruence].
    destruct (ty - tx <=? 0) eqn:E.
    + apply Z.leb_le in E. constructor.
      * constructor.
        -- intros ta tb Ha Hb. unfold updated_at in Ha, Hb. rewrite Ex in Ha.
           rewrite Ey in Hb. injection Ha as <-. injection Hb as <-. lia.
        -- rewrite List.Forall_forall in Hy, Hl |- *. intros z Hz ta tb Ha Hb.
           unfold updated_at in Ha. rewrite Ex in Ha. injection Ha as <-.
           specialize (Hy z Hz ty tb). unfold updated_at in Hy at 1.
           specialize (Hy Ey Hb). lia.
      * now constructor.
    + apply Z.leb_gt in E. constructor.
      * rewrite List.Forall_forall in Hy |- *. intros z Hz.
        apply (Permutation_in _ (insert_entry_perm x l)) in Hz.
        destruct Hz as [<-|Hz]; [|now apply Hy].
        intros ta tb Ha Hb. unfold updated_at in Ha, Hb. rewrite Ey in Ha.
        rewrite Ex in Hb. injection Ha as <-. injection Hb as <-. lia.
      * now apply IH.
Qed.

Lemma sort_entries_ordered (l : list KuduLogEntry) :
  Forall (dated env) l -> ForallOrdPairs (recent env) (sort_entries env l).
Proof.
  induction l as [|x l IH]; intros H; cbn [sort_entries]; [constructor|].
  apply Forall_cons_iff in H. destruct H as [Hx Hl].
  apply insert_entry_ordered; [exact Hx | | now apply IH].
  rewrite List.Forall_forall in Hl |- *. intros z Hz. apply Hl.
  now apply (Permutation_in _ (sort_entries_perm l)).
Qed.

Lemma sort_entries_head (l : list KuduLogEntry) (first : KuduLogEntry)
    (rest : list KuduLogEntry) :
  Forall (dated env) l ->
  sort_entries env l = first :: rest ->
  In first l /\ forall e, In e l -> recent env first e.
Proof.
  intros Hl Hs. pose proof (sort_entries_perm l) as Hp.
  pose proof (sort_entries_ordered l Hl) as Ho. rewrite Hs in Hp, Ho.
  split.
  - apply (Permutation_in _ Hp). now left.
  - intros e He. apply (Permutation_in _ (Permutation_sym Hp)) in He.
    inversion Ho as [|a l' Ha Hl' Heq]; subst.
    destruct He as [<-|He].
    + intros ta tb Ha' Hb'. rewrite Ha' in Hb'. injection Hb' as <-. lia.
    + rewrite List.Forall_forall in Ha. now apply Ha.
Qed.

(** X18. Sorting the descriptors by [lastUpdated], when every date parses:
    the result has the same descriptors, each as often as before, and of
    two descriptors the one that comes first in the result is at least as
    recent as the other. *)
Theorem sort_entries_latest_first (l : list KuduLogEntry) :
  Forall (dated env) l ->
  Permutation (sort_entries env l) l
  /\ forall pre a mid b post ta tb,
       sort_entries env l = pre ++ a :: mid ++ b :: post ->
       updated_at env a = Some ta ->
       updated_at env b = Some tb ->
       tb <= ta.
Proof.
  intros Hl. split; [apply sort_entries_perm|].
  intros pre a mid b post ta tb Hs Ha Hb.
  pose proof (sort_entries_ordered l Hl) as Ho. rewrite Hs in Ho.
  clear Hs. induction pre as [|p pre IH].
  - cbn [app] in Ho. inversion Ho as [|x l' Hx Hl' Heq]; subst.
    rewrite List.Forall_forall in Hx. apply (Hx b); [|exact Ha|exact Hb].
    apply in_or_app. right. now left.
  - cbn [app] in Ho. inversion Ho as [|x l' Hx Hl' Heq]; subst. now apply IH.
Qed.

(** X19. The live-stream attempt reads the most recent stream.  When the
    listing answers with descriptors whose dates all parse, the second
    request goes to the [href] of a descriptor of the listing that no other
    one is more recent than, and there is no third request. *)
Theorem getContainerLogs_reads_latest (appName : string) (maxLines : Z)
    (w : World) (response : Fetch.Response) (logs : list KuduLogEntry) :
  let listing := getScmUrl appName +:+ "/api/logs/docker" in
  fetch_answer env w listing = Ok response ->
  Fetch.ok response = true ->
  Fetch.json response = Ok logs ->
  logs <> [] ->
  Forall (dated env) logs ->
  exists latest,
    In latest logs
    /\ (forall e t t',
          In e logs -> updated_at env e = Some t ->
          updated_at env latest = Some t' -> t <= t')
    /\ fetches (snd (getContainerLogs env appName maxLines w)) =
         fetches w ++ [listing; href latest].
Proof.
  intros listing Hfetch Hok Hjson Hne Hdated.
  destruct (sort_entries env logs) as [|latest rest] eqn:Hs.
  { pose proof (sort_entries_perm logs) as Hp. rewrite Hs in Hp.
    apply Permutation_nil in Hp. contradiction. }
  destruct (sort_entries_head logs latest rest Hdated Hs) as [Hin Hmax].
  exists latest. split; [exact Hin|]. split.
  { intros e t t' He Ht Ht'. exact (Hmax e He t' t Ht' Ht). }
  unfold getContainerLogs, listContainerLogs, try_catch, bind, fetchWithAuth,
    throw, ret, lift, Date_now.
  fold listing. rewrite Hfetch, Hok. cbn [negb]. rewrite Hjson.
  destruct logs as [|l0 logs']; [contradiction|].
  rewrite Hs.
  destruct (fetch_answer env _ (href latest)) as [response2|e]; cbn;
    [destruct (Fetch.ok response2); cbn|]; now rewrite <- app_assoc.
Qed.

End SortFacts.

Section KuduEntryFacts.

Import Notions Kudu.

Variable env : Env.

Lemma In_slice_from {A} (n : Z) (l : list A) (x : A) :
  In x (slice_from n l) -> In x l.
Proof.
  unfold slice_from. generalize (Z.to_nat (rel_index n (Z.of_nat (length l)))).
  intros k H. rewrite <- (firstn_skipn k l). apply in_or_app. now right.
Qed.

Lemma match_prefix_spec (pat : list (ascii -> bool)) (s m : string) :
  match_prefix pat s = Some m ->
  startsWith s m = true /\ String.length m = length pat.
Proof.
  revert s m. induction pat as [|p pat IH]; intros s m; cbn [match_prefix].
  - intros H. injection H as <-. now destruct s.
  - destruct s as [|c s]; [discriminate|].
    destruct (p c); [|discriminate].
    destruct (match_prefix pat s) as [m'|] eqn:E; [|discriminate].
    intros H. injection H as <-. destruct (IH s m' E) as [H1 H2].
    cbn [startsWith String.length length]. rewrite Ascii.eqb_refl, H1, H2.
    now split.
Qed.

Lemma stream_entry_timestamp (current : Z) (line : string) :
  (startsWith line (timestamp (stream_entry current line)) = true
   /\ String.length (timestamp (stream_entry current line)) = 19%nat)
  \/ (timestampMatch line = None
      /\ timestamp (stream_entry current line) = iso_of_time current).
Proof.
  unfold stream_entry, timestampMatch. cbn [timestamp].
  destruct (match_prefix timestamp_pattern line) as [m|] eqn:E.
  - left. now apply match_prefix_spec in E.
  - right. now split.
Qed.

(** What the live-stream attempt returns: a failure with a message and no
    entry, or a success whose entries are made of lines that are not
    blank. *)
Lemma getContainerLogs_shape (appName : string) (maxLines : Z) (w : World)
    (r : KuduLogsResult) (w1 : World) :
  getContainerLogs env appName maxLines w = (Ok r, w1) ->
  (success r = false /\ entries r = [] /\ exists msg, error r = Some msg)
  \/ (success r = true /\ error r = None
      /\ exists lines,
           Forall (fun line => not_blank line = true) lines
           /\ entries r = map (stream_entry (now w1)) lines
           /\ (0 < maxLines -> LogAnalytics.len lines <= maxLines)).
Proof.
  unfold getContainerLogs, listContainerLogs, try_catch, bind, fetchWithAuth,
    throw, ret, lift, Date_now.
  destruct (fetch_answer env w _) as [response|e]; cbn.
  2:{ intros H. injection H as <- <-. left. cbn. eauto. }
  destruct (Fetch.ok response); cbn.
  2:{ intros H. injection H as <- <-. left. cbn. eauto. }
  destruct (Fetch.json response) as [logs|e]; cbn.
  2:{ intros H. injection H as <- <-. left. cbn. eauto. }
  destruct logs as [|l logs]; cbn.
  { intros H. injection H as <- <-. right. cbn. split; [reflexivity|].
    split; [reflexivity|]. exists []. split; [constructor|].
    split; [reflexivity|]. unfold LogAnalytics.len. cbn [length]. lia. }
  destruct (insert_entry env l (sort_entries env logs)) as [|recentLog others]; cbn.
  { intros H. injection H as <- <-. left. cbn. eauto. }
  destruct (fetch_answer env _ (href recentLog)) as [response2|e]; cbn.
  2:{ intros H. injection H as <- <-. left. cbn. eauto. }
  destruct (Fetch.ok response2); cbn.
  2:{ intros H. injection H as <- <-. left. cbn. eauto. }
  intros H. injection H as <- <-. right. cbn [success error entries].
  split; [reflexivity|]. split; [reflexivity|].
  eexists. split; [|split; [reflexivity|]].
  - apply List.Forall_forall. intros x Hx. apply In_slice_from in Hx.
    apply filter_In in Hx. tauto.
  - intros Hn. now apply slice_from_last_length.
Qed.

(** X20. The entries of the live-stream attempt.  The attempt never throws;
    a failure carries a message and no entry; in a success no entry has a
    blank line, and the timestamp of an entry is the 19 characters its line
    starts with or, when the line does not start with a date and a time,
    the time at which the stream was read. *)
Theorem getContainerLogs_entries (appName : string) (maxLines : Z) (w : World) :
  exists r w1,
    getContainerLogs env appName maxLines w = (Ok r, w1)
    /\ (success r = false -> entries r = [] /\ error r <> None)
    /\ (success r = true -> error r = None)
    /\ forall e, In e (entries r) ->
         not_blank (content e) = true
         /\ ((startsWith (content e) (timestamp e) = true
              /\ String.length (timestamp e) = 19%nat)
             \/ (timestampMatch (content e) = None
                 /\ timestamp e = iso_of_time (now w1))).
Proof.
  destruct (getContainerLogs_total env appName maxLines w) as [r [w1 [H _]]].
  exists r, w1. split; [exact H|].
  destruct (getContainerLogs_shape _ _ _ _ _ H)
    as [[Hs [He [msg Hm]]] | [Hs [He [lines [Hl [Hen _]]]]]].
  - split; [intros _; split; [exact He | congruence]|].
    split; [congruence|]. rewrite He. intros e [].
  - split; [congruence|]. split; [intros _; exact He|].
    rewrite Hen. intros e Hin. apply in_map_iff in Hin.
    destruct Hin as [line [<- Hin]]. split.
    + rewrite List.Forall_forall in Hl. now apply Hl.
    + apply stream_entry_timestamp.
Qed.

Lemma In_apply_filter {A} (flt : option string) (text_of : A -> string)
    (xs : list A) (x : A) :
  In x (apply_filter flt text_of xs) ->
  In x xs
  /\ forall f, flt = Some f -> f <> EmptyString ->
               includes (toLowerCase (text_of x)) (toLowerCase f) = true.
Proof.
  unfold apply_filter. destruct flt as [f|].
  - destruct f as [|c f]; cbn [truthy_string].
    + intros H. split; [exact H|]. intros f' E. injection E as <-. congruence.
    + intros H. apply filter_In in H. destruct H as [H1 H2].
      split; [exact H1|]. intros f' E _. injection E as <-. exact H2.
  - intros H. split; [exact H|]. discriminate.
Qed.

(** X21. The entries of [getRecentLogs], whichever source they come from:
    no entry has a blank line, and with a filter that is not empty every
    entry contains the filter when case is ignored. *)
Theorem getRecentLogs_entries (appName : string) (maxLines : Z)
    (flt : option string) (w : World) (r : KuduLogsResult) (w1 : World) :
  getRecentLogs env appName maxLines flt w = (Ok r, w1) ->
  forall e, In e (entries r) ->
    not_blank (content e) = true
    /\ forall f, flt = Some f -> f <> EmptyString ->
                 includes (toLowerCase (content e)) (toLowerCase f) = true.
Proof.
  intros Hrun.
  destruct (getContainerLogs_total env appName maxLines w)
    as [cr [w0 [Hc [_ [Hfail _]]]]].
  assert (Hcr : forall e, In e (entries cr) -> not_blank (content e) = true).
  { destruct (getContainerLogs_shape _ _ _ _ _ Hc)
      as [[_ [He _]] | [_ [_ [lines [Hl [Hen _]]]]]].
    - rewrite He. intros e [].
    - rewrite Hen. intros e Hin. apply in_map_iff in Hin.
      destruct Hin as [line [<- Hin]]. rewrite List.Forall_forall in Hl.
      now apply Hl. }
  destruct (success cr && (LogAnalytics.len (entries cr) >? 0)) eqn:Hgo.
  - rewrite (getRecentLogs_live env _ _ _ _ _ _ Hc Hgo) in Hrun.
    injection Hrun as <- <-. cbn [entries]. intros e Hin.
    apply In_apply_filter in Hin. destruct Hin as [Hin Hf].
    split; [now apply Hcr | exact Hf].
  - pose proof (getRecentLogs_on_disk env appName maxLines flt w cr w0 Hc Hgo) as H.
    pose proof (unusable_attempt_empty cr Hfail Hgo) as Hnil.
    assert (Hsame : forall w2, (Ok cr, w2) = (Ok r, w1) ->
              forall e, In e (entries r) ->
                not_blank (content e) = true
                /\ forall f, flt = Some f -> f <> EmptyString ->
                     includes (toLowerCase (content e)) (toLowerCase f) = true).
    { intros w2 E. injection E as <- <-. rewrite Hnil. intros e []. }
    destruct (listLogFiles env appName "/LogFiles/Application/" w0)
      as [[[|f files]|e] w2].
    + rewrite H in Hrun. injection Hrun as <- <-. intros e [].
    + destruct (sort_entries env (f :: files)) as [|first others].
      * rewrite H in Hrun. now apply (Hsame w2).
      * destruct (readLogFile env appName (path first) 100000 w2)
          as [[text|e] w3].
        -- rewrite H in Hrun. injection Hrun as <- <-. cbn [entries].
           intros e Hin. apply in_map_iff in Hin.
           destruct Hin as [line [<- Hin]]. cbn [content].
           apply In_slice_from in Hin. apply In_apply_filter in Hin.
           destruct Hin as [Hin Hf]. apply filter_In in Hin.
           split; [tauto | exact Hf].
        -- rewrite H in Hrun. now apply (Hsame w3).
    + rewrite H in Hrun. now apply (Hsame w2).
Qed.

Lemma toLowerCase_empty (s : string) :
  toLowerCase s = EmptyString -> s = EmptyString.
Proof. destruct s; [reflexivity | discriminate]. Qed.

Lemma apply_filter_case {A} (f g : string) (text_of : A -> string)
    (xs : list A) :
  toLowerCase f = toLowerCase g ->
  apply_filter (Some f) text_of xs = apply_filter (Some g) text_of xs.
Proof.
  intros H. unfold apply_filter, matches_filter.
  destruct f as [|a f], g as [|b g]; try discriminate; [reflexivity|].
  cbn [truthy_string]. now rewrite H.
Qed.

Lemma apply_filter_empty {A} (text_of : A -> string) (xs : list A) :
  apply_filter (Some EmptyString) text_of xs = apply_filter None text_of xs.
Proof. reflexivity. Qed.

(** Two filters that select the same lines give the same result. *)
Lemma getRecentLogs_same_filter (appName : string) (maxLines : Z)
    (flt flt' : option string) (w : World) :
  (forall A (text_of : A -> string) xs,
     apply_filter flt text_of xs = apply_filter flt' text_of xs) ->
  getRecentLogs env appName maxLines flt w =
    getRecentLogs env appName maxLines flt' w.
Proof.
  intros Hsame.
  destruct (getContainerLogs_total env appName maxLines w)
    as [cr [w0 [Hc _]]].
  destruct (success cr && (LogAnalytics.len (entries cr) >? 0)) eqn:Hgo.
  - rewrite !(getRecentLogs_live env _ _ _ _ _ _ Hc Hgo). now rewrite Hsame.
  - pose proof (getRecentLogs_on_disk env appName maxLines flt w cr w0 Hc Hgo) as H.
    pose proof (getRecentLogs_on_disk env appName maxLines flt' w cr w0 Hc Hgo) as H'.
    destruct (listLogFiles env appName "/LogFiles/Application/" w0)
      as [[[|f files]|e] w2]; try congruence.
    destruct (sort_entries env (f :: files)) as [|first others]; [congruence|].
    destruct (readLogFile env appName (path first) 100000 w2)
      as [[text|e] w3]; [|congruence].
    rewrite H, H'. now rewrite Hsame.
Qed.

(** X22. The filter of [getRecentLogs] ignores case and an empty filter is
    no filter: two filters that are equal once lower-cased give the same
    result in the same world, and so do the empty filter and the absent
    one. *)
Theorem getRecentLogs_filter_case (appName : string) (maxLines : Z)
    (w : World) :
  (forall f g,
     toLowerCase f = toLowerCase g ->
     getRecentLogs env appName maxLines (Some f) w =
       getRecentLogs env appName maxLines (Some g) w)
  /\ getRecentLogs env appName maxLines (Some EmptyString) w =
       getRecentLogs env appName maxLines None w.
Proof.
  split.
  - intros f g H. apply getRecentLogs_same_filter. intros A text_of xs.
    now apply apply_filter_case.
  - apply getRecentLogs_same_filter. intros A text_of xs. reflexivity.
Qed.

(** A failure of [getRecentLogs] carries a message and no entry. *)
Lemma getRecentLogs_failed_shape (appName : string) (maxLines : Z)
    (flt : option string) (w : World) (r : KuduLogsResult) (w1 : World) :
  getRecentLogs env appName maxLines flt w = (Ok r, w1) ->
  success r = false ->
  entries r = [] /\ exists reason, error r = Some reason.
Proof.
  intros Hrun Hfail.
  destruct (getContainerLogs_total env appName maxLines w)
    as [cr [w0 [Hc _]]].
  destruct (success cr && (LogAnalytics.len (entries cr) >? 0)) eqn:Hgo.
  { rewrite (getRecentLogs_live env _ _ _ _ _ _ Hc Hgo) in Hrun.
    injection Hrun as <- <-. discriminate Hfail. }
  pose proof (getRecentLogs_on_disk env appName maxLines flt w cr w0 Hc Hgo) as H.
  assert (Hcr : cr = r -> entries r = [] /\ exists reason, error r = Some reason).
  { intros <-. destruct (getContainerLogs_shape _ _ _ _ _ Hc)
      as [[_ [He Hm]] | [Hs _]]; [|congruence]. now split. }
  destruct (listLogFiles env appName "/LogFiles/Application/" w0)
    as [[[|f files]|e] w2].
  - rewrite H in Hrun. injection Hrun as <- <-. discriminate Hfail.
  - destruct (sort_entries env (f :: files)) as [|first others].
    { rewrite H in Hrun. injection Hrun as E _. now apply Hcr. }
    destruct (readLogFile env appName (path first) 100000 w2)
      as [[text|e] w3].
    + rewrite H in Hrun. injection Hrun as <- <-. discriminate Hfail.
    + rewrite H in Hrun. injection Hrun as E _. now apply Hcr.
  - rewrite H in Hrun. injection Hrun as E _. now apply Hcr.
Qed.

(** X23. [getRecentLogs] reports a failure only when both sources failed:
    the result is then the failure of the live-stream attempt, with its
    message and no entry, and listing the application logs or reading the
    most recent one has thrown. *)
Theorem getRecentLogs_failure (appName : string) (maxLines : Z)
    (flt : option string) (w : World) (r : KuduLogsResult) (w1 : World) :
  getRecentLogs env appName maxLines flt w = (Ok r, w1) ->
  success r = false ->
  exists w0,
    getContainerLogs env appName maxLines w = (Ok r, w0)
    /\ entries r = []
    /\ error r <> None
    /\ ((exists e, listLogFiles env appName "/LogFiles/Application/" w0 =
                     (Throw e, w1))
        \/ (exists files w2 first others e,
              listLogFiles env appName "/LogFiles/Application/" w0 =
                (Ok files, w2)
              /\ sort_entries env files = first :: others
              /\ readLogFile env appName (path first) 100000 w2 = (Throw e, w1))).
Proof.
  intros Hrun Hfail.
  destruct (getContainerLogs_total env appName maxLines w)
    as [cr [w0 [Hc _]]].
  destruct (success cr && (LogAnalytics.len (entries cr) >? 0)) eqn:Hgo.
  { rewrite (getRecentLogs_live env _ _ _ _ _ _ Hc Hgo) in Hrun.
    injection Hrun as <- <-. discriminate Hfail. }
  pose proof (getRecentLogs_on_disk env appName maxLines flt w cr w0 Hc Hgo) as H.
  assert (Hcr : cr = r -> entries r = [] /\ error r <> None).
  { intros <-. destruct (getContainerLogs_shape _ _ _ _ _ Hc)
      as [[_ [He [msg Hm]]] | [Hs _]]; [|congruence].
    split; [exact He | congruence]. }
  exists w0.
  destruct (listLogFiles env appName "/LogFiles/Application/" w0)
    as [[[|f files]|e] w2] eqn:Hl.
  - rewrite H in Hrun. injection Hrun as <- <-. discriminate Hfail.
  - destruct (sort_entries env (f :: files)) as [|first others] eqn:Hs.
    { pose proof (sort_entries_perm env (f :: files)) as Hp. rewrite Hs in Hp.
      apply Permutation_nil in Hp. discriminate Hp. }
    destruct (readLogFile env appName (path first) 100000 w2)
      as [[text|e] w3] eqn:Hr.
    + rewrite H in Hrun. injection Hrun as <- <-. discriminate Hfail.
    + rewrite H in Hrun. injection Hrun as E <-. destruct (Hcr E) as [H1 H2].
      subst cr. split; [exact Hc|]. split; [exact H1|]. split; [exact H2|].
      right. exists (f :: files), w2, first, others, e. auto.
  - rewrite H in Hrun. injection Hrun as E <-. destruct (Hcr E) as [H1 H2].
    subst cr. split; [exact Hc|]. split; [exact H1|]. split; [exact H2|].
    left. now exists e.
Qed.

End KuduEntryFacts.

Section ReadFacts.

Import Notions Kudu.

Variable env : Env.

Lemma length_append (a b : string) :
  String.length (a +:+ b) = (String.length a + String.length b)%nat.
Proof. induction a as [|c a IH]; cbn; [reflexivity | now rewrite IH]. Qed.

Lemma string_skipn_split (k : nat) (s : string) :
  (k <= String.length s)%nat ->
  exists dropped,
    s = dropped +:+ string_skipn k s /\ String.length dropped = k.
Proof.
  revert s. induction k as [|k IH]; intros s Hk.
  - exists EmptyString. now split.
  - destruct s as [|c s]; [cbn in Hk; lia|].
    destruct (IH s) as [d [Hd Hl]]; [cbn in Hk; lia|].
    exists (String c d). cbn [string_skipn]. split.
    + cbn. now rewrite <- Hd.
    + cbn. now rewrite Hl.
Qed.

(** X24. [readLogFile] with a positive [maxBytes].  A text it returns is the
    content of the file when that has at most [maxBytes] characters, and
    otherwise the last [maxBytes] characters of the content followed by a
    line feed and "... (truncated)"; it never has more than
    [maxBytes + 16] characters.  Whatever goes wrong is thrown as an Error
    whose message starts with "Failed to read log file: ". *)
Theorem readLogFile_truncates (appName path : string) (maxBytes : Z)
    (w : World) :
  0 < maxBytes ->
  let url := getScmUrl appName +:+ "/api/vfs" +:+ path in
  (forall text w1,
     readLogFile env appName path maxBytes w = (Ok text, w1) ->
     exists response,
       fetch_answer env w url = Ok response
       /\ Fetch.ok response = true
       /\ Z.of_nat (String.length text) <= maxBytes + 16
       /\ ((Z.of_nat (String.length (Fetch.text response)) <= maxBytes
            /\ text = Fetch.text response)
           \/ (maxBytes < Z.of_nat (String.length (Fetch.text response))
               /\ exists dropped kept,
                    Fetch.text response = dropped +:+ kept
                    /\ Z.of_nat (String.length kept) = maxBytes
                    /\ text = kept +:+ LF +:+ "... (truncated)")))
  /\ (forall e w1,
        readLogFile env appName path maxBytes w = (Throw e, w1) ->
        exists reason, e = Error ("Failed to read log file: " +:+ reason))
  /\ fetches (snd (readLogFile env appName path maxBytes w)) =
       fetches w ++ [url].
Proof.
  intros Hmax url.
  unfold readLogFile, try_catch, bind, fetchWithAuth, throw, ret. fold url.
  destruct (fetch_answer env w url) as [response|e0]; cbn.
  2:{ split; [discriminate|]. split; [|reflexivity].
      intros e w1 H. injection H as <- _. eauto. }
  destruct (Fetch.ok response) eqn:Hok; cbn.
  2:{ split; [discriminate|]. split; [|reflexivity].
      intros e w1 H. injection H as <- _. eauto. }
  destruct (Z.of_nat (String.length (Fetch.text response)) >? maxBytes) eqn:Hlen;
    cbn.
  - rewrite Z.gtb_ltb in Hlen. apply Z.ltb_lt in Hlen.
    split; [|split; [discriminate | reflexivity]].
    intros text w1 H. injection H as <- <-. exists response.
    split; [reflexivity|]. split; [exact Hok|].
    unfold string_slice_from, rel_index.
    replace (- maxBytes <? 0) with true by (symmetry; apply Z.ltb_lt; lia).
    set (content := Fetch.text response) in *.
    set (k := Z.to_nat (Z.max (Z.of_nat (String.length content) + - maxBytes) 0)).
    destruct (string_skipn_split k content) as [dropped [Hd Hk]];
      [unfold k; lia|].
    assert (Hkept : Z.of_nat (String.length (string_skipn k content)) = maxBytes).
    { assert (E : String.length content =
                  (String.length dropped + String.length (string_skipn k content))%nat)
        by (rewrite Hd at 1; apply length_append).
      rewrite Hk in E. unfold k in E at 1. lia. }
    split.
    + rewrite !length_append. cbn [String.length LF]. lia.
    + right. split; [exact Hlen|]. exists dropped, (string_skipn k content).
      split; [exact Hd|]. split; [exact Hkept | reflexivity].
  - rewrite Z.gtb_ltb in Hlen. apply Z.ltb_ge in Hlen.
    split; [|split; [discriminate | reflexivity]].
    intros text w1 H. injection H as <- <-. exists response.
    split; [reflexivity|]. split; [exact Hok|]. split; [lia|].
    left. now split.
Qed.

End ReadFacts.

(* ===================================================================== *)
(** ** Further properties: the handlers of the tools *)
(* ===================================================================== *)

Section ToolCaseFacts.

Import Notions PrebuiltQueries Tools ToolCases.

Variable env : Env.
Variable formatLogQueryResult : LogAnalytics.LogQueryResult -> string -> string.
Variable formatErrorSummary : LogAnalytics.LogQueryResult -> string.
Variable formatKuduLogs : Kudu.KuduLogsResult -> string.
Variable formatDiagnosticInfo : Arm.DiagnosticInfo -> string.

Lemma getWorkspaceId_fetches (context : AppContext) (w : World) :
  fetches (snd (getWorkspaceId env context w)) = fetches w.
Proof.
  unfold getWorkspaceId, ArmClient.getDiagnosticSettings,
    ArmClient.resolveWorkspaceId, ArmClient.arm_call, bind, ret.
  destruct (usable (logAnalyticsWorkspaceId context)); [reflexivity|].
  destruct (getDiagnosticSettings_answer env w context) as [diag|e]; cbn;
    [|apply app_nil_r].
  destruct (Arm.enabled diag); cbn; [|apply app_nil_r].
  destruct (usable (Arm.logAnalyticsWorkspaceId diag)); cbn; [|apply app_nil_r].
  destruct (resolveWorkspaceId_answer env _ _ _) as [guid|e]; cbn;
    [|now rewrite !app_nil_r].
  destruct (usable guid); cbn.
  - unfold Context.updateDiagnosticInfo. cbn.
    destruct (currentContext w); cbn; now rewrite !app_nil_r.
  - now rewrite !app_nil_r.
Qed.

(** Nothing is sent while the context and the workspace are looked up. *)
Lemma lookup_sends_nothing (w : World) (context : AppContext) (w1 : World)
    (found : option string) (w2 : World) :
  Context.requireAppContext env w = (Ok context, w1) ->
  getWorkspaceId env context w1 = (Ok found, w2) ->
  queries w2 = queries w /\ fetches w2 = fetches w.
Proof.
  intros Hctx Hws.
  destruct (requireAppContext_stored env w context w1 Hctx) as [_ [_ [Q1 F1]]].
  pose proof (getWorkspaceId_queries env context w1) as Q2.
  pose proof (getWorkspaceId_fetches context w1) as F2.
  rewrite Hws in Q2, F2. cbn [snd] in *. split; congruence.
Qed.

(** X25. The context gate.  Without a context, stored or described by the
    environment, [get_context] answers with the instructions and every
    handler that needs the App Service throws the configuration error;
    nothing is sent and the world is left as it was.  After [set_context],
    [get_context] reports the three names given and the context the
    handlers get is made of these names, with no cached workspace
    identifier. *)
Theorem handlers_require_context (args : Args.ToolArgs) (targs : Tools.ToolArgs)
    (w : World) :
  currentContext w = None ->
  env_target env = None ->
  let refused {A} (handler : M A) :=
    handler w = (Throw (Error Context.no_context_message), w) in
  get_context env w = (Ok no_context_text, w)
  /\ refused (check_diagnostics env formatDiagnosticInfo)
  /\ refused (query_logs env formatLogQueryResult args)
  /\ refused (get_recent_logs env formatKuduLogs args)
  /\ refused (get_http_errors env formatErrorSummary args)
  /\ refused (get_slow_requests env formatLogQueryResult args)
  /\ refused (get_restarts env formatLogQueryResult formatKuduLogs args)
  /\ refused (summarize_errors env formatErrorSummary args)
  /\ refused (correlate_events env formatLogQueryResult targs)
  /\ refused (diagnose_deployment env targs)
  /\ exists text w1,
       set_context args w = (Ok text, w1)
       /\ get_context env w1 =
            (Ok ("**Current App Service**"
                 +:+ LF +:+ "- Subscription: " +:+ Args.subscriptionId args
                 +:+ LF +:+ "- Resource Group: " +:+ Args.resourceGroup args
                 +:+ LF +:+ "- App: " +:+ Args.appName args), w1)
       /\ Context.requireAppContext env w1 =
            (Ok {| subscriptionId := Args.subscriptionId args;
                   resourceGroup := Args.resourceGroup args;
                   appName := Args.appName args;
                   logAnalyticsWorkspaceId := None;
                   diagnosticsEnabled := None |}, w1).
Proof.
  intros Hc He refused.
  assert (Hget : Context.getAppContext env w = (Ok None, w)).
  { rewrite getAppContext_cases, Hc, He. reflexivity. }
  assert (Hreq : Context.requireAppContext env w =
                 (Throw (Error Context.no_context_message), w)).
  { unfold Context.requireAppContext, bind. now rewrite Hget. }
  split.
  { unfold get_context, bind. now rewrite Hget. }
  unfold refused, check_diagnostics, query_logs, get_recent_logs,
    get_http_errors, get_slow_requests, get_restarts, summarize_errors,
    correlate_events, diagnose_deployment, bind.
  rewrite Hreq. do 9 (split; [reflexivity|]).
  eexists. eexists. split; [reflexivity|]. split; reflexivity.
Qed.

(** X26. The analysis tools without a usable workspace identifier:
    [query_logs], [get_http_errors], [get_slow_requests] and
    [summarize_errors] answer with their error text and send nothing,
    while [get_restarts] turns to the Kudu connector for the last 200
    lines, unfiltered, and sends no structured query. *)
Theorem handlers_without_workspace (args : Args.ToolArgs) (w : World)
    (context : AppContext) (w1 : World) (found : option string) (w2 : World) :
  Context.requireAppContext env w = (Ok context, w1) ->
  getWorkspaceId env context w1 = (Ok found, w2) ->
  usable found = None ->
  query_logs env formatLogQueryResult args w =
    (Ok ("Error: Log Analytics not configured. Use check_diagnostics to see status."
         +:+ LF +:+ LF
         +:+ "Fallback: Use get_recent_logs for Kudu container logs."), w2)
  /\ get_http_errors env formatErrorSummary args w =
       (Ok "Error: Log Analytics not configured. HTTP error analysis requires diagnostic settings.",
        w2)
  /\ get_slow_requests env formatLogQueryResult args w =
       (Ok "Error: Log Analytics not configured.", w2)
  /\ summarize_errors env formatErrorSummary args w =
       (Ok "Error: Log Analytics not configured. Error analysis requires diagnostic settings.",
        w2)
  /\ queries w2 = queries w
  /\ fetches w2 = fetches w
  /\ exists kuduResult w3,
       Kudu.getRecentLogs env (appName context) 200 None w2 = (Ok kuduResult, w3)
       /\ get_restarts env formatLogQueryResult formatKuduLogs args w =
            (Ok (formatKuduLogs kuduResult +:+ LF +:+ LF
                 +:+ "_Note: Full restart history requires Log Analytics._"), w3)
       /\ queries w3 = queries w
       /\ LogAnalytics.len (Kudu.entries kuduResult) <= 200.
Proof.
  intros Hctx Hws Hnone.
  destruct (lookup_sends_nothing w context w1 found w2 Hctx Hws) as [Q F].
  unfold query_logs, get_http_errors, get_slow_requests, summarize_errors,
    get_restarts, bind.
  rewrite Hctx, Hws, Hnone.
  repeat (split; [first [reflexivity | assumption]|]).
  destruct (getRecentLogs_total env (appName context) 200 None w2)
    as [kuduResult [w3 [Hk [Hq Hlen]]]].
  exists kuduResult, w3. rewrite Hk. split; [reflexivity|].
  split; [reflexivity|]. split; [congruence|]. apply Hlen. lia.
Qed.

(** X27. The analysis tools with a workspace.  The range is [minutes], or
    60 when absent or zero, for [get_http_errors] and [get_slow_requests],
    and [hours * 60], or 1440 when [hours] is absent or zero, for
    [get_restarts] and [summarize_errors].  A range above 10080 minutes
    makes the handler render the rejection of the guardrail, the failed
    result that names the 7-day ceiling, and nothing is sent; otherwise
    the handler sends exactly one request, to this workspace, whose text
    is the prebuilt query for this range followed by the row cap, and
    what it renders is the result that [query] returns for the prebuilt
    query over this range. *)
Theorem handlers_with_workspace (args : Args.ToolArgs) (w : World)
    (context : AppContext) (w1 : World)
    (found : option string) (workspaceId : string) (w2 : World) :
  Context.requireAppContext env w = (Ok context, w1) ->
  getWorkspaceId env context w1 = (Ok found, w2) ->
  usable found = Some workspaceId ->
  let minutes := or_default (Args.minutes args) 60 in
  let threshold := or_default (Args.thresholdMs args) 1000 in
  let range :=
    match Args.hours args with
    | Some h => if h =? 0 then 1440 else h * 60
    | None => 1440
    end in
  let rejection :=
    {| LogAnalytics.success := false;
       LogAnalytics.rowCount := 0;
       LogAnalytics.truncated := false;
       LogAnalytics.columns := [];
       LogAnalytics.rows := [];
       LogAnalytics.queryTimeMs := 0;
       LogAnalytics.error :=
         Some "Time range exceeds maximum of 7 days. Use a shorter time range." |} in
  let served (handler : M string) (m : Z) (text : string)
      (render : LogAnalytics.LogQueryResult -> string) :=
    (m > 10080 ->
     handler w = (Ok (render rejection), w2)
     /\ queries w2 = queries w)
    /\ (m <= 10080 ->
        exists r w3 req,
          LogAnalytics.query env workspaceId text m w2 = (Ok r, w3)
          /\ handler w = (Ok (render r), w3)
          /\ queries w3 = queries w ++ [req]
          /\ Monitor.workspaceId req = workspaceId
          /\ Monitor.query req = text +:+ LF +:+ "| limit 500") in
  served (get_http_errors env formatErrorSummary args) minutes
    (httpErrorsText minutes) formatErrorSummary
  /\ served (get_slow_requests env formatLogQueryResult args) minutes
       (slowRequestsText minutes threshold)
       (fun r => formatLogQueryResult r
                   ("Slow Requests (>" +:+ num_to_string threshold +:+ "ms)"))
  /\ served (get_restarts env formatLogQueryResult formatKuduLogs args) range
       (platformLogsText range)
       (fun r => formatLogQueryResult r "Platform Events (restarts, deployments)")
  /\ served (summarize_errors env formatErrorSummary args) range
       (errorSummaryText range) formatErrorSummary.
Proof.
  intros Hctx Hws Hfound minutes threshold range rejection served.
  destruct (lookup_sends_nothing w context w1 found w2 Hctx Hws) as [Q _].
  assert (Hrange : hours_to_minutes (Args.hours args) = range).
  { unfold hours_to_minutes, range. destruct (Args.hours args) as [h|]; [|reflexivity].
    destruct (h =? 0) eqn:E.
    - apply Z.eqb_eq in E. subst h. reflexivity.
    - apply Z.eqb_neq in E.
      replace (h * 60 =? 0) with false; [reflexivity|].
      symmetry. apply Z.eqb_neq. lia. }
  assert (Hserved : forall (handler : M string)
                      (k : LogAnalytics.LogQueryResult -> string) m text,
            handler w =
              match LogAnalytics.query env workspaceId text m w2 with
              | (Ok r, w3) => (Ok (k r), w3)
              | (Throw e, w3) => (Throw e, w3)
              end ->
            LogAnalytics.addRowLimit text 500 = text +:+ LF +:+ "| limit 500" ->
            served handler m text k).
  { intros handler k m text Hrun Hcap. split; intros Hm; rewrite Hrun.
    - rewrite (query_rejected env) by exact Hm.
      split; [reflexivity | exact Q].
    - rewrite (query_dispatched env workspaceId text m w2 Hm).
      eexists. eexists. eexists. split; [reflexivity|]. split; [reflexivity|].
      cbn [queries after_call]. rewrite Q. split; [reflexivity|].
      split; [reflexivity | exact Hcap]. }
  split; [|split; [|split]].
  - apply Hserved; [|apply httpErrors_capped].
    unfold get_http_errors, bind, ret. rewrite Hctx, Hws, Hfound. reflexivity.
  - apply Hserved; [|apply slowRequests_capped].
    unfold get_slow_requests, bind, ret. rewrite Hctx, Hws, Hfound. reflexivity.
  - apply Hserved; [|apply platformLogs_capped].
    unfold get_restarts, bind, ret. rewrite Hctx, Hws, Hfound, Hrange.
    reflexivity.
  - apply Hserved; [|apply errorSummary_capped].
    unfold summarize_errors, bind, ret. rewrite Hctx, Hws, Hfound, Hrange.
    reflexivity.
Qed.

(** X28. [query_logs] with a workspace passes the query of the user through
    the guardrails: the range is [timeRangeMinutes], or 60 when absent or
    zero; above 10080 minutes nothing is sent; otherwise one request is
    sent to this workspace, over the range that ends at the time of the
    call, and its text is the query of the user, as it is or followed by
    the row cap. *)
Theorem query_logs_guarded (args : Args.ToolArgs) (w : World)
    (context : AppContext) (w1 : World)
    (found : option string) (workspaceId : string) (w2 : World) :
  Context.requireAppContext env w = (Ok context, w1) ->
  getWorkspaceId env context w1 = (Ok found, w2) ->
  usable found = Some workspaceId ->
  let range := or_default (Args.timeRangeMinutes args) 60 in
  (range > 10080 ->
   exists r,
     query_logs env formatLogQueryResult args w =
       (Ok (formatLogQueryResult r "Query Results"), w2)
     /\ LogAnalytics.success r = false
     /\ queries w2 = queries w)
  /\ (range <= 10080 ->
      exists r w3 req,
        query_logs env formatLogQueryResult args w =
          (Ok (formatLogQueryResult r "Query Results"), w3)
        /\ queries w3 = queries w ++ [req]
        /\ Monitor.workspaceId req = workspaceId
        /\ (Monitor.query req = Args.query args
            \/ Monitor.query req = Args.query args +:+ LF +:+ "| limit 500")
        /\ Monitor.endTime req = Some (now w2)
        /\ Monitor.startTime req = TimeClip (now w2 - range * 60 * 1000)).
Proof.
  intros Hctx Hws Hfound range.
  destruct (lookup_sends_nothing w context w1 found w2 Hctx Hws) as [Q _].
  unfold query_logs, bind, ret. rewrite Hctx, Hws, Hfound. fold range.
  split; intros Hm.
  - rewrite (query_rejected env) by exact Hm. eexists.
    split; [reflexivity|]. split; [reflexivity | exact Q].
  - rewrite (query_dispatched env workspaceId _ range w2 Hm).
    eexists. eexists. eexists. split; [reflexivity|].
    cbn [queries after_call]. rewrite Q. split; [reflexivity|].
    split; [reflexivity|]. split; [|split; reflexivity].
    cbn [Monitor.query Spec.request_of]. rewrite addRowLimit_unfold.
    destruct (_ || _); [now left | now right].
Qed.

Lemma fold_block {A} (f : A -> string) (l : list A) (start : string) :
  fold_left (fun acc x => acc +:+ f x +:+ LF) l start =
    start +:+ block_of (map f l).
Proof.
  revert start. induction l as [|x l IH]; intros start; cbn [fold_left map block_of fold_right].
  - now rewrite append_empty_r.
  - rewrite IH. unfold block_of. now rewrite !append_assoc.
Qed.

(** The text of [formatKuduLogs] for a success with entries: the count,
    the last [maxDisplay] lines in a fenced block, and a note when lines
    are left out. *)
Lemma formatKuduLogs_shows_last (result : Kudu.KuduLogsResult) (maxDisplay : Z) :
  0 < maxDisplay ->
  Kudu.success result = true ->
  Kudu.entries result <> [] ->
  let n := LogAnalytics.len (Kudu.entries result) in
  exists hidden shown,
    Kudu.entries result = hidden ++ shown
    /\ LogAnalytics.len shown = Z.min n maxDisplay
    /\ Formatter.formatKuduLogs result maxDisplay =
         "**Recent container logs** (" +:+ num_to_string n +:+ " lines)"
         +:+ LF +:+ LF +:+ "```" +:+ LF
         +:+ block_of (map Kudu.content shown) +:+ "```"
         +:+ (if n >? maxDisplay
              then LF +:+ LF +:+ "_Showing last " +:+ num_to_string maxDisplay
                   +:+ " of " +:+ num_to_string n +:+ " lines_"
              else EmptyString).
Proof.
  intros Hmax Hs Hne n. unfold Formatter.formatKuduLogs. rewrite Hs. cbn [negb].
  fold n.
  replace (n =? 0) with false.
  2:{ symmetry. apply Z.eqb_neq. unfold n, LogAnalytics.len.
      destruct (Kudu.entries result); [congruence | cbn [length]; lia]. }
  unfold slice_from, rel_index.
  replace (- maxDisplay <? 0) with true by (symmetry; apply Z.ltb_lt; lia).
  set (k := Z.to_nat (Z.max (Z.of_nat (length (Kudu.entries result)) + - maxDisplay) 0)).
  exists (firstn k (Kudu.entries result)), (skipn k (Kudu.entries result)).
  split; [now rewrite firstn_skipn|]. split.
  - unfold LogAnalytics.len, n, LogAnalytics.len. rewrite length_skipn.
    unfold k. lia.
  - rewrite fold_block. destruct (n >? maxDisplay).
    + now rewrite !append_assoc.
    + now rewrite !append_assoc, append_empty_r.
Qed.

(** X29. What [get_recent_logs] shows, once the context is there.  The
    handler never throws and sends no structured query; it asks for
    [maxLines] lines, or 100 when [maxLines] is absent or zero, and for a
    positive number gets at most that many entries.  A failure is shown
    with its message, a success without entries as "No recent log entries
    found.", and otherwise the text gives the number of entries and lists
    the last 50 of them at most, with a note when entries are left out. *)
Theorem get_recent_logs_display (args : Args.ToolArgs) (w : World)
    (context : AppContext) (w1 : World) :
  Context.requireAppContext env w = (Ok context, w1) ->
  let lines := or_default (Args.maxLines args) 100 in
  exists result w2 text,
    Kudu.getRecentLogs env (appName context) lines (Args.filter args) w1 =
      (Ok result, w2)
    /\ get_recent_logs env (fun r => Formatter.formatKuduLogs r 50) args w =
         (Ok text, w2)
    /\ queries w2 = queries w
    /\ (0 < lines -> LogAnalytics.len (Kudu.entries result) <= lines)
    /\ (Kudu.success result = false ->
        exists reason,
          Kudu.error result = Some reason
          /\ text = "❌ **Failed to fetch logs**" +:+ LF +:+ reason)
    /\ (Kudu.success result = true -> Kudu.entries result = [] ->
        text = "No recent log entries found.")
    /\ (Kudu.success result = true -> Kudu.entries result <> [] ->
        let n := LogAnalytics.len (Kudu.entries result) in
        exists hidden shown,
          Kudu.entries result = hidden ++ shown
          /\ LogAnalytics.len shown = Z.min n 50
          /\ text =
               "**Recent container logs** (" +:+ num_to_string n +:+ " lines)"
               +:+ LF +:+ LF +:+ "```" +:+ LF
               +:+ block_of (map Kudu.content shown) +:+ "```"
               +:+ (if n >? 50
                    then LF +:+ LF +:+ "_Showing last 50 of "
                         +:+ num_to_string n +:+ " lines_"
                    else EmptyString)).
Proof.
  intros Hctx lines.
  destruct (requireAppContext_stored env w context w1 Hctx) as [_ [_ [Q1 _]]].
  destruct (getRecentLogs_total env (appName context) lines (Args.filter args) w1)
    as [result [w2 [Hk [Hq Hlen]]]].
  exists result, w2, (Formatter.formatKuduLogs result 50). split; [exact Hk|].
  unfold get_recent_logs, bind. rewrite Hctx. fold lines. rewrite Hk.
  split; [reflexivity|]. split; [congruence|]. split; [exact Hlen|].
  split; [|split].
  - intros Hfail.
    destruct (getRecentLogs_failed_shape env _ _ _ _ _ _ Hk Hfail) as [_ [reason Hr]].
    exists reason. split; [exact Hr|].
    unfold Formatter.formatKuduLogs. now rewrite Hfail, Hr.
  - intros Hs He. unfold Formatter.formatKuduLogs. now rewrite Hs, He.
  - intros Hs Hne. apply formatKuduLogs_shows_last; [lia | exact Hs | exact Hne].
Qed.

End ToolCaseFacts.

(* ===================================================================== *)
(** ** Further properties: the rows of a result *)
(* ===================================================================== *)

Section RowFacts.

Import LogAnalytics.

Lemma fill_object_other (columns : list string) (idx : nat) (row : list jsval)
    (bare : bool) (obj : gmap string jsval) (k : string) :
  ~ In k columns ->
  fill_object columns idx row bare obj !! k = obj !! k.
Proof.
  revert idx bare obj. induction columns as [|c columns IH]; intros idx bare obj Hk.
  - reflexivity.
  - cbn [fill_object].
    assert (Hrest : ~ In k columns) by (intros H; apply Hk; now right).
    destruct (String.eqb c "__proto__" && negb bare).
    + now apply IH.
    + rewrite IH by exact Hrest.
      apply lookup_insert_ne. intros ->. apply Hk. now left.
Qed.

Lemma fill_object_last (pre : list string) (k : string) (post : list string)
    (idx : nat) (row : list jsval) (bare : bool) (obj : gmap string jsval) :
  k <> "__proto__" ->
  ~ In k post ->
  fill_object (pre ++ k :: post) idx row bare obj !! k =
    Some (nth (idx + length pre) row VUndefined).
Proof.
  intros Hproto Hk. apply String.eqb_neq in Hproto.
  revert idx bare obj. induction pre as [|c pre IH]; intros idx bare obj.
  - cbn [app fill_object length]. rewrite Hproto. cbn [andb].
    rewrite fill_object_other by exact Hk.
    rewrite Nat.add_0_r. apply lookup_insert_eq.
  - cbn [app fill_object length].
    destruct (String.eqb c "__proto__" && negb bare);
      rewrite IH; now rewrite Nat.add_succ_r.
Qed.

(** As long as no cell under a column named "__proto__" is [null], the
    name is never stored. *)
Lemma fill_object_proto (columns : list string) (idx : nat) (row : list jsval)
    (obj : gmap string jsval) :
  (forall i, nth i columns EmptyString = "__proto__" ->
             nth (idx + i) row VUndefined <> VNull) ->
  fill_object columns idx row false obj !! "__proto__" = obj !! "__proto__".
Proof.
  revert idx obj. induction columns as [|c columns IH]; intros idx obj H.
  - reflexivity.
  - cbn [fill_object]. cbn [negb]. rewrite andb_true_r.
    assert (Hrest : forall i, nth i columns EmptyString = "__proto__" ->
                              nth (S idx + i) row VUndefined <> VNull).
    { intros i Hi. specialize (H (S i) Hi).
      now rewrite Nat.add_succ_r in H. }
    destruct (String.eqb c "__proto__") eqn:E.
    + apply String.eqb_eq in E. specialize (H 0%nat E).
      rewrite Nat.add_0_r in H.
      destruct (nth idx row VUndefined); try contradiction; now apply IH.
    + rewrite IH by exact Hrest. apply lookup_insert_ne.
      intros ->. now rewrite String.eqb_refl in E.
Qed.

(** X30. The object built for a row of a result, by its own properties.
    A column name other than "__proto__" reads the cell at the position of
    its last occurrence among the columns, a cell the row does not have
    reads as undefined, and a name that is not a column is not a key of the
    object.  So when no column name is repeated, a column at position [i]
    that is not named "__proto__" reads the cell at position [i].  A
    column named "__proto__" is not a key of the object, unless a null cell
    under such a column has removed the prototype before. *)
Theorem row_object_cells (columns : list string) (row : list jsval) :
  (forall pre k post,
     columns = pre ++ k :: post -> ~ In k post -> k <> "__proto__" ->
     row_object columns row !! k = Some (nth (length pre) row VUndefined))
  /\ (forall k, ~ In k columns -> row_object columns row !! k = None)
  /\ (List.NoDup columns ->
      forall i, (i < length columns)%nat ->
        nth i columns EmptyString <> "__proto__" ->
        Tools.field (row_object columns row) (nth i columns EmptyString) =
          nth i row VUndefined)
  /\ ((forall i, nth i columns EmptyString = "__proto__" ->
                 nth i row VUndefined <> VNull) ->
      row_object columns row !! "__proto__" = None).
Proof.
  split; [|split; [|split]].
  - intros pre k post -> Hk Hproto. unfold row_object.
    now rewrite fill_object_last.
  - intros k Hk. unfold row_object. now rewrite fill_object_other.
  - intros Hnd i Hi Hproto.
    destruct (nth_split columns EmptyString Hi) as [pre [post [Hc Hl]]].
    assert (Hnd' : List.NoDup (pre ++ nth i columns EmptyString :: post))
      by (rewrite <- Hc; exact Hnd).
    apply NoDup_remove_2 in Hnd'.
    assert (Hpost : ~ In (nth i columns EmptyString) post).
    { intros H. apply Hnd'. apply in_or_app. now right. }
    pose proof (fill_object_last pre _ post 0 row false ∅ Hproto Hpost) as H.
    rewrite <- Hc, Hl in H. unfold Tools.field, row_object. now rewrite H.
  - intros H. unfold row_object. now rewrite fill_object_proto.
Qed.

End RowFacts.

(* ===================================================================== *)
(** ** The further properties on sample runs *)
(* ===================================================================== *)

Section MoreRuns.

Import Examples MoreExamples Notions.

(** Resolving the workspace of a target without a cached identifier stores
    "ws-guid", and the next call answers from the cache. *)
Lemma getWorkspaceId_caches_witness :
  let w1 := snd (Tools.getWorkspaceId env_resolving ctx_plain (world_of ctx_plain)) in
  exists c1,
    currentContext w1 = Some c1
    /\ same_target ctx_plain c1
    /\ logAnalyticsWorkspaceId c1 = Some "ws-guid"
    /\ Tools.getWorkspaceId env_resolving c1 w1 = (Ok (Some "ws-guid"), w1).
Proof.
  exact (getWorkspaceId_caches env_resolving (world_of ctx_plain) ctx_plain
           (Some "ws-guid") "ws-guid" _ eq_refl eq_refl eq_refl).
Defined.

(** Without diagnostic settings nothing is found and nothing is stored. *)
Lemma getWorkspaceId_miss_not_cached_witness :
  let w1 := snd (Tools.getWorkspaceId env_down ctx_plain (world_of ctx_plain)) in
  currentContext w1 = Some ctx_plain /\ queries w1 = [] /\ fetches w1 = [].
Proof.
  exact (getWorkspaceId_miss_not_cached env_down (world_of ctx_plain) ctx_plain
           (Ok None) _ eq_refl eq_refl).
Defined.

(** [check_diagnostics] replaces the identifier "old-guid" of the stored
    context by the one just resolved. *)
Lemma check_diagnostics_refreshes_witness :
  exists w2 c2,
    ToolCases.check_diagnostics env_resolving render_diagnostics (world_of ctx_stale) =
      (Ok "categories: 2", w2)
    /\ currentContext w2 = Some c2
    /\ same_target ctx_stale c2
    /\ logAnalyticsWorkspaceId c2 = Some "ws-guid"
    /\ diagnosticsEnabled c2 = Some true
    /\ queries w2 = [] /\ fetches w2 = [].
Proof.
  exact (check_diagnostics_refreshes env_resolving render_diagnostics
           (world_of ctx_stale) ctx_stale (world_of ctx_stale) diag_to_workspace
           (Some "ws-guid") eq_refl eq_refl eq_refl).
Defined.

(** The console query of the last hour for the filter "timeout". *)
Lemma appLogs_filter_and_cap_witness :
  exists r w1 req,
    PrebuiltQueries.queryAppLogs env_down "ws-guid" 60 (Some "timeout") (world_of ctx_ws) = (Ok r, w1)
    /\ queries w1 = [req]
    /\ Monitor.query req =
         "AppServiceConsoleLogs"
         +:+ LF +:+ "| where TimeGenerated > ago(60m)"
         +:+ LF +:+ "| where ResultDescription contains " +:+ PrebuiltQueries.DQ +:+ "timeout" +:+ PrebuiltQueries.DQ
         +:+ LF +:+ "| project TimeGenerated, Level, ResultDescription, Host"
         +:+ LF +:+ "| order by TimeGenerated desc"
         +:+ LF +:+ "| limit 500".
Proof.
  destruct (appLogs_filter_and_cap env_down "ws-guid" 60 (Some "timeout")
              (world_of ctx_ws) ltac:(vm_compute; discriminate))
    as [r [w1 [req [Hrun [Hq [_ [_ Hs]]]]]]].
  destruct (Hs "timeout" eq_refl) as [_ [Hcap _]].
  exists r, w1, req. split; [exact Hrun|]. split; [exact Hq|].
  rewrite (Hcap eq_refl). vm_compute. reflexivity.
Defined.

(** The HTTP query of the last hour for the status 404 under "/api"; the
    duration of zero adds no clause. *)
Lemma httpLogs_filter_and_cap_witness :
  exists r w1 req,
    PrebuiltQueries.queryHttpLogs env_down "ws-guid" 60
      (Some {| PrebuiltQueries.statusCode := Some 404;
               PrebuiltQueries.path := Some "/api";
               PrebuiltQueries.minDurationMs := Some 0 |})
      (world_of ctx_ws) = (Ok r, w1)
    /\ queries w1 = [req]
    /\ Monitor.query req =
         "AppServiceHTTPLogs"
         +:+ LF +:+ "| where TimeGenerated > ago(60m)"
         +:+ LF +:+ "| where ScStatus == 404"
         +:+ LF +:+ "| where CsUriStem contains " +:+ PrebuiltQueries.DQ +:+ "/api" +:+ PrebuiltQueries.DQ
         +:+ LF +:+ "| project TimeGenerated, CsMethod, CsUriStem, ScStatus, TimeTaken, CsHost, UserAgent"
         +:+ LF +:+ "| order by TimeGenerated desc"
         +:+ LF +:+ "| limit 500".
Proof.
  destruct (httpLogs_filter_and_cap env_down "ws-guid" 60
              (Some {| PrebuiltQueries.statusCode := Some 404;
                       PrebuiltQueries.path := Some "/api";
                       PrebuiltQueries.minDurationMs := Some 0 |})
              (world_of ctx_ws) ltac:(vm_compute; discriminate))
    as [r [w1 [req [Hrun [Hq [_ Hcap]]]]]].
  exists r, w1, req. split; [exact Hrun|]. split; [exact Hq|].
  rewrite (Hcap eq_refl). vm_compute. reflexivity.
Defined.

(** With one deployment in the history, the index -1 ends in a TypeError
    and the index 5 in the error text. *)
Lemma diagnose_index_out_of_range_witness :
  (exists w2,
     Tools.diagnose_deployment env_deployed (index_args (-1)) (world_of ctx_ws) =
       (Throw (TypeError "Cannot read properties of undefined (reading 'startTime')"),
        w2)
     /\ queries w2 = [] /\ fetches w2 = [])
  /\ (exists w2,
        Tools.diagnose_deployment env_deployed (index_args 5) (world_of ctx_ws) =
          (Ok "Error: No deployment found at index 5. Only 1 deployments available.",
           w2)
        /\ queries w2 = [] /\ fetches w2 = []).
Proof.
  split.
  - exact (proj1 (diagnose_index_out_of_range env_deployed (index_args (-1))
                    (world_of ctx_ws) ctx_ws (world_of ctx_ws) eq_refl)
                 eq_refl).
  - exact (proj2 (diagnose_index_out_of_range env_deployed (index_args 5)
                    (world_of ctx_ws) ctx_ws (world_of ctx_ws) eq_refl)
                 ltac:(vm_compute; discriminate)).
Defined.

(** A window of 20000 minutes: three empty sections and no query. *)
Lemma diagnose_window_beyond_ceiling_witness :
  let run := Tools.diagnose_deployment env_deployed (window_args 20000)
               (world_of ctx_ws) in
  value_of run =
    Some (Tools.preamble "2024-01-15T10:30:00.000Z" deployment_jan15
          +:+ Tools.platform_header 0 +:+ Tools.no_platform_events
          +:+ Tools.application_header 0 +:+ Tools.no_console_output
          +:+ Tools.http_header 0 +:+ Tools.no_http_requests
          +:+ Tools.summary 20000 "2024-01-15T10:30:00.000Z")
  /\ queries (snd run) = [].
Proof.
  destruct (diagnose_window_beyond_ceiling env_deployed (window_args 20000)
              (world_of ctx_ws) ctx_ws (world_of ctx_ws) [deployment_jan15]
              (snd (ArmClient.getDeployments env_deployed ctx_ws 1 (world_of ctx_ws)))
              deployment_jan15
              "2024-01-15T10:30:00.000Z" "2024-01-29T07:50:00.000Z"
              (Some "ws-guid") "ws-guid"
              (snd (ArmClient.getDeployments env_deployed ctx_ws 1 (world_of ctx_ws)))
              eq_refl eq_refl ltac:(vm_compute; reflexivity) eq_refl eq_refl
              eq_refl eq_refl eq_refl ltac:(vm_compute; reflexivity))
    as [Hrun Hq].
  cbv zeta. rewrite Hrun. split; [reflexivity | exact Hq].
Defined.

(** The three requests of a diagnosis with the default window. *)
Lemma diagnose_requests_witness :
  exists p c h,
    queries (snd (Tools.diagnose_deployment env_deployed no_args (world_of ctx_ws))) =
      [p; c; h]
    /\ map Monitor.query [p; c; h] =
         [ Tools.platformQuery "2024-01-15T10:30:00.000Z" "2024-01-15T10:40:00.000Z"
           +:+ LF +:+ "| limit 500";
           Tools.consoleQuery "2024-01-15T10:30:00.000Z" "2024-01-15T10:40:00.000Z"
           +:+ LF +:+ "| limit 500";
           Tools.httpQuery "2024-01-15T10:30:00.000Z" "2024-01-15T10:40:00.000Z" ]
    /\ Monitor.endTime p = Some 1705401000040.
Proof.
  destruct (diagnose_requests env_deployed no_args (world_of ctx_ws)
              ctx_ws (world_of ctx_ws) [deployment_jan15]
              (snd (ArmClient.getDeployments env_deployed ctx_ws 1 (world_of ctx_ws)))
              deployment_jan15
              "2024-01-15T10:30:00.000Z" "2024-01-15T10:40:00.000Z"
              (Some "ws-guid") "ws-guid"
              (snd (ArmClient.getDeployments env_deployed ctx_ws 1 (world_of ctx_ws)))
              eq_refl eq_refl ltac:(vm_compute; reflexivity) eq_refl eq_refl
              eq_refl eq_refl eq_refl ltac:(vm_compute; discriminate))
    as [p [c [h [Hq [Hp [Hc [Hh [_ [_ He]]]]]]]]].
  exists p, c, h. split; [exact Hq|]. cbn [map]. rewrite Hp, Hc, Hh.
  split; [reflexivity | exact He].
Defined.

(** "yesterday" is not a date the handler can read. *)
Lemma correlate_invalid_timestamp_witness :
  Tools.correlate_events env_deployed render vague_args (world_of ctx_ws) =
    (Throw (RangeError "Invalid time value"), world_of ctx_ws)
  /\ queries (world_of ctx_ws) = [].
Proof.
  exact (correlate_invalid_timestamp env_deployed render vague_args (world_of ctx_ws)
           ctx_ws (world_of ctx_ws) (Some "ws-guid") "ws-guid" (world_of ctx_ws)
           eq_refl eq_refl eq_refl eq_refl).
Defined.

(** Events of January 15 are asked for on January 16: the request spans
    09:30 to 10:30 of January 16. *)
Lemma correlate_request_span_witness :
  exists req,
    queries (snd (Tools.correlate_events env_deployed render (correlate_args (Some 2))
                    (world_of ctx_ws))) = [req]
    /\ Monitor.query req =
         Tools.correlate_query "2024-01-15T10:28:00.000Z" "2024-01-15T10:32:00.000Z"
         +:+ LF +:+ "| limit 500"
    /\ Monitor.endTime req = Some 1705401000000
    /\ Monitor.startTime req = Some 1705397400000.
Proof.
  exact (correlate_request_span env_deployed render (correlate_args (Some 2))
           (world_of ctx_ws) ctx_ws (world_of ctx_ws) (Some "ws-guid") "ws-guid"
           (world_of ctx_ws) "2024-01-15T10:30:00Z" 1705314600000
           eq_refl eq_refl eq_refl eq_refl eq_refl
           ltac:(vm_compute; discriminate) ltac:(vm_compute; discriminate)).
Defined.

(** Of the two streams, the one of January 15 comes first. *)
Lemma sort_entries_latest_first_witness :
  Permutation (Kudu.sort_entries env_two_streams [old_stream; new_stream])
    [old_stream; new_stream]
  /\ 1705226400000 <= 1705312800000.
Proof.
  destruct (sort_entries_latest_first env_two_streams [old_stream; new_stream]
              ltac:(repeat constructor; vm_compute; discriminate))
    as [Hp Ho].
  split; [exact Hp|].
  exact (Ho [] new_stream [] old_stream [] 1705312800000 1705226400000
           eq_refl eq_refl eq_refl).
Defined.

(** The stream of January 15 is the one that is read. *)
Lemma getContainerLogs_reads_latest_witness :
  exists latest,
    In latest [old_stream; new_stream]
    /\ (forall e t t',
          In e [old_stream; new_stream] ->
          updated_at env_two_streams e = Some t ->
          updated_at env_two_streams latest = Some t' -> t <= t')
    /\ fetches (snd (Kudu.getContainerLogs env_two_streams "app" 100 (world_of ctx_ws))) =
         [docker_url; href latest].
Proof.
  exact (getContainerLogs_reads_latest env_two_streams "app" 100 (world_of ctx_ws)
           (response_json [old_stream; new_stream]) [old_stream; new_stream]
           eq_refl eq_refl eq_refl ltac:(discriminate)
           ltac:(repeat constructor; vm_compute; discriminate)).
Defined.

(** The line kept for the filter "SITE" is not blank and contains "site". *)
Lemma getRecentLogs_entries_witness :
  Kudu.not_blank "2024-01-15T10:29:58 Site started" = true
  /\ includes (toLowerCase "2024-01-15T10:29:58 Site started") (toLowerCase "SITE") = true.
Proof.
  destruct (getRecentLogs_entries env_live "app" 100 (Some "SITE") (world_of ctx_ws)
              {| Kudu.success := true;
                 Kudu.entries :=
                   [ {| Kudu.timestamp := "2024-01-15T10:29:58";
                        Kudu.content := "2024-01-15T10:29:58 Site started" |} ];
                 Kudu.error := None |}
              (snd (Kudu.getRecentLogs env_live "app" 100 (Some "SITE") (world_of ctx_ws)))
              eq_refl
              {| Kudu.timestamp := "2024-01-15T10:29:58";
                 Kudu.content := "2024-01-15T10:29:58 Site started" |}
              (or_introl eq_refl))
    as [Hb Hf].
  split; [exact Hb|]. exact (Hf "SITE" eq_refl ltac:(discriminate)).
Defined.

(** With the Kudu host unreachable both sources fail. *)
Lemma getRecentLogs_failure_witness :
  let r := {| Kudu.success := false; Kudu.entries := [];
              Kudu.error :=
                Some "Failed to list container logs: getaddrinfo ENOTFOUND" |} in
  let w1 := snd (Kudu.getRecentLogs env_down "app" 100 None (world_of ctx_ws)) in
  exists w0,
    Kudu.getContainerLogs env_down "app" 100 (world_of ctx_ws) = (Ok r, w0)
    /\ Kudu.entries r = []
    /\ Kudu.error r <> None
    /\ ((exists e, Kudu.listLogFiles env_down "app" "/LogFiles/Application/" w0 =
                     (Throw e, w1))
        \/ (exists files w2 first others e,
              Kudu.listLogFiles env_down "app" "/LogFiles/Application/" w0 =
                (Ok files, w2)
              /\ Kudu.sort_entries env_down files = first :: others
              /\ Kudu.readLogFile env_down "app" (path first) 100000 w2 =
                   (Throw e, w1))).
Proof.
  exact (getRecentLogs_failure env_down "app" 100 None (world_of ctx_ws)
           _ _ eq_refl eq_refl).
Defined.

(** Ten characters of the application log are kept. *)
Lemma readLogFile_truncates_witness :
  exists response,
    fetch_answer env_files_only (world_of ctx_ws) file_url = Ok response
    /\ Fetch.ok response = true
    /\ Z.of_nat (String.length ("g on 8080" +:+ LF +:+ LF +:+ "... (truncated)")) <= 26
    /\ ((Z.of_nat (String.length (Fetch.text response)) <= 10
         /\ "g on 8080" +:+ LF +:+ LF +:+ "... (truncated)" = Fetch.text response)
        \/ (10 < Z.of_nat (String.length (Fetch.text response))
            /\ exists dropped kept,
                 Fetch.text response = dropped +:+ kept
                 /\ Z.of_nat (String.length kept) = 10
                 /\ "g on 8080" +:+ LF +:+ LF +:+ "... (truncated)" =
                      kept +:+ LF +:+ "... (truncated)")).
Proof.
  exact (proj1 (readLogFile_truncates env_files_only "app"
                  "/LogFiles/Application/app.log" 10 (world_of ctx_ws) eq_refl)
               _ _ eq_refl).
Defined.

(** No context anywhere: the instructions and the configuration error;
    then [set_context] and the names it stored. *)
Lemma handlers_require_context_witness :
  let w := world_without_context in
  let args := tool_args "AppServiceHTTPLogs" None None in
  let refused {A} (handler : M A) :=
    handler w = (Throw (Error Context.no_context_message), w) in
  ToolCases.get_context env_down w = (Ok ToolCases.no_context_text, w)
  /\ refused (ToolCases.check_diagnostics env_down render_diagnostics)
  /\ refused (ToolCases.query_logs env_down render args)
  /\ refused (ToolCases.get_recent_logs env_down render_kudu args)
  /\ refused (ToolCases.get_http_errors env_down render_summary args)
  /\ refused (ToolCases.get_slow_requests env_down render args)
  /\ refused (ToolCases.get_restarts env_down render render_kudu args)
  /\ refused (ToolCases.summarize_errors env_down render_summary args)
  /\ refused (Tools.correlate_events env_down render no_args)
  /\ refused (Tools.diagnose_deployment env_down no_args)
  /\ exists text w1,
       ToolCases.set_context args w = (Ok text, w1)
       /\ ToolCases.get_context env_down w1 =
            (Ok ("**Current App Service**"
                 +:+ LF +:+ "- Subscription: sub"
                 +:+ LF +:+ "- Resource Group: rg"
                 +:+ LF +:+ "- App: app"), w1)
       /\ Context.requireAppContext env_down w1 = (Ok ctx_plain, w1).
Proof.
  exact (handlers_require_context env_down render render_summary render_kudu
           render_diagnostics (tool_args "AppServiceHTTPLogs" None None) no_args
           world_without_context eq_refl eq_refl).
Defined.

(** Without a workspace [query_logs] answers with its error text and
    [get_restarts] shows the two lines of the live stream. *)
Lemma handlers_without_workspace_witness :
  let args := tool_args "AppServiceHTTPLogs" None None in
  value_of (ToolCases.query_logs env_live render args (world_of ctx_plain)) =
    Some ToolCases.query_logs_unavailable
  /\ value_of (ToolCases.get_restarts env_live render render_kudu args
                 (world_of ctx_plain)) =
       Some ("entries: 2" +:+ LF +:+ LF
             +:+ "_Note: Full restart history requires Log Analytics._")
  /\ queries (snd (ToolCases.get_restarts env_live render render_kudu args
                     (world_of ctx_plain))) = [].
Proof.
  destruct (handlers_without_workspace env_live render render_summary render_kudu
              (tool_args "AppServiceHTTPLogs" None None) (world_of ctx_plain)
              ctx_plain (world_of ctx_plain) None
              (snd (Tools.getWorkspaceId env_live ctx_plain (world_of ctx_plain)))
              eq_refl eq_refl eq_refl)
    as [Hq [_ [_ [_ [_ [_ [k [w3 [Hk [Hr [Hqs _]]]]]]]]]]].
  cbv zeta. rewrite Hq, Hr. cbn [value_of fst snd].
  split; [reflexivity|]. split; [|exact Hqs].
  vm_compute in Hk. injection Hk as <- _. reflexivity.
Defined.

(** With [hours] at 200 the error summary is rejected, while the HTTP
    errors of the last 60 minutes are asked for. *)
Lemma handlers_with_workspace_witness :
  let args := tool_args "AppServiceHTTPLogs" None (Some 200) in
  (exists r w3 req,
     LogAnalytics.query env_deployed "ws-guid" (PrebuiltQueries.httpErrorsText 60) 60
       (world_of ctx_ws) = (Ok r, w3)
     /\ ToolCases.get_http_errors env_deployed render_summary args (world_of ctx_ws) =
          (Ok (render_summary r), w3)
     /\ queries w3 = [req]
     /\ Monitor.workspaceId req = "ws-guid"
     /\ Monitor.query req = PrebuiltQueries.httpErrorsText 60 +:+ LF +:+ "| limit 500")
  /\ ToolCases.summarize_errors env_deployed render_summary args (world_of ctx_ws) =
       (Ok (render_summary
              {| LogAnalytics.success := false;
                 LogAnalytics.rowCount := 0;
                 LogAnalytics.truncated := false;
                 LogAnalytics.columns := [];
                 LogAnalytics.rows := [];
                 LogAnalytics.queryTimeMs := 0;
                 LogAnalytics.error :=
                   Some "Time range exceeds maximum of 7 days. Use a shorter time range." |}),
        world_of ctx_ws)
  /\ queries (world_of ctx_ws) = [].
Proof.
  destruct (handlers_with_workspace env_deployed render render_summary render_kudu
              (tool_args "AppServiceHTTPLogs" None (Some 200)) (world_of ctx_ws)
              ctx_ws (world_of ctx_ws) (Some "ws-guid") "ws-guid" (world_of ctx_ws)
              eq_refl eq_refl eq_refl)
    as [Hhttp [_ [_ Hsum]]].
  split.
  - exact (proj2 Hhttp ltac:(vm_compute; discriminate)).
  - exact (proj1 Hsum ltac:(vm_compute; reflexivity)).
Defined.

(** A query with its own "| take 5" is sent as it is, over the last hour. *)
Lemma query_logs_guarded_witness :
  let args := tool_args "AppServiceHTTPLogs | take 5" None None in
  exists r w3 req,
    ToolCases.query_logs env_deployed render args (world_of ctx_ws) =
      (Ok (render r "Query Results"), w3)
    /\ queries w3 = [req]
    /\ Monitor.workspaceId req = "ws-guid"
    /\ (Monitor.query req = "AppServiceHTTPLogs | take 5"
        \/ Monitor.query req = "AppServiceHTTPLogs | take 5" +:+ LF +:+ "| limit 500")
    /\ Monitor.endTime req = Some 1705401000000
    /\ Monitor.startTime req = Some 1705397400000.
Proof.
  exact (proj2 (query_logs_guarded env_deployed render
                  (tool_args "AppServiceHTTPLogs | take 5" None None)
                  (world_of ctx_ws) ctx_ws (world_of ctx_ws) (Some "ws-guid")
                  "ws-guid" (world_of ctx_ws) eq_refl eq_refl eq_refl)
               ltac:(vm_compute; discriminate)).
Defined.

(** The live stream, filtered on "SITE", as [get_recent_logs] shows it. *)
Lemma get_recent_logs_display_witness :
  let args := tool_args "AppServiceHTTPLogs" (Some "SITE") None in
  value_of (ToolCases.get_recent_logs env_live
              (fun r => Formatter.formatKuduLogs r 50) args (world_of ctx_ws)) =
    Some ("**Recent container logs** (1 lines)" +:+ LF +:+ LF
          +:+ "```" +:+ LF
          +:+ "2024-01-15T10:29:58 Site started" +:+ LF
          +:+ "```").
Proof.
  destruct (get_recent_logs_display env_live
              (tool_args "AppServiceHTTPLogs" (Some "SITE") None) (world_of ctx_ws)
              ctx_ws (world_of ctx_ws) eq_refl)
    as [result [w2 [text [Hk [Hr [_ [_ [_ [_ Hshown]]]]]]]]].
  cbv zeta. rewrite Hr. cbn [value_of fst]. f_equal.
  vm_compute in Hk. injection Hk as <- _.
  destruct (Hshown eq_refl ltac:(discriminate)) as [hidden [shown [Hsplit [Hlen ->]]]].
  destruct hidden as [|h hidden].
  - cbn [app] in Hsplit. subst shown. vm_compute. reflexivity.
  - exfalso. cbn [app] in Hsplit. injection Hsplit as _ Hnil.
    symmetry in Hnil. apply app_eq_nil in Hnil. destruct Hnil as [_ ->].
    vm_compute in Hlen. discriminate Hlen.
Defined.

End MoreRuns.
